(** * Unit-76: the decision router, goal registry and actuator boundary

    A shallow embedding of the Python sources under [src/]:
    - [input_emulator.py]        (ActionController: press, smooth_look,
                                  emergency_stop_all),
    - [local_llm_lightweight.py] (LightweightBrain),
    - [local_llm_module.py]      (LocalBrain),
    - [llm_module.py]            (BigBrain),
    - [main_bot_enhanced.py]     (FastDecisionMaker, GoalManager, WorldDatabase,
                                  IntelligentFallout76AI),
    - [comprehensive_fo76_ai.py] (GoalManager, IntelligentDecisionMaker,
                                  ComprehensiveAI, WorldDatabase),
    - [main_bot.py]              (IntelligentF76AI: the decision and its
                                  execution).

    Conventions.  A Python [str] is a [string], the bytes of its UTF-8 form;
    [str.lower] and [str.upper] are modelled on ASCII text, the substring
    test [x in s] on any.  A [dict] whose order
    matters (goal registry, action plans) is an association list in insertion
    order; a [dict] that is only read with [.get] (a context) is a [gmap].
    Exceptions are values of [exn] carried by [result]; network backends,
    the clock, the sleep and the division of the weights are explicit
    arguments.  An object that is handed out by reference and written to by
    its receiver (the table of reflexes) is a field of the state, the
    reference is its key.  Complexity scores, thresholds and clock readings
    are binary64 floats. *)

From Stdlib Require Import ZArith String Ascii List Bool Lia DecimalString.
From Stdlib Require Import DecimalFacts DecimalPos DecimalN DecimalZ.
From Stdlib Require Import Permutation Sorted.
From Stdlib Require Import PrimFloat FloatOps SpecFloat.
From stdpp Require Import gmap strings.
Import ListNotations.

Set Warnings "-inexact-float,-register-all".
Local Open Scope string_scope.
Local Open Scope list_scope.
Local Open Scope Z_scope.

(** ** Python values shared by the modules *)

Module Py.

(** Exceptions the modelled code can raise or must handle. *)
Inductive exn : Type :=
| NameError (name : string)
| UnboundLocalError (name : string)
| AttributeError
| TypeError
| KeyError (key : string)
| IndexError
| ValueError (msg : string)
| JSONDecodeError
| RequestException.

Inductive result (A : Type) : Type :=
| Ok (a : A)
| Raise (e : exn).
Arguments Ok {A} a.
Arguments Raise {A} e.

Definition rbind {A B} (r : result A) (k : A -> result B) : result B :=
  match r with
  | Ok a => k a
  | Raise e => Raise e
  end.

(** *** Strings *)

Definition dq : string := String "034"%char EmptyString.

(** A [str] is carried as the bytes of its UTF-8 form.  [lower] and [upper]
    are [str.lower] and [str.upper] on ASCII text, where they change the
    letters A to Z and a to z and nothing else.  On other text Python does
    more (the Kelvin sign lowers to k, the long s raises to S), so a statement
    that depends on the case mapping of arbitrary text asks for [isascii]. *)

Definition lower_char (c : ascii) : ascii :=
  let n := nat_of_ascii c in
  if ((65 <=? n) && (n <=? 90))%nat then ascii_of_nat (n + 32) else c.

Definition upper_char (c : ascii) : ascii :=
  let n := nat_of_ascii c in
  if ((97 <=? n) && (n <=? 122))%nat then ascii_of_nat (n - 32) else c.

Fixpoint lower (s : string) : string :=
  match s with
  | EmptyString => EmptyString
  | String c t => String (lower_char c) (lower t)
  end.

Fixpoint upper (s : string) : string :=
  match s with
  | EmptyString => EmptyString
  | String c t => String (upper_char c) (upper t)
  end.

(** [s.isascii()]: every character of [s] is below 128. *)
Fixpoint isascii (s : string) : bool :=
  match s with
  | EmptyString => true
  | String c t => (nat_of_ascii c <? 128)%nat && isascii t
  end.

(** [contains x s] is Python's [x in s] on strings: [x] occurs in [s] as a
    contiguous substring. *)
Fixpoint contains (x s : string) : bool :=
  if String.prefix x s then true
  else match s with
       | EmptyString => false
       | String _ t => contains x t
       end.

(** [x in l] on a list of strings: membership of an element. *)
Definition str_in_list (x : string) (l : list string) : bool :=
  existsb (String.eqb x) l.

(** *** Ordered dictionaries *)

Section Dict.
Context {V : Type}.

Fixpoint dict_get (d : list (string * V)) (k : string) : option V :=
  match d with
  | [] => None
  | (k', v) :: t => if String.eqb k k' then Some v else dict_get t k
  end.

Definition dict_mem (d : list (string * V)) (k : string) : bool :=
  match dict_get d k with Some _ => true | None => false end.

(** [d[k] = v]: an existing key keeps its position, a new key is appended. *)
Fixpoint dict_set (d : list (string * V)) (k : string) (v : V) : list (string * V) :=
  match d with
  | [] => [(k, v)]
  | (k', v') :: t =>
      if String.eqb k k' then (k', v) :: t else (k', v') :: dict_set t k v
  end.

Definition dict_get_default (d : list (string * V)) (k : string) (dflt : V) : V :=
  match dict_get d k with Some v => v | None => dflt end.
End Dict.

(** *** Values that cross the JSON codec: action plans and response bodies

    A float of a plan is only stored, compared for equality and printed; it
    is carried as the decimal numeral [dmant * 10^dexp] that [repr] prints
    for it: zero as 0 times 10^0, otherwise a mantissa without trailing
    zeros.  Every such numeral of at most 15 significant digits is the
    [repr] of a float; a longer numeral is kept as it is written, where the
    library rounds it to binary64. *)

Record decimal : Type := Dec { dmant : Z; dexp : Z }.

Inductive json : Type :=
| JNull
| JBool (b : bool)
| JInt (n : Z)
| JFloat (d : decimal)
| JStr (s : string)
| JArr (l : list json)
| JObj (d : list (string * json)).

(** Truth value of a JSON-born Python value ([if plan:]). *)
Definition truthy (v : json) : bool :=
  match v with
  | JNull => false
  | JBool b => b
  | JInt n => negb (n =? 0)
  | JFloat d => negb (dmant d =? 0)
  | JStr s => negb (String.eqb s "")
  | JArr l => match l with [] => false | _ => true end
  | JObj d => match d with [] => false | _ => true end
  end.

(** [x in v] for a string [x]. *)
Definition json_in (x : string) (v : json) : result bool :=
  match v with
  | JObj d => Ok (dict_mem d x)
  | JArr l => Ok (existsb (fun e => match e with JStr s => String.eqb s x | _ => false end) l)
  | JStr s => Ok (contains x s)
  | _ => Raise TypeError
  end.

(** [v[k]] for a string key [k]. *)
Definition json_getitem (v : json) (k : string) : result json :=
  match v with
  | JObj d => match dict_get d k with Some x => Ok x | None => Raise (KeyError k) end
  | _ => Raise TypeError
  end.

(** [v[0]]. *)
Definition json_first (v : json) : result json :=
  match v with
  | JArr l => match l with x :: _ => Ok x | [] => Raise IndexError end
  | JStr s => match s with String c _ => Ok (JStr (String c EmptyString)) | EmptyString => Raise IndexError end
  | JObj _ => Raise (KeyError "0")
  | _ => Raise TypeError
  end.

(** [len(v)]. *)
Definition json_len (v : json) : result Z :=
  match v with
  | JArr l => Ok (Z.of_nat (List.length l))
  | JStr s => Ok (Z.of_nat (String.length s))
  | JObj d => Ok (Z.of_nat (List.length d))
  | _ => Raise TypeError
  end.

(** [v.get(k, dflt)]. *)
Definition json_get (v : json) (k : string) (dflt : json) : result json :=
  match v with
  | JObj d => Ok (dict_get_default d k dflt)
  | _ => Raise AttributeError
  end.

(** A value used where the code needs a [str] (slicing, [re.search]). *)
Definition json_as_str (v : json) : result string :=
  match v with
  | JStr s => Ok s
  | _ => Raise TypeError
  end.

(** *** Perception and context values *)

Inductive pyval : Type :=
| PyNone
| PyBool (b : bool)
| PyInt (n : Z)
| PyFloat (f : float)
| PyStr (s : string)
| PyList (l : list pyval)
| PyDict (d : list (string * pyval)).

Definition py_truthy (v : pyval) : bool :=
  match v with
  | PyNone => false
  | PyBool b => b
  | PyInt n => negb (n =? 0)
  | PyFloat f => negb (PrimFloat.eqb f 0%float)
  | PyStr s => negb (String.eqb s "")
  | PyList l => match l with [] => false | _ => true end
  | PyDict d => match d with [] => false | _ => true end
  end.

(** Numbers, with [bool] a subtype of [int]. *)
Inductive num : Type :=
| NInt (n : Z)
| NFloat (f : float).

Definition as_num (v : pyval) : option num :=
  match v with
  | PyBool b => Some (NInt (if b then 1 else 0))
  | PyInt n => Some (NInt n)
  | PyFloat f => Some (NFloat f)
  | _ => None
  end.

(** [float(n)]: the binary64 float nearest to an integer. *)
Definition float_of_int (n : Z) : float := SF2Prim (binary_normalize prec emax n 0 false).

(** Exact comparison of an integer with a binary64 float; [None] for NaN. *)
Definition Z_float_compare (n : Z) (f : float) : option comparison :=
  match Prim2SF f with
  | S754_zero _ => Some (n ?= 0)
  | S754_infinity false => Some Lt
  | S754_infinity true => Some Gt
  | S754_nan => None
  | S754_finite s m e =>
      let v := if s then Z.neg m else Z.pos m in
      if 0 <=? e then Some (n ?= v * 2 ^ e) else Some (n * 2 ^ (- e) ?= v)
  end.

Definition num_compare (a b : num) : option comparison :=
  match a, b with
  | NInt x, NInt y => Some (x ?= y)
  | NFloat x, NFloat y =>
      match PrimFloat.compare x y with
      | FEq => Some Eq
      | FLt => Some Lt
      | FGt => Some Gt
      | FNotComparable => None
      end
  | NInt x, NFloat y => Z_float_compare x y
  | NFloat x, NInt y => option_map CompOpp (Z_float_compare y x)
  end.

(** [a < b], [a > b], [a >= b].  An ordering with a non-number raises
    TypeError; this is Python's answer whenever one operand is a number, which
    holds at every use in the modelled code. *)
Definition py_order (test : option comparison -> bool) (a b : pyval) : result bool :=
  match as_num a, as_num b with
  | Some x, Some y => Ok (test (num_compare x y))
  | _, _ => Raise TypeError
  end.

Definition py_lt : pyval -> pyval -> result bool :=
  py_order (fun c => match c with Some Lt => true | _ => false end).
Definition py_gt : pyval -> pyval -> result bool :=
  py_order (fun c => match c with Some Gt => true | _ => false end).
Definition py_ge : pyval -> pyval -> result bool :=
  py_order (fun c => match c with Some Gt | Some Eq => true | _ => false end).

(** Iterating a value: a list yields its elements, a string its characters,
    a dict its keys. *)
Fixpoint chars (s : string) : list pyval :=
  match s with
  | EmptyString => []
  | String c t => PyStr (String c EmptyString) :: chars t
  end.

Definition py_iter (v : pyval) : result (list pyval) :=
  match v with
  | PyList l => Ok l
  | PyStr s => Ok (chars s)
  | PyDict d => Ok (map (fun kv => PyStr (fst kv)) d)
  | _ => Raise TypeError
  end.

(** [len(v)]. *)
Definition py_len (v : pyval) : result Z :=
  match v with
  | PyList l => Ok (Z.of_nat (List.length l))
  | PyStr s => Ok (Z.of_nat (String.length s))
  | PyDict d => Ok (Z.of_nat (List.length d))
  | _ => Raise TypeError
  end.

(** The items of the slice [v[:n]]; a dict cannot be sliced. *)
Definition py_slice (n : nat) (v : pyval) : result (list pyval) :=
  match v with
  | PyList l => Ok (firstn n l)
  | PyStr s => Ok (chars (String.substring 0 n s))
  | _ => Raise TypeError
  end.

(** [sep.join(items)]: every item has to be a [str]. *)
Fixpoint py_strings (items : list pyval) : result (list string) :=
  match items with
  | [] => Ok []
  | PyStr s :: rest => rbind (py_strings rest) (fun tail => Ok (s :: tail))
  | _ :: _ => Raise TypeError
  end.

(** *** Regular expressions

    The fragment of [re] the sources use: a sequence of single-character
    tests and greedy starred tests, searched leftmost with backtracking. *)

Inductive atom : Type :=
| One (p : ascii -> bool)
| Star (p : ascii -> bool).

(** Length of the match of [pat] anchored at the start of [s]; a star first
    takes as many characters as it can and gives them back one at a time. *)
Fixpoint match_here (pat : list atom) (s : string) {struct pat} : option nat :=
  match pat with
  | [] => Some O
  | One p :: rest =>
      match s with
      | String c t => if p c then option_map S (match_here rest t) else None
      | EmptyString => None
      end
  | Star p :: rest =>
      (fix star (s : string) : option nat :=
         match s with
         | String c t =>
             if p c then
               match star t with
               | Some n => Some (S n)
               | None => match_here rest s
               end
             else match_here rest s
         | EmptyString => match_here rest s
         end) s
  end.

(** [re.search(pat, s).group(0)], or [None]. *)
Fixpoint re_search (pat : list atom) (s : string) : option string :=
  match match_here pat s with
  | Some n => Some (String.substring 0 n s)
  | None =>
      match s with
      | String _ t => re_search pat t
      | EmptyString => None
      end
  end.

Definition is_char (c : ascii) : ascii -> bool := Ascii.eqb c.
Definition not_char (c : ascii) : ascii -> bool := fun x => negb (Ascii.eqb c x).
Definition any_char : ascii -> bool := fun _ => true.

(** [r'\{.*\}'] with [re.DOTALL]. *)
Definition re_braces_greedy : list atom :=
  [One (is_char "{"); Star any_char; One (is_char "}")].

(** [r'\{[^}]*\}'] with [re.DOTALL]. *)
Definition re_braces_flat : list atom :=
  [One (is_char "{"); Star (not_char "}"); One (is_char "}")].

End Py.
Import Py.

(** ** The JSON codec

    [json.loads] and [json.dumps] belong to the Python library.  The modules
    below take the decoder as an argument; this section gives a reference
    codec for concrete evaluation and for the round trip of a plan.  It
    follows the library's grammar for objects, arrays, strings (with their
    escapes), integers, decimals and the three literals.  Outside it: the
    literals NaN and Infinity, the sign of zero, surrogate escapes, non-ASCII
    text on output, and the rounding of a long numeral to binary64. *)

Module Json.

Definition c_dq : ascii := "034"%char.
Definition c_bs : ascii := "092"%char.

Definition is_ws (c : ascii) : bool :=
  let n := nat_of_ascii c in
  ((n =? 32) || (n =? 9) || (n =? 10) || (n =? 13))%nat.

Fixpoint skip_ws (s : string) : string :=
  match s with
  | String c t => if is_ws c then skip_ws t else s
  | EmptyString => s
  end.

Definition is_digit (c : ascii) : bool :=
  let n := nat_of_ascii c in ((48 <=? n) && (n <=? 57))%nat.

Definition digit_val (c : ascii) : Z := Z.of_nat (nat_of_ascii c) - 48.

Definition hex_val (c : ascii) : option Z :=
  let n := Z.of_nat (nat_of_ascii c) in
  if (48 <=? n) && (n <=? 57) then Some (n - 48)
  else if (97 <=? n) && (n <=? 102) then Some (n - 87)
  else if (65 <=? n) && (n <=? 70) then Some (n - 55)
  else None.

Definition byte (n : Z) : ascii := ascii_of_nat (Z.to_nat n).

(** UTF-8 bytes of a code point of the Basic Multilingual Plane. *)
Definition utf8 (code : Z) : option string :=
  if code <? 128 then Some (String (byte code) "")
  else if code <? 2048 then
    Some (String (byte (192 + code / 64)) (String (byte (128 + code mod 64)) ""))
  else if (55296 <=? code) && (code <=? 57343) then None
  else
    Some (String (byte (224 + code / 4096))
            (String (byte (128 + (code / 64) mod 64))
               (String (byte (128 + code mod 64)) ""))).

Definition simple_escape (c : ascii) : option ascii :=
  let n := nat_of_ascii c in
  if (n =? 34)%nat then Some c_dq
  else if (n =? 92)%nat then Some c_bs
  else if (n =? 47)%nat then Some "/"%char
  else if (n =? 98)%nat then Some (ascii_of_nat 8)
  else if (n =? 102)%nat then Some (ascii_of_nat 12)
  else if (n =? 110)%nat then Some (ascii_of_nat 10)
  else if (n =? 114)%nat then Some (ascii_of_nat 13)
  else if (n =? 116)%nat then Some (ascii_of_nat 9)
  else None.

Definition cons_str (pre : string) (r : option (string * string)) : option (string * string) :=
  match r with
  | Some (body, rest) => Some (String.append pre body, rest)
  | None => None
  end.

(** The characters after an opening quote: the decoded string and the text
    after the closing quote. *)
Fixpoint scan_string (s : string) : option (string * string) :=
  match s with
  | EmptyString => None
  | String c t =>
      if Ascii.eqb c c_dq then Some ("", t)
      else if Ascii.eqb c c_bs then
        match t with
        | EmptyString => None
        | String e t1 =>
            match simple_escape e with
            | Some x => cons_str (String x "") (scan_string t1)
            | None =>
                if Ascii.eqb e "u" then
                  match t1 with
                  | String h1 (String h2 (String h3 (String h4 t2))) =>
                      match hex_val h1, hex_val h2, hex_val h3, hex_val h4 with
                      | Some a, Some b, Some c', Some d =>
                          match utf8 (((a * 16 + b) * 16 + c') * 16 + d) with
                          | Some bytes => cons_str bytes (scan_string t2)
                          | None => None
                          end
                      | _, _, _, _ => None
                      end
                  | _ => None
                  end
                else None
            end
        end
      else if (nat_of_ascii c <? 32)%nat then None
      else cons_str (String c "") (scan_string t)
  end.

(** The longest prefix of digits, as (number of digits, value, rest). *)
Fixpoint scan_digits (acc : Z) (n : Z) (s : string) : Z * Z * string :=
  match s with
  | String c t => if is_digit c then scan_digits (acc * 10 + digit_val c) (n + 1) t else (n, acc, s)
  | EmptyString => (n, acc, s)
  end.

(** Mantissa without trailing zeros. *)
Fixpoint strip_zeros (fuel : nat) (m e : Z) : decimal :=
  match fuel with
  | O => Dec m e
  | S f => if m =? 0 then Dec 0 0
           else if m mod 10 =? 0 then strip_zeros f (m / 10) (e + 1)
           else Dec m e
  end.

Definition normalize (m e : Z) : decimal := strip_zeros (Z.to_nat (Z.log2 (Z.abs m)) + 1) m e.

(** A number at the start of [s]: an optional minus sign; a zero or a
    non-zero digit followed by digits; optionally a point and one or more
    digits; optionally [e] or [E], a sign and one or more digits.  An optional
    group that does not match in full is left in the text. *)
Definition scan_number (s : string) : option (json * string) :=
  let '(neg, s1) :=
    match s with
    | String c t => if Ascii.eqb c "-" then (true, t) else (false, s)
    | EmptyString => (false, s)
    end in
  let int_part :=
    match s1 with
    | String c t =>
        if Ascii.eqb c "0" then Some (0, t)
        else if is_digit c then let '(_, v, r) := scan_digits 0 0 s1 in Some (v, r)
        else None
    | EmptyString => None
    end in
  match int_part with
  | None => None
  | Some (iv, s2) =>
      let '(frac, s3) :=
        match s2 with
        | String c t =>
            if Ascii.eqb c "." then
              let '(n, v, r) := scan_digits 0 0 t in
              if 0 <? n then (Some (n, v), r) else (None, s2)
            else (None, s2)
        | EmptyString => (None, s2)
        end in
      let '(ex, s4) :=
        match s3 with
        | String c t =>
            if Ascii.eqb c "e" || Ascii.eqb c "E" then
              let '(sg, t1) :=
                match t with
                | String c1 t' =>
                    if Ascii.eqb c1 "-" then (-1, t')
                    else if Ascii.eqb c1 "+" then (1, t')
                    else (1, t)
                | EmptyString => (1, t)
                end in
              let '(n, v, r) := scan_digits 0 0 t1 in
              if 0 <? n then (Some (sg * v), r) else (None, s3)
            else (None, s3)
        | EmptyString => (None, s3)
        end in
      let sign := if neg : bool then -1 else 1 in
      match frac, ex with
      | None, None => Some (JInt (sign * iv), s4)
      | _, _ =>
          let '(fn, fv) := match frac with Some p => p | None => (0, 0) end in
          let e := match ex with Some e => e | None => 0 end in
          Some (JFloat (normalize (sign * (iv * 10 ^ fn + fv)) (e - fn)), s4)
      end
  end.

Definition strip_prefix (pre s : string) : option string :=
  if String.prefix pre s
  then Some (String.substring (String.length pre) (String.length s - String.length pre) s)
  else None.

(** [scan_once]: a value at the very start of [s].  Objects and arrays skip
    white space around their members, as the library does. *)
Fixpoint scan_value (fuel : nat) (s : string) {struct fuel} : option (json * string) :=
  match fuel with
  | O => None
  | S f =>
      match s with
      | EmptyString => None
      | String c t =>
          if Ascii.eqb c c_dq then
            match scan_string t with
            | Some (x, r) => Some (JStr x, r)
            | None => None
            end
          else if Ascii.eqb c "{" then
            match skip_ws t with
            | String c1 t1 =>
                if Ascii.eqb c1 "}" then Some (JObj [], t1)
                else match scan_members f [] (String c1 t1) with
                     | Some (d, r) => Some (JObj d, r)
                     | None => None
                     end
            | EmptyString => None
            end
          else if Ascii.eqb c "[" then
            match skip_ws t with
            | String c1 t1 =>
                if Ascii.eqb c1 "]" then Some (JArr [], t1)
                else match scan_elements f [] (String c1 t1) with
                     | Some (l, r) => Some (JArr l, r)
                     | None => None
                     end
            | EmptyString => None
            end
          else if Ascii.eqb c "n" then
            match strip_prefix "null" s with Some r => Some (JNull, r) | None => None end
          else if Ascii.eqb c "t" then
            match strip_prefix "true" s with Some r => Some (JBool true, r) | None => None end
          else if Ascii.eqb c "f" then
            match strip_prefix "false" s with Some r => Some (JBool false, r) | None => None end
          else scan_number s
      end
  end

(** Members of an object, [s] at the quote of the next key. *)
with scan_members (fuel : nat) (acc : list (string * json)) (s : string) {struct fuel}
  : option (list (string * json) * string) :=
  match fuel with
  | O => None
  | S f =>
      match s with
      | String c t =>
          if Ascii.eqb c c_dq then
            match scan_string t with
            | None => None
            | Some (key, r) =>
                match skip_ws r with
                | String c1 r1 =>
                    if Ascii.eqb c1 ":" then
                      match scan_value f (skip_ws r1) with
                      | None => None
                      | Some (v, r2) =>
                          let acc' := dict_set acc key v in
                          match skip_ws r2 with
                          | String c2 r3 =>
                              if Ascii.eqb c2 "}" then Some (acc', r3)
                              else if Ascii.eqb c2 "," then scan_members f acc' (skip_ws r3)
                              else None
                          | EmptyString => None
                          end
                      end
                    else None
                | EmptyString => None
                end
            end
          else None
      | EmptyString => None
      end
  end

(** Elements of an array, [s] at the next element. *)
with scan_elements (fuel : nat) (acc : list json) (s : string) {struct fuel}
  : option (list json * string) :=
  match fuel with
  | O => None
  | S f =>
      match scan_value f s with
      | None => None
      | Some (v, r) =>
          let acc' := acc ++ [v] in
          match skip_ws r with
          | String c r1 =>
              if Ascii.eqb c "]" then Some (acc', r1)
              else if Ascii.eqb c "," then scan_elements f acc' (skip_ws r1)
              else None
          | EmptyString => None
          end
      end
  end.

(** [json.loads(s)]; [None] stands for JSONDecodeError. *)
Definition loads_value (s : string) : option json :=
  let s := skip_ws s in
  match scan_value (2 * String.length s + 2) s with
  | Some (v, rest) =>
      match skip_ws rest with
      | EmptyString => Some v
      | String _ _ => None
      end
  | None => None
  end.

(** [json.loads] at the call sites of the sources, where the text is a regex
    match that begins with an opening brace: the decoded dict. *)
Definition loads (s : string) : result (list (string * json)) :=
  match loads_value s with
  | Some (JObj d) => Ok d
  | _ => Raise JSONDecodeError
  end.

(** *** [json.dumps] with its default settings *)

Definition Z_to_string (n : Z) : string :=
  DecimalString.NilZero.string_of_int (Z.to_int n).

Definition hex_digit (n : Z) : ascii :=
  if n <? 10 then byte (48 + n) else byte (87 + n).

(** One character inside a string literal ([ensure_ascii] is on). *)
Definition escape_char (c : ascii) : option string :=
  let n := Z.of_nat (nat_of_ascii c) in
  let bs x := String c_bs (String x "") in
  if n =? 34 then Some (bs c_dq)
  else if n =? 92 then Some (bs c_bs)
  else if n =? 10 then Some (bs "n"%char)
  else if n =? 13 then Some (bs "r"%char)
  else if n =? 9 then Some (bs "t"%char)
  else if n =? 8 then Some (bs "b"%char)
  else if n =? 12 then Some (bs "f"%char)
  else if (n <? 32) || (n =? 127) then
    Some (String c_bs (String "u" (String "0" (String "0"
            (String (hex_digit (n / 16)) (String (hex_digit (n mod 16)) ""))))))
  else if n <? 127 then Some (String c "")
  else None.

Fixpoint escape (s : string) : option string :=
  match s with
  | EmptyString => Some ""
  | String c t =>
      match escape_char c, escape t with
      | Some a, Some b => Some (String.append a b)
      | _, _ => None
      end
  end.

Definition quote (s : string) : option string :=
  match escape s with
  | Some body => Some (String c_dq (String.append body (String c_dq "")))
  | None => None
  end.

Fixpoint zeros (n : nat) : string :=
  match n with
  | O => ""
  | S k => String "0" (zeros k)
  end.

(** [repr] of a float given by its shortest decimal: positional notation
    when the decimal point falls within -4 < p <= 16, else an exponent of at
    least two digits. *)
Definition dumps_float (d : decimal) : string :=
  let m := dmant d in
  if m =? 0 then "0.0"
  else
    let sign := if m <? 0 then "-" else "" in
    let digits := Z_to_string (Z.abs m) in
    let k := Z.of_nat (String.length digits) in
    let p := k + dexp d in
    let body :=
      if (-4 <? p) && (p <=? 16) then
        if p <=? 0 then String.append "0." (String.append (zeros (Z.to_nat (- p))) digits)
        else if p <? k then
          String.append (String.substring 0 (Z.to_nat p) digits)
            (String.append "." (String.substring (Z.to_nat p) (Z.to_nat (k - p)) digits))
        else String.append digits (String.append (zeros (Z.to_nat (p - k))) ".0")
      else
        let x := p - 1 in
        let xs := Z_to_string (Z.abs x) in
        let xs := if Z.abs x <? 10 then String "0" xs else xs in
        let frac := String.substring 1 (Z.to_nat (k - 1)) digits in
        String.append (String.substring 0 1 digits)
          (String.append (if k =? 1 then "" else String.append "." frac)
             (String.append "e" (String.append (if x <? 0 then "-" else "+") xs)))
    in String.append sign body.

Fixpoint join (sep : string) (l : list string) : string :=
  match l with
  | [] => ""
  | [x] => x
  | x :: t => String.append x (String.append sep (join sep t))
  end.

Fixpoint dumps (v : json) : option string :=
  match v with
  | JNull => Some "null"
  | JBool true => Some "true"
  | JBool false => Some "false"
  | JInt n => Some (Z_to_string n)
  | JFloat d => Some (dumps_float d)
  | JStr s => quote s
  | JArr l =>
      let fix items (l : list json) : option (list string) :=
        match l with
        | [] => Some []
        | x :: t =>
            match dumps x, items t with
            | Some a, Some b => Some (a :: b)
            | _, _ => None
            end
        end in
      match items l with
      | Some xs => Some (String.append "[" (String.append (join ", " xs) "]"))
      | None => None
      end
  | JObj d =>
      let fix items (d : list (string * json)) : option (list string) :=
        match d with
        | [] => Some []
        | (k, x) :: t =>
            match quote k, dumps x, items t with
            | Some a, Some b, Some c => Some (String.append a (String.append ": " b) :: c)
            | _, _, _ => None
            end
        end in
      match items d with
      | Some xs => Some (String.append "{" (String.append (join ", " xs) "}"))
      | None => None
      end
  end.

End Json.

(** ** input_emulator.py *)

Module input_emulator.

(** The event codes of [evdev.ecodes] that the module names. *)
Inductive ecode : Type :=
| KEY_W | KEY_S | KEY_A | KEY_D | KEY_SPACE | KEY_LEFTSHIFT
| KEY_E | KEY_R | KEY_Q | BTN_LEFT | BTN_RIGHT
| KEY_M | KEY_TAB | KEY_ESC | KEY_ENTER
| KEY_C | KEY_I | KEY_F | KEY_LEFTCTRL.

Inductive ev_type : Type := EV_KEY | EV_REL.

Definition ACTION_TO_KEY : list (string * ecode) :=
  [ ("FORWARD", KEY_W); ("BACKWARD", KEY_S);
    ("STRAFE_LEFT", KEY_A); ("STRAFE_RIGHT", KEY_D);
    ("JUMP", KEY_SPACE); ("SPRINT", KEY_LEFTSHIFT);
    ("INTERACT", KEY_E); ("RELOAD", KEY_R);
    ("VATS", KEY_Q); ("ATTACK", BTN_LEFT); ("AIM", BTN_RIGHT);
    ("M", KEY_M); ("TAB", KEY_TAB); ("ESC", KEY_ESC); ("ENTER", KEY_ENTER);
    ("C", KEY_C); ("I", KEY_I); ("F", KEY_F); ("CTRL", KEY_LEFTCTRL) ].

(** What reaches the virtual input device: [device.write] and [device.syn]
    calls, oldest first. *)
Inductive event : Type :=
| Write (t : ev_type) (code : ecode) (value : Z)
| Syn.

Definition UInput : Type := list event.

(** Statements of [press] run against the device and may raise. *)
Definition M (A : Type) : Type := UInput -> result A * UInput.

Definition ret {A} (a : A) : M A := fun d => (Ok a, d).
Definition raise {A} (e : exn) : M A := fun d => (Raise e, d).
Definition bind {A B} (m : M A) (k : A -> M B) : M B :=
  fun d => match m d with
           | (Ok a, d') => k a d'
           | (Raise e, d') => (Raise e, d')
           end.

Notation "'let*' x := m 'in' k" := (bind m (fun x => k))
  (at level 10, x name, m at level 100, k at level 200).
Notation "m ;;; k" := (bind m (fun _ => k))
  (at level 100, k at level 200, right associativity).

Definition device_write (t : ev_type) (code : ecode) (value : Z) : M unit :=
  fun d => (Ok tt, d ++ [Write t code value]).
Definition device_syn : M unit := fun d => (Ok tt, d ++ [Syn]).

(** [time.sleep(secs)] leaves the device alone.  It returns when the time has
    passed; it raises ValueError for a negative number and TypeError for
    what is no number.  Its outcome on the value at hand is the argument
    [sleep] of the methods below. *)
Definition time_sleep {D} (sleep : D -> result unit) (secs : D) : M unit :=
  fun d => (sleep secs, d).

(** A local variable slot of a function frame.  [press] ends with
    [except Exception as e:], which makes [e] a local name of the whole
    function body; the module-level [ecodes as e] is shadowed there, and the
    slot is empty until the handler binds it. *)
Inductive slot (A : Type) : Type :=
| Unbound
| Bound (a : A).
Arguments Unbound {A}.
Arguments Bound {A} a.

Definition load_fast {A} (name : string) (s : slot A) : M A :=
  match s with
  | Bound a => ret a
  | Unbound => raise (UnboundLocalError name)
  end.

(** The [ecodes] namespace: the attribute [EV_KEY] read off the name [e]. *)
Record ecodes : Type := { ecodes_EV_KEY : ev_type }.
Definition evdev_ecodes : ecodes := {| ecodes_EV_KEY := EV_KEY |}.

(** The [try] suite of [press]. *)
Definition press_try {D} (sleep : D -> result unit) (e : slot ecodes) (key_code : ecode)
    (duration : D) : M bool :=
  let* e1 := load_fast "e" e in
  device_write (ecodes_EV_KEY e1) key_code 1 ;;;
  device_syn ;;;
  time_sleep sleep duration ;;;
  let* e2 := load_fast "e" e in
  device_write (ecodes_EV_KEY e2) key_code 0 ;;;
  device_syn ;;;
  ret true.

(** [press] in a frame whose slot for [e] is [e]. Console output is not part
    of the device state and is left out. *)
Definition press_frame {D} (sleep : D -> result unit) (e : slot ecodes)
    (device : UInput) (action_name : string) (duration : D) : bool * UInput :=
  let action_name := upper action_name in
  match dict_get ACTION_TO_KEY action_name with
  | None => (false, device)
  | Some key_code =>
      match press_try sleep e key_code duration device with
      | (Ok b, device') => (b, device')
      | (Raise _, device') => (false, device')
      end
  end.

(** [ActionController.press] as the module has it: [e] is the handler's
    local, unbound when the [try] suite starts. *)
Definition press {D} (sleep : D -> result unit) (device : UInput) (action_name : string)
    (duration : D) : bool * UInput :=
  press_frame sleep Unbound device action_name duration.

(** *** smooth_look

    [smooth_look] reads the module-level [e] (it has no handler that binds
    the name), so its writes reach the device. *)

(** The relative axes of [evdev.ecodes]. *)
Inductive rel_code : Type := REL_X | REL_Y.

(** A call on the device as the controller makes it: one of the calls of
    [press], or [device.write(e.EV_REL, code, value)]. *)
Inductive call : Type :=
| Key (ev : event)
| Rel (code : rel_code) (value : Z).

(** [time.sleep(duration / steps)], the last statement of a round.  The
    quotient [truediv duration steps] raises TypeError when [duration] is no
    number; the sleep raises ValueError when the quotient is negative. *)
Definition nap {D} (truediv : D -> Z -> result D) (sleep : D -> result unit)
    (duration : D) (steps : Z) : result unit :=
  rbind (truediv duration steps) sleep.

(** The [for] loop of [smooth_look] with [n] rounds to go: what the loop
    raises, if it does, and the calls the device has received by then. *)
Fixpoint smooth_look_loop {D} (truediv : D -> Z -> result D) (sleep : D -> result unit)
    (n : nat) (dx dy steps : Z) (duration : D) (device : list call)
  : result unit * list call :=
  match n with
  | O => (Ok tt, device)
  | S n' =>
      let step_dx := dx / steps in
      let step_dy := dy / steps in
      let device := device ++ [Rel REL_X step_dx] in
      let device := device ++ [Rel REL_Y step_dy] in
      let device := device ++ [Key Syn] in
      match nap truediv sleep duration steps with
      | Ok _ => smooth_look_loop truediv sleep n' dx dy steps duration device
      | Raise e => (Raise e, device)
      end
  end.

(** [smooth_look] on integer offsets; [//] is the floor division.  The method
    has no handler: what the sleep raises leaves it, after the calls of the
    round. *)
Definition smooth_look {D} (truediv : D -> Z -> result D) (sleep : D -> result unit)
    (device : list call) (dx dy : Z) (duration : D) : result unit * list call :=
  let steps := Z.max 10 ((Z.abs dx + Z.abs dy) / 5) in
  smooth_look_loop truediv sleep (Z.to_nat steps) dx dy steps duration device.

(** *** emergency_stop_all *)

(** [try: m  except: pass]. *)
Definition try_pass (m : M unit) : M unit :=
  fun d => match m d with
           | (Raise _, d') => (Ok tt, d')
           | r => r
           end.

(** The loop over [ACTION_TO_KEY.values()].  Every value of the table is an
    [int], the mouse buttons included, so the [isinstance] test always
    passes. *)
Fixpoint release_keys (key_codes : list ecode) : M unit :=
  match key_codes with
  | [] => ret tt
  | key_code :: rest =>
      try_pass (device_write EV_KEY key_code 0) ;;;
      release_keys rest
  end.

Definition emergency_stop_all : M unit :=
  release_keys (map snd ACTION_TO_KEY) ;;;
  device_syn.

End input_emulator.

(** ** local_llm_module.py *)

Module local_llm_module.

Notation "'let*' x := m 'in' k" := (rbind m (fun x => k))
  (at level 10, x name, m at level 100, k at level 200).

Record LocalBrain : Type := {
  api_url_generate : string;
  api_url_info : string;
  consecutive_failures : Z;
  max_failures_before_fallback : Z;
  model_name : string
}.

Definition __init__ (server_url : string) : LocalBrain :=
  {| api_url_generate := server_url +:+ "/api/v1/generate";
     api_url_info := server_url +:+ "/api/v1/info";
     consecutive_failures := 0;
     max_failures_before_fallback := 2;
     model_name := "Unknown" |}.

Definition set_consecutive_failures (self : LocalBrain) (n : Z) : LocalBrain :=
  {| api_url_generate := api_url_generate self;
     api_url_info := api_url_info self;
     consecutive_failures := n;
     max_failures_before_fallback := max_failures_before_fallback self;
     model_name := model_name self |}.

Fixpoint join (sep : string) (l : list string) : string :=
  match l with
  | [] => ""
  | [x] => x
  | x :: t => x +:+ sep +:+ join sep t
  end.

Definition _extract_situation_context (prompt : string) : string :=
  let prompt_lower := lower prompt in
  let contexts := [] in
  let contexts :=
    if contains "threat" prompt_lower || contains "enemy" prompt_lower
       || contains "person" prompt_lower
    then contexts ++ ["enemies detected"] else contexts in
  let contexts :=
    if contains "loot" prompt_lower || contains "container" prompt_lower
       || contains "objects" prompt_lower
    then contexts ++ ["loot available"] else contexts in
  let contexts :=
    if contains "map" prompt_lower || contains "location unknown" prompt_lower
    then contexts ++ ["need orientation"] else contexts in
  let contexts :=
    if contains "clear" prompt_lower && contains "path" prompt_lower
    then contexts ++ ["safe to explore"] else contexts in
  let contexts :=
    match contexts with
    | [] => contexts ++ ["normal exploration"]
    | _ => contexts
    end in
  join "; " contexts.

(** One of the JSON lines the prompt shows to the model. *)
Definition prompt_json (action duration reason : string) : string :=
  "{" +:+ dq +:+ "action" +:+ dq +:+ ": " +:+ dq +:+ action +:+ dq
  +:+ ", " +:+ dq +:+ "duration" +:+ dq +:+ ": " +:+ duration
  +:+ ", " +:+ dq +:+ "reason" +:+ dq +:+ ": " +:+ dq +:+ reason +:+ dq +:+ "}".

Definition _build_qwen_prompt (original_prompt : string) : string :=
  let situation_context := _extract_situation_context original_prompt in
  "You are an AI assistant helping play Fallout 76. Based on the current situation, choose the best action.

SITUATION: " +:+ situation_context +:+ "

AVAILABLE ACTIONS:
- FORWARD: Move forward
- BACKWARD: Move backward
- STRAFE_LEFT/STRAFE_RIGHT: Move sideways
- SMOOTH_LOOK: Look around (specify dx, dy)
- INTERACT: Use/pick up objects
- VATS: Target enemies
- ATTACK: Fight enemies
- TAB: Open/close map
- WAIT: Pause briefly

Respond with a JSON object:
" +:+ prompt_json "ACTION_NAME" "2.0" "brief explanation" +:+ "

Example responses:
" +:+ prompt_json "TAB" "0.1" "check map for orientation" +:+ "
" +:+ prompt_json "FORWARD" "2.0" "continue exploring" +:+ "
" +:+ prompt_json "VATS" "0.1" "target detected enemy" +:+ "

Response:".

Definition plan3 (action : string) (duration : decimal) (reason : string)
  : list (string * json) :=
  [("action", JStr action); ("duration", JFloat duration); ("reason", JStr reason)].

Definition look_plan (reason : string) : list (string * json) :=
  [("action", JStr "SMOOTH_LOOK"); ("dx", JInt 45); ("dy", JInt 0);
   ("duration", JFloat (Dec 5 (-1))); ("reason", JStr reason)].

Definition _extract_action_from_text (text : string) : json :=
  let text_lower := lower text in
  if contains "map" text_lower || contains "tab" text_lower then
    JObj (plan3 "TAB" (Dec 1 (-1)) "check map")
  else if contains "forward" text_lower || contains "move ahead" text_lower then
    JObj (plan3 "FORWARD" (Dec 2 0) "move forward")
  else if contains "look" text_lower
          && (contains "around" text_lower || contains "scan" text_lower) then
    JObj (look_plan "look around")
  else if contains "attack" text_lower || contains "fight" text_lower
          || contains "vats" text_lower then
    JObj (plan3 "VATS" (Dec 1 (-1)) "engage enemy")
  else if contains "interact" text_lower || contains "use" text_lower
          || contains "pick" text_lower then
    JObj (plan3 "INTERACT" (Dec 1 0) "interact with object")
  else if contains "wait" text_lower || contains "pause" text_lower then
    JObj (plan3 "WAIT" (Dec 2 0) "wait and observe")
  else JObj (plan3 "FORWARD" (Dec 15 (-1)) "continue exploration").

Definition with_source (plan : list (string * json)) (source : string)
  : list (string * json) :=
  plan ++ [("source", JStr source)].

Definition _combat_fallback_plan : json :=
  JObj (with_source (plan3 "VATS" (Dec 1 (-1)) "engage_detected_threat") "combat_fallback").

Definition _orientation_fallback_plan : json :=
  JObj (with_source (plan3 "TAB" (Dec 1 (-1)) "check_map_for_orientation")
          "orientation_fallback").

Definition _investigation_fallback_plan : json :=
  JObj (with_source (plan3 "INTERACT" (Dec 1 0) "investigate_objects")
          "investigation_fallback").

Definition _exploration_fallback_plan : json :=
  JObj (with_source (plan3 "FORWARD" (Dec 25 (-1)) "continue_exploration")
          "exploration_fallback").

Definition _default_fallback_plan : json :=
  JObj (with_source (look_plan "assess_situation") "default_fallback").

(** [any(word in text for word in words)]. *)
Definition any_word_in (words : list string) (text : string) : bool :=
  existsb (fun word => contains word text) words.

Definition _generate_smart_fallback_plan (prompt : string) : json :=
  let prompt_lower := lower prompt in
  let has_threats :=
    any_word_in ["threat"; "enemy"; "combat"; "danger"; "person"] prompt_lower in
  let needs_orientation :=
    any_word_in ["location unknown"; "map"; "bearings"; "orient"] prompt_lower in
  let has_objects := any_word_in ["objects"; "container"; "loot"] prompt_lower in
  let is_clear := contains "clear" prompt_lower || contains "safe" prompt_lower in
  if has_threats then _combat_fallback_plan
  else if needs_orientation then _orientation_fallback_plan
  else if has_objects then _investigation_fallback_plan
  else if is_clear then _exploration_fallback_plan
  else _default_fallback_plan.

(** The defaulting step of [_extract_plan_from_response]. *)
Definition set_default (plan : list (string * json)) (k : string) (v : json)
  : list (string * json) :=
  if negb (dict_mem plan k) then dict_set plan k v else plan.

Definition fill_defaults (plan : list (string * json)) : list (string * json) :=
  let plan := set_default plan "duration" (JFloat (Dec 1 0)) in
  set_default plan "reason" (JStr "AI decision").

Definition reset_failure_counter (self : LocalBrain) : LocalBrain :=
  set_consecutive_failures self 0.

Definition get_stats (self : LocalBrain) : list (string * json) :=
  [("model_name", JStr (model_name self));
   ("consecutive_failures", JInt (consecutive_failures self));
   ("server_url", JStr (api_url_generate self))].

Section Backend.

(** [json.loads] on a text that begins with an opening brace. *)
Variable json_loads : string -> result (list (string * json)).

(** [requests.post(url, json=payload, timeout=...)] followed by
    [raise_for_status()] and [response.json()]: the decoded body, or the
    exception of a refused connection, a timeout, an error status or a body
    that is not JSON. *)
Variable post : string -> json -> result json.

Definition _extract_plan_from_response (response_text : string) : result json :=
  match re_search re_braces_flat response_text with
  | Some json_str =>
      match json_loads json_str with
      | Ok plan =>
          if dict_mem plan "action" then Ok (JObj (fill_defaults plan))
          else Ok (_extract_action_from_text response_text)
      | Raise JSONDecodeError => Ok (_extract_action_from_text response_text)
      | Raise e => Raise e
      end
  | None => Ok (_extract_action_from_text response_text)
  end.

Definition payload (enhanced_prompt : string) : json :=
  JObj [("prompt", JStr enhanced_prompt);
        ("max_length", JInt 150);
        ("temperature", JFloat (Dec 3 (-1)));
        ("top_p", JFloat (Dec 9 (-1)));
        ("rep_pen", JFloat (Dec 11 (-1)));
        ("stop_sequence",
          JArr [JStr (String "010" (String "010" "")); JStr "Human:"; JStr "User:"])].

(** The [try] suite of [get_plan]. *)
Definition get_plan_try (self : LocalBrain) (prompt : string) : result json :=
  let enhanced_prompt := _build_qwen_prompt prompt in
  let* result := post (api_url_generate self) (payload enhanced_prompt) in
  let* has_results := json_in "results" result in
  let* nonempty :=
    if has_results : bool then
      let* results := json_getitem result "results" in
      let* n := json_len results in
      Ok (0 <? n)
    else Ok false in
  if nonempty : bool then
    let* results := json_getitem result "results" in
    let* first := json_first results in
    let* text := json_get first "text" (JStr "") in
    let* result_text := json_as_str text in
    let* plan := _extract_plan_from_response result_text in
    if truthy plan then Ok plan
    else Raise (ValueError "Could not extract valid plan from response")
  else Raise (ValueError "Invalid response format from server").

Definition get_plan (self : LocalBrain) (prompt : string) : json * LocalBrain :=
  if max_failures_before_fallback self <=? consecutive_failures self then
    (_generate_smart_fallback_plan prompt, self)
  else
    match get_plan_try self prompt with
    | Ok plan => (plan, set_consecutive_failures self 0)
    | Raise _ =>
        (_generate_smart_fallback_plan prompt,
         set_consecutive_failures self (consecutive_failures self + 1))
    end.

End Backend.

End local_llm_module.

(** ** llm_module.py *)

Module llm_module.

Notation "'let*' x := m 'in' k" := (rbind m (fun x => k))
  (at level 10, x name, m at level 100, k at level 200).

Record BigBrain : Type := { api_url : string }.

Definition __init__ (api_url : string) : BigBrain := {| api_url := api_url |}.

Definition payload (prompt : string) : json :=
  JObj [("prompt", JStr prompt);
        ("max_context_length", JInt 1024);
        ("max_length", JInt 100);
        ("temperature", JFloat (Dec 2 (-1)))].

Section Backend.

Variable json_loads : string -> result (list (string * json)).
Variable post : string -> json -> result json.

(** The [try] suite of [get_plan]; [None] is the early [return None]. *)
Definition get_plan_try (self : BigBrain) (prompt : string) : result (option json) :=
  let* body := post (api_url self) (payload prompt) in
  let* results := json_getitem body "results" in
  let* first := json_first results in
  let* text := json_getitem first "text" in
  let* result_text := json_as_str text in
  match re_search re_braces_greedy result_text with
  | None => Ok None
  | Some json_string =>
      let* plan := json_loads json_string in
      Ok (Some (JObj plan))
  end.

(** The handlers catch RequestException, JSONDecodeError and KeyError; any
    other exception leaves [get_plan]. *)
Definition get_plan (self : BigBrain) (prompt : string) : result (option json) :=
  match get_plan_try self prompt with
  | Ok r => Ok r
  | Raise RequestException => Ok None
  | Raise JSONDecodeError => Ok None
  | Raise (KeyError _) => Ok None
  | Raise e => Raise e
  end.

End Backend.

End llm_module.

(** ** local_llm_lightweight.py *)

Module local_llm_lightweight.

Notation "'let*' x := m 'in' k" := (rbind m (fun x => k))
  (at level 10, x name, m at level 100, k at level 200).

Record LightweightBrain : Type := {
  api_url_generate : string;
  model_name : string;
  consecutive_failures : Z;
  max_failures_before_fallback : Z;
  quick_decisions : list (string * list (string * json))
}.

Definition template (action : string) (duration : decimal) (reason : string)
  : list (string * json) :=
  [("action", JStr action); ("duration", JFloat duration); ("reason", JStr reason)].

(** The table [__init__] stores in [self.quick_decisions]. *)
Definition quick_decisions_table : list (string * list (string * json)) :=
  [("enemy_detected", template "VATS" (Dec 1 (-1)) "engage_target");
   ("loot_nearby", template "INTERACT" (Dec 5 (-1)) "collect_loot");
   ("health_low", template "BACKWARD" (Dec 2 0) "seek_safety");
   ("exploring", template "FORWARD" (Dec 2 0) "continue_exploration");
   ("stuck", template "BACKWARD" (Dec 1 0) "unstuck")].

Definition __init__ (model_name : string) : LightweightBrain :=
  {| api_url_generate := "http://127.0.0.1:11434/api/generate";
     model_name := model_name;
     consecutive_failures := 0;
     max_failures_before_fallback := 1;
     quick_decisions := quick_decisions_table |}.

Definition set_consecutive_failures (self : LightweightBrain) (n : Z) : LightweightBrain :=
  {| api_url_generate := api_url_generate self;
     model_name := model_name self;
     consecutive_failures := n;
     max_failures_before_fallback := max_failures_before_fallback self;
     quick_decisions := quick_decisions self |}.

Definition get_quick_decision (self : LightweightBrain) (situation_type : string)
  : result json :=
  match dict_get (quick_decisions self) situation_type with
  | Some entry =>
      let decision := entry in
      let decision := dict_set decision "source" (JStr "template") in
      Ok (JObj decision)
  | None =>
      match dict_get (quick_decisions self) "exploring" with
      | Some entry => Ok (JObj entry)
      | None => Raise (KeyError "exploring")
      end
  end.

Definition payload (self : LightweightBrain) (prompt : string) : json :=
  JObj [("model", JStr (model_name self));
        ("prompt",
          JStr ("Quick Fallout 76 action for: " +:+ String.substring 0 200 prompt
                +:+ ". JSON only: {" +:+ dq +:+ "action" +:+ dq +:+ ":" +:+ dq
                +:+ "FORWARD" +:+ dq +:+ "," +:+ dq +:+ "duration" +:+ dq +:+ ":2.0,"
                +:+ dq +:+ "reason" +:+ dq +:+ ":" +:+ dq +:+ "brief" +:+ dq +:+ "}"));
        ("stream", JBool false);
        ("options",
          JObj [("temperature", JFloat (Dec 1 (-1)));
                ("num_predict", JInt 50);
                ("stop", JArr [JStr (String "010" ""); JStr "```"])])].

Section Backend.

Variable json_loads : string -> result (list (string * json)).
Variable post : string -> json -> result json.

(** The [try] suite of [get_plan]: the plan of the model, or [None] when the
    response holds no brace-delimited text. *)
Definition get_plan_try (self : LightweightBrain) (prompt : string)
  : result (option json) :=
  let* body := post (api_url_generate self) (payload self prompt) in
  let* text := json_get body "response" (JStr "") in
  let* result_text := json_as_str text in
  match re_search re_braces_greedy result_text with
  | Some json_str =>
      let* plan := json_loads json_str in
      let plan := dict_set plan "source" (JStr "lightweight_ai") in
      Ok (Some (JObj plan))
  | None => Ok None
  end.

(** [get_plan]: the returned value (or the exception of a template lookup),
    the brain afterwards, and the requests sent to the backend. *)
Definition get_plan (self : LightweightBrain) (prompt : string)
  : result json * LightweightBrain * list (string * json) :=
  let prompt_lower := lower prompt in
  if contains "enemy" prompt_lower || contains "person" prompt_lower then
    (get_quick_decision self "enemy_detected", self, [])
  else if contains "loot" prompt_lower || contains "container" prompt_lower then
    (get_quick_decision self "loot_nearby", self, [])
  else if contains "health" prompt_lower && contains "low" prompt_lower then
    (get_quick_decision self "health_low", self, [])
  else if contains "stuck" prompt_lower then
    (get_quick_decision self "stuck", self, [])
  else if max_failures_before_fallback self <=? consecutive_failures self then
    (get_quick_decision self "exploring", self, [])
  else
    let sent := [(api_url_generate self, payload self prompt)] in
    match get_plan_try self prompt with
    | Ok (Some plan) => (Ok plan, set_consecutive_failures self 0, sent)
    | Ok None => (get_quick_decision self "exploring", self, sent)
    | Raise _ =>
        let self := set_consecutive_failures self (consecutive_failures self + 1) in
        (get_quick_decision self "exploring", self, sent)
    end.

End Backend.

End local_llm_lightweight.

(** ** main_bot_enhanced.py *)

Module main_bot_enhanced.

Notation "'let*' x := m 'in' k" := (rbind m (fun x => k))
  (at level 10, x name, m at level 100, k at level 200).

Record AIGoal : Type := {
  id : string;
  name : string;
  description : string;
  enabled : bool;
  priority : Z;
  success_count : Z;
  failure_count : Z
}.

(** *** FastDecisionMaker *)

Definition reflex (action : string) (duration : decimal) (reason : string) : json :=
  JObj [("action", JStr action); ("duration", JFloat duration); ("reason", JStr reason)].

Definition survival_reflexes : list (string * json) :=
  [("enemy_close_health_low", reflex "BACKWARD" (Dec 3 0) "retreat_survival");
   ("enemy_detected_healthy", reflex "VATS" (Dec 1 (-1)) "engage_enemy");
   ("loot_safe_nearby", reflex "INTERACT" (Dec 5 (-1)) "collect_loot");
   ("stuck_detected", reflex "BACKWARD" (Dec 1 0) "unstuck_maneuver");
   ("path_clear_exploring", reflex "FORWARD" (Dec 2 0) "continue_exploration")].

(** [self.survival_reflexes[key]] on the table as [__init__] builds it.  The
    method hands out the dict stored in the table, and the caller writes a
    tier entry into it: from the second time on the dict handed out has that
    entry as well.  The table as a state is [FastDecisionMaker] below; here
    the answer is read up to the tier entry, which the cycle sets anyway. *)
Definition survival_reflex (key : string) : result json :=
  match dict_get survival_reflexes key with
  | Some plan => Ok plan
  | None => Raise (KeyError key)
  end.

(** [any(word in obj.get('label', '').lower() for obj in objs)], stopping at
    the first object that matches. *)
Fixpoint any_label (word : string) (objs : list pyval) : result bool :=
  match objs with
  | [] => Ok false
  | obj :: rest =>
      match obj with
      | PyDict d =>
          match dict_get_default d "label" (PyStr "") with
          | PyStr label =>
              if contains word (lower label) then Ok true else any_label word rest
          | _ => Raise AttributeError
          end
      | _ => Raise AttributeError
      end
  end.

Definition detected_objects_of (game_state : gmap string pyval) : pyval :=
  default (PyList []) (game_state !! "detected_objects").

Definition health_of (game_state : gmap string pyval) : pyval :=
  default (PyInt 100) (game_state !! "health").

Definition has_enemy_of (game_state : gmap string pyval) : result bool :=
  let* objs := py_iter (detected_objects_of game_state) in
  any_label "person" objs.

Definition has_loot_of (game_state : gmap string pyval) : result bool :=
  let* objs := py_iter (detected_objects_of game_state) in
  any_label "container" objs.

(** [a and <comparison>]: the comparison runs only when [a] holds. *)
Definition and_then (a : bool) (b : result bool) : result bool :=
  if a then b else Ok false.

Definition check_instant_response
    (game_state : gmap string pyval) (active_goals : list string)
  : result (option json) :=
  let health := health_of game_state in
  let* has_enemy := has_enemy_of game_state in
  let* low := and_then has_enemy (py_lt health (PyInt 30)) in
  if low : bool then
    let* r := survival_reflex "enemy_close_health_low" in Ok (Some r)
  else
    let* healthy := and_then has_enemy (py_gt health (PyInt 60)) in
    if healthy : bool then
      let* r := survival_reflex "enemy_detected_healthy" in Ok (Some r)
    else
      let* has_loot := has_loot_of game_state in
      if has_loot && negb has_enemy && str_in_list "manage_inventory" active_goals then
        let* r := survival_reflex "loot_safe_nearby" in Ok (Some r)
      else if str_in_list "explore" active_goals && negb has_enemy then
        let* r := survival_reflex "path_clear_exploring" in Ok (Some r)
      else Ok None.

(** *** FastDecisionMaker, with its table as a state *)

Module FastDecisionMaker.

Record t : Type := { survival_reflexes : list (string * json) }.

Definition __init__ : t :=
  {| survival_reflexes := main_bot_enhanced.survival_reflexes |}.

(** [self.survival_reflexes[key]]: the dict stored in the table, handed out
    by reference.  The key stands for the reference; with it goes what the
    dict holds at that time. *)
Definition survival_reflex (self : t) (key : string) : result (string * json) :=
  match dict_get (survival_reflexes self) key with
  | Some plan => Ok (key, plan)
  | None => Raise (KeyError key)
  end.

Definition check_instant_response (self : t)
    (game_state : gmap string pyval) (active_goals : list string)
  : result (option (string * json)) :=
  let health := health_of game_state in
  let* has_enemy := has_enemy_of game_state in
  let* low := and_then has_enemy (py_lt health (PyInt 30)) in
  if low : bool then
    let* r := survival_reflex self "enemy_close_health_low" in Ok (Some r)
  else
    let* healthy := and_then has_enemy (py_gt health (PyInt 60)) in
    if healthy : bool then
      let* r := survival_reflex self "enemy_detected_healthy" in Ok (Some r)
    else
      let* has_loot := has_loot_of game_state in
      if has_loot && negb has_enemy && str_in_list "manage_inventory" active_goals then
        let* r := survival_reflex self "loot_safe_nearby" in Ok (Some r)
      else if str_in_list "explore" active_goals && negb has_enemy then
        let* r := survival_reflex self "path_clear_exploring" in Ok (Some r)
      else Ok None.

(** [if reflex_response: reflex_response['tier'] = 'REFLEX'], the write of
    [make_intelligent_decision] into what it was handed: it lands in the
    table. *)
Definition tag (self : t) (reflex_response : option (string * json)) : result t :=
  match reflex_response with
  | None => Ok self
  | Some (key, plan) =>
      if truthy plan then
        match plan with
        | JObj d =>
            Ok {| survival_reflexes :=
                    dict_set (survival_reflexes self) key
                      (JObj (dict_set d "tier" (JStr "REFLEX"))) |}
        | _ => Raise TypeError
        end
      else Ok self
  end.

End FastDecisionMaker.

(** *** GoalManager *)

Definition goal (id name description : string) (enabled : bool) (priority : Z) : AIGoal :=
  {| id := id; name := name; description := description; enabled := enabled;
     priority := priority; success_count := 0; failure_count := 0 |}.

Definition initial_goals : list (string * AIGoal) :=
  [("do_public_events",
     goal "do_public_events" "Public Events"
       "Join and complete public events automatically" false 9);
   ("manage_inventory",
     goal "manage_inventory" "Inventory Management"
       "Auto-sell junk, known plans, manage weight" false 7);
   ("fishing",
     goal "fishing" "Fishing Activities"
       "Fish at locations when no events active" false 4);
   ("daily_challenges",
     goal "daily_challenges" "Daily Challenges"
       "Complete daily and weekly challenges" false 6);
   ("vendor_rounds",
     goal "vendor_rounds" "Vendor Shopping"
       "Visit vendors for deals and selling" false 5);
   ("explore_and_map",
     goal "explore_and_map" "Exploration & Mapping"
       "Discover locations and build world knowledge" true 2)].

Definition with_enabled (g : AIGoal) (enabled : bool) : AIGoal :=
  {| id := id g; name := name g; description := description g; enabled := enabled;
     priority := priority g; success_count := success_count g;
     failure_count := failure_count g |}.

Definition set_goal_enabled (goals : list (string * AIGoal)) (goal_id : string)
    (enabled : bool) : bool * list (string * AIGoal) :=
  match dict_get goals goal_id with
  | Some g => (true, dict_set goals goal_id (with_enabled g enabled))
  | None => (false, goals)
  end.

Definition get_active_goals (goals : list (string * AIGoal)) : list string :=
  map fst (List.filter (fun kv => enabled (snd kv)) goals).

(** [max(items, key=lambda g: g.priority)] after its first item: a later item
    replaces the best one only when its key is strictly greater. *)
Fixpoint max_by_priority (best : AIGoal) (items : list AIGoal) : AIGoal :=
  match items with
  | [] => best
  | g :: rest =>
      if priority best <? priority g then max_by_priority g rest
      else max_by_priority best rest
  end.

Definition get_highest_priority_goal (goals : list (string * AIGoal)) : option AIGoal :=
  let active := List.filter enabled (map snd goals) in
  match active with
  | [] => None
  | g :: rest => Some (max_by_priority g rest)
  end.

(** *** WorldDatabase *)

Definition should_keep_item (item_name : string) : string :=
  let item_lower := lower item_name in
  if contains "plan" item_lower then "learn_then_sell"
  else if contains "legendary" item_lower then "evaluate"
  else if existsb (fun word => contains word item_lower) ["scrap"; "junk"] then "scrap"
  else "sell".

(** *** IntelligentFallout76AI *)

Module IntelligentFallout76AI.

Record Stats : Type := {
  session_start : float;
  decisions_made : Z;
  reflex_decisions : Z;
  strategic_decisions : Z;
  local_decisions : Z;
  locations_discovered : Z;
  current_action : string;
  last_strategic_think : float
}.

(** The attributes of the object that the decision methods read or write.
    [log] and [shared_goals] are the entries of [shared_state]; [_last_action]
    is [None] until [_log_decision] first assigns it. *)
Record t : Type := {
  brain : local_llm_module.LocalBrain;
  goals : list (string * AIGoal);
  stats : Stats;
  log : list string;
  shared_goals : list (string * bool);
  _last_action : json
}.

Definition get_goal_states (self : t) : list (string * bool) :=
  map (fun kv => (fst kv, enabled (snd kv))) (goals self).

(** [__init__], with [now] the reading of the clock. *)
Definition __init__ (now : float) : t :=
  let goals := initial_goals in
  {| brain := local_llm_module.__init__ "qwen2:0.5b";
     goals := goals;
     stats := {| session_start := now; decisions_made := 0; reflex_decisions := 0;
                 strategic_decisions := 0; local_decisions := 0;
                 locations_discovered := 0; current_action := "Idle";
                 last_strategic_think := 0 |};
     log := [];
     shared_goals := map (fun kv => (fst kv, enabled (snd kv))) goals;
     _last_action := JNull |}.

Definition set_goal_enabled (self : t) (goal_id : string) (enabled : bool) : bool * t :=
  let '(success, goals') := main_bot_enhanced.set_goal_enabled (goals self) goal_id enabled in
  let shared_goals' :=
    if success then dict_set (shared_goals self) goal_id enabled else shared_goals self in
  (success,
   {| brain := brain self; goals := goals'; stats := stats self; log := log self;
      shared_goals := shared_goals'; _last_action := _last_action self |}).

(** [[obj for obj in objs if 'person' in obj.get('label', '').lower()]]. *)
Fixpoint threats_of (objs : list pyval) : result (list pyval) :=
  match objs with
  | [] => Ok []
  | obj :: rest =>
      match obj with
      | PyDict d =>
          match dict_get_default d "label" (PyStr "") with
          | PyStr label =>
              let* tail := threats_of rest in
              Ok (if contains "person" (lower label) then obj :: tail else tail)
          | _ => Raise AttributeError
          end
      | _ => Raise AttributeError
      end
  end.

Definition _situation_is_complex (game_state : gmap string pyval) : result bool :=
  let detected_objects := detected_objects_of game_state in
  let* n := py_len detected_objects in
  if 3 <? n then Ok true
  else
    let* objs := py_iter detected_objects in
    let* threats := threats_of objs in
    if 1 <? Z.of_nat (List.length threats) then Ok true
    else
      let* low := py_lt (health_of game_state) (PyInt 50) in
      if low && py_truthy (PyList threats) then Ok true
      else Ok false.

Definition _simple_local_decision (game_state : gmap string pyval)
    (active_goals : list string) : json :=
  let detected_objects := detected_objects_of game_state in
  if str_in_list "fishing" active_goals then
    reflex "INTERACT" (Dec 2 0) "fishing_activity"
  else if py_truthy detected_objects then
    reflex "INTERACT" (Dec 1 0) "investigate_object"
  else reflex "FORWARD" (Dec 2 0) "continue_exploration".

(** [[obj.get('label', 'unknown') for obj in objs]]. *)
Fixpoint labels_of (objs : list pyval) : result (list pyval) :=
  match objs with
  | [] => Ok []
  | PyDict d :: rest =>
      let* tail := labels_of rest in
      Ok (dict_get_default d "label" (PyStr "unknown") :: tail)
  | _ :: _ => Raise AttributeError
  end.

(** A line of the JSON sample the strategic prompt shows. *)
Definition sample_line (key value : string) : string :=
  "    " +:+ dq +:+ key +:+ dq +:+ ": " +:+ value.

Definition quoted (s : string) : string := dq +:+ s +:+ dq.

Definition strategic_prompt (current_goal : AIGoal) (situation_desc : string) : string :=
  "You are an expert AI playing Fallout 76.

CURRENT GOAL: " +:+ name current_goal +:+ " - " +:+ description current_goal +:+ "
SITUATION: " +:+ situation_desc +:+ "

This is a complex situation requiring strategic thinking. Plan your next actions carefully.

Respond with JSON:
{
" +:+ sample_line "strategy" (quoted "overall approach") +:+ ",
" +:+ sample_line "action" (quoted "PRIMARY_ACTION") +:+ ",
" +:+ sample_line "duration" "2.0" +:+ ",
" +:+ sample_line "reason" (quoted "detailed strategic reasoning") +:+ ",
" +:+ sample_line "backup_action" (quoted "FALLBACK_ACTION") +:+ ",
" +:+ sample_line "learning_note" (quoted "what this teaches") +:+ "
}

Available actions: FORWARD, BACKWARD, STRAFE_LEFT, STRAFE_RIGHT, INTERACT, VATS, ATTACK, JUMP, WAIT, SMOOTH_LOOK
".

(** The tier labels, in UTF-8: a high-voltage sign, a brain and a pair of
    arrows, each followed by a space and the tier name. *)
Definition tier_reflex : string :=
  String "226" (String "154" (String "161" " REFLEX")).
Definition tier_strategic : string :=
  String "240" (String "159" (String "167" (String "160" " STRATEGIC"))).
Definition tier_local : string :=
  String "240" (String "159" (String "148" (String "132" " LOCAL"))).

(** [decision[key] = value]. *)
Definition json_setitem (decision : json) (key : string) (value : json) : result json :=
  match decision with
  | JObj d => Ok (JObj (dict_set d key value))
  | _ => Raise TypeError
  end.

Definition with_stats (self : t) (stats : Stats) : t :=
  {| brain := brain self; goals := goals self; stats := stats; log := log self;
     shared_goals := shared_goals self; _last_action := _last_action self |}.

Definition with_brain (self : t) (brain : local_llm_module.LocalBrain) : t :=
  {| brain := brain; goals := goals self; stats := stats self; log := log self;
     shared_goals := shared_goals self; _last_action := _last_action self |}.

Definition set_current_action (st : Stats) (x : string) : Stats :=
  {| session_start := session_start st; decisions_made := decisions_made st;
     reflex_decisions := reflex_decisions st;
     strategic_decisions := strategic_decisions st;
     local_decisions := local_decisions st;
     locations_discovered := locations_discovered st;
     current_action := x; last_strategic_think := last_strategic_think st |}.

Definition set_reflex_decisions (st : Stats) (n : Z) : Stats :=
  {| session_start := session_start st; decisions_made := decisions_made st;
     reflex_decisions := n;
     strategic_decisions := strategic_decisions st;
     local_decisions := local_decisions st;
     locations_discovered := locations_discovered st;
     current_action := current_action st;
     last_strategic_think := last_strategic_think st |}.

Definition set_strategic_decisions (st : Stats) (n : Z) : Stats :=
  {| session_start := session_start st; decisions_made := decisions_made st;
     reflex_decisions := reflex_decisions st;
     strategic_decisions := n;
     local_decisions := local_decisions st;
     locations_discovered := locations_discovered st;
     current_action := current_action st;
     last_strategic_think := last_strategic_think st |}.

Definition set_local_decisions (st : Stats) (n : Z) : Stats :=
  {| session_start := session_start st; decisions_made := decisions_made st;
     reflex_decisions := reflex_decisions st;
     strategic_decisions := strategic_decisions st;
     local_decisions := n;
     locations_discovered := locations_discovered st;
     current_action := current_action st;
     last_strategic_think := last_strategic_think st |}.

Definition set_last_strategic_think (st : Stats) (x : float) : Stats :=
  {| session_start := session_start st; decisions_made := decisions_made st;
     reflex_decisions := reflex_decisions st;
     strategic_decisions := strategic_decisions st;
     local_decisions := local_decisions st;
     locations_discovered := locations_discovered st;
     current_action := current_action st;
     last_strategic_think := x |}.

Section Runtime.

(** [format(v)], the text an f-string puts in for a value. *)
Variable py_format : pyval -> string.
Variable json_format : json -> string.

(** [a == b] on the values of a decision. *)
Variable py_eq : json -> json -> bool.

(** The decoder and the backend of the brain. *)
Variable json_loads : string -> result (list (string * json)).
Variable post : string -> json -> result json.

Definition _build_situation_context (game_state : gmap string pyval)
    (current_goal : AIGoal) : result string :=
  let context_parts := [] in
  let detected_objects := detected_objects_of game_state in
  let* context_parts :=
    if py_truthy detected_objects then
      let* n := py_len detected_objects in
      let* first := py_slice 3 detected_objects in
      let* labels := labels_of first in
      let* labels := py_strings labels in
      let obj_summary :=
        py_format (PyInt n) +:+ " objects: " +:+ local_llm_module.join ", " labels in
      Ok (context_parts ++ [obj_summary])
    else Ok context_parts in
  let health := health_of game_state in
  let* low := py_lt health (PyInt 70) in
  let context_parts :=
    if low : bool then context_parts ++ ["health at " +:+ py_format health +:+ "%"]
    else context_parts in
  let context_parts :=
    if String.eqb (id current_goal) "do_public_events" then
      context_parts ++ ["looking for public events"]
    else if String.eqb (id current_goal) "fishing" then
      context_parts ++ ["seeking fishing locations"]
    else if String.eqb (id current_goal) "manage_inventory" then
      context_parts ++ ["managing inventory and weight"]
    else context_parts in
  Ok (match context_parts with
      | [] => "normal exploration"
      | _ => local_llm_module.join "; " context_parts
      end).

(** [_strategic_decision]: the value returned and the brain afterwards.  The
    situation text is built before the [try], so what it raises leaves the
    method. *)
Definition _strategic_decision (brain : local_llm_module.LocalBrain)
    (game_state : gmap string pyval) (current_goal : option AIGoal)
  : result (option json) * local_llm_module.LocalBrain :=
  match current_goal with
  | None => (Ok None, brain)
  | Some current_goal =>
      match _build_situation_context game_state current_goal with
      | Raise e => (Raise e, brain)
      | Ok situation_desc =>
          let prompt := strategic_prompt current_goal situation_desc in
          let '(decision, brain) :=
            local_llm_module.get_plan json_loads post brain prompt in
          let suite : result (option json) :=
            if truthy decision then
              let* has_note := json_in "learning_note" decision in
              let* _ :=
                if has_note : bool then json_getitem decision "learning_note"
                else Ok JNull in
              Ok (Some decision)
            else Ok None in
          match suite with
          | Ok r => (Ok r, brain)
          | Raise _ => (Ok None, brain)
          end
      end
  end.

Definition _log_decision (self : t) (tier : string) (decision : list (string * json)) : t :=
  let action := dict_get_default decision "action" (JStr "UNKNOWN") in
  let reason := dict_get_default decision "reason" (JStr "no reason") in
  let self :=
    with_stats self
      (set_current_action (stats self) (json_format action +:+ " (" +:+ tier +:+ ")")) in
  if String.eqb tier "STRATEGIC" || negb (py_eq action (_last_action self)) then
    let log_entry := tier +:+ ": " +:+ json_format action +:+ " - " +:+ json_format reason in
    let log := log_entry :: log self in
    let log := if 20 <? Z.of_nat (List.length log) then firstn 20 log else log in
    {| brain := brain self; goals := goals self; stats := stats self; log := log;
       shared_goals := shared_goals self; _last_action := action |}
  else self.

(** The test that sends a cycle to the strategic tier. *)
Definition needs_strategic (self : t) (game_state : gmap string pyval)
    (current_goal : option AIGoal) (current_time : float) : result bool :=
  if (30 <? current_time - last_strategic_think (stats self))%float then Ok true
  else
    let* complex := _situation_is_complex game_state in
    if complex : bool then Ok true
    else Ok (match current_goal with
             | Some g => 7 <=? priority g
             | None => false
             end).

(** [if response:] on a value that may be [None]. *)
Definition if_truthy (response : option json) : option json :=
  match response with
  | Some r => if truthy r then Some r else None
  | None => None
  end.

(** The last steps of every tier: tag the decision, count it, log it.  The
    reflex that is tagged is the entry of the table itself; the table is read
    again only through entries that carry the same tag. *)
Definition finish (self : t) (tier_name tier_label : string) (decision : json)
    (count : Stats -> Stats) : result json * t :=
  match decision with
  | JObj d =>
      let d := dict_set d "tier" (JStr tier_name) in
      let self := with_stats self (count (stats self)) in
      (Ok (JObj d), _log_decision self tier_label d)
  | _ => (Raise TypeError, self)
  end.

(** [make_intelligent_decision]; [now] is the reading of [time.time()]. *)
Definition make_intelligent_decision (self : t) (game_state : gmap string pyval)
    (now : float) : result json * t :=
  let active_goals := get_active_goals (goals self) in
  let current_goal := get_highest_priority_goal (goals self) in
  match check_instant_response game_state active_goals with
  | Raise e => (Raise e, self)
  | Ok reflex_response =>
      match if_truthy reflex_response with
      | Some r =>
          finish self "REFLEX" tier_reflex r
            (fun st => set_reflex_decisions st (reflex_decisions st + 1))
      | None =>
          let current_time := now in
          match needs_strategic self game_state current_goal current_time with
          | Raise e => (Raise e, self)
          | Ok needed =>
              let local (self : t) :=
                finish self "LOCAL" tier_local
                  (_simple_local_decision game_state active_goals)
                  (fun st => set_local_decisions st (local_decisions st + 1)) in
              if needed : bool then
                match _strategic_decision (brain self) game_state current_goal with
                | (Raise e, brain') => (Raise e, with_brain self brain')
                | (Ok strategic_response, brain') =>
                    let self := with_brain self brain' in
                    match strategic_response with
                    | Some r =>
                        finish self "STRATEGIC" tier_strategic r
                          (fun st =>
                             set_last_strategic_think
                               (set_strategic_decisions st (strategic_decisions st + 1))
                               current_time)
                    | None => local self
                    end
                end
              else local self
          end
      end
  end.

End Runtime.

(** The controller call [execute_action] makes for a decision. *)
Inductive command : Type :=
| Look (dx dy duration : json)
| Press (action : string) (duration : json)
| Sleep (duration : json)
| Unknown (action : json).

Definition execute_action (decision : list (string * json)) : command :=
  let action := dict_get_default decision "action" (JStr "WAIT") in
  let duration := dict_get_default decision "duration" (JFloat (Dec 1 0)) in
  match action with
  | JStr a =>
      if String.eqb a "SMOOTH_LOOK" then
        let dx := dict_get_default decision "dx" (JInt 45) in
        let dy := dict_get_default decision "dy" (JInt 0) in
        Look dx dy duration
      else if str_in_list a ["FORWARD"; "BACKWARD"; "STRAFE_LEFT"; "STRAFE_RIGHT";
                             "INTERACT"; "VATS"; "ATTACK"; "JUMP"] then
        Press a duration
      else if String.eqb a "WAIT" then Sleep duration
      else Unknown action
  | _ => Unknown action
  end.

End IntelligentFallout76AI.

End main_bot_enhanced.

(** ** comprehensive_fo76_ai.py *)

Module comprehensive_fo76_ai.

Notation "'let*' x := m 'in' k" := (rbind m (fun x => k))
  (at level 10, x name, m at level 100, k at level 200).

Record AIGoal : Type := {
  id : string;
  name : string;
  description : string;
  enabled : bool;
  priority : Z;
  conditions : list (string * pyval);
  last_executed : option float;
  success_count : Z;
  failure_count : Z
}.

(** *** GoalManager *)

Record GoalManager : Type := {
  goals : list (string * AIGoal);
  active_goals : list string
}.

Definition goal (id name description : string) (enabled : bool) (priority : Z)
    (conditions : list (string * pyval)) : AIGoal :=
  {| id := id; name := name; description := description; enabled := enabled;
     priority := priority; conditions := conditions; last_executed := None;
     success_count := 0; failure_count := 0 |}.

Definition default_goals : list AIGoal :=
  [goal "do_public_events" "Participate in Public Events"
     "Automatically join and complete public events when they appear" false 8
     [("min_level", PyInt 5); ("max_deaths_per_event", PyInt 2)];
   goal "manage_inventory" "Smart Inventory Management"
     "Auto-sell junk, known plans, and non-god-roll legendaries" false 5
     [("weight_threshold", PyFloat 0.8); ("caps_threshold", PyInt 1000)];
   goal "fishing" "Fishing Activities"
     "Fish at various locations when not doing events" false 3
     [("preferred_locations",
        PyList [PyStr "Fisherman's Rest"; PyStr "Rivers"; PyStr "Lakes"])];
   goal "daily_challenges" "Complete Daily Challenges"
     "Automatically complete daily and weekly challenges" false 6
     [("max_time_per_challenge", PyInt 900)];
   goal "vendor_rounds" "Vendor Shopping Rounds"
     "Visit vendors for good deals and selling items" false 4
     [("min_caps", PyInt 500); ("check_frequency", PyInt 3600)];
   goal "resource_farming" "Resource Collection"
     "Farm specific resources based on current needs" false 2
     [("resources", PyList [PyStr "screws"; PyStr "springs"; PyStr "adhesive"])];
   goal "camp_maintenance" "C.A.M.P. Maintenance"
     "Maintain and optimize C.A.M.P. setup" false 1
     [("check_frequency", PyInt 1800)];
   goal "explore_and_map" "Exploration & Mapping"
     "Discover new locations and update world database" true 1
     [("discovery_radius", PyInt 100)]].

(** The loop of [_create_default_goals]. *)
Definition add_goal (self : GoalManager) (g : AIGoal) : GoalManager :=
  {| goals := dict_set (goals self) (id g) g;
     active_goals :=
       if enabled g then active_goals self ++ [id g] else active_goals self |}.

Definition _create_default_goals (self : GoalManager) : GoalManager :=
  fold_left add_goal default_goals self.

Definition GoalManager__init__ : GoalManager :=
  _create_default_goals {| goals := []; active_goals := [] |}.

Definition with_enabled (g : AIGoal) (enabled : bool) : AIGoal :=
  {| id := id g; name := name g; description := description g; enabled := enabled;
     priority := priority g; conditions := conditions g;
     last_executed := last_executed g; success_count := success_count g;
     failure_count := failure_count g |}.

(** [list.remove(x)]: the first occurrence goes. *)
Fixpoint list_remove (x : string) (l : list string) : list string :=
  match l with
  | [] => []
  | y :: t => if String.eqb x y then t else y :: list_remove x t
  end.

Definition set_goal_enabled (self : GoalManager) (goal_id : string) (enabled : bool)
  : GoalManager :=
  match dict_get (goals self) goal_id with
  | Some g =>
      let goals' := dict_set (goals self) goal_id (with_enabled g enabled) in
      let active := active_goals self in
      {| goals := goals';
         active_goals :=
           if enabled && negb (str_in_list goal_id active) then active ++ [goal_id]
           else if negb enabled && str_in_list goal_id active then list_remove goal_id active
           else active |}
  | None => self
  end.

Definition ctx_get (context : gmap string pyval) (key : string) (dflt : pyval) : pyval :=
  default dflt (context !! key).

(** The truth value of what [_goal_conditions_met] returns. *)
Definition _goal_conditions_met (g : AIGoal) (context : gmap string pyval) : result bool :=
  if String.eqb (id g) "do_public_events" then
    Ok (py_truthy (ctx_get context "public_event_active" (PyBool false)))
  else if String.eqb (id g) "manage_inventory" then
    let weight_ratio := ctx_get context "weight_ratio" (PyInt 0) in
    match dict_get (conditions g) "weight_threshold" with
    | Some threshold => py_ge weight_ratio threshold
    | None => Raise (KeyError "weight_threshold")
    end
  else if String.eqb (id g) "fishing" then
    Ok (negb (py_truthy (ctx_get context "public_event_active" (PyBool false)))
        && py_truthy (ctx_get context "at_water" (PyBool false)))
  else Ok true.

(** The loop of [get_highest_priority_goal] over [active_goals]. *)
Fixpoint eligible_goals (all : list (string * AIGoal)) (context : gmap string pyval)
    (ids : list string) : result (list AIGoal) :=
  match ids with
  | [] => Ok []
  | goal_id :: rest =>
      match dict_get all goal_id with
      | None => Raise (KeyError goal_id)
      | Some g =>
          let* met := _goal_conditions_met g context in
          let* tail := eligible_goals all context rest in
          Ok (if met : bool then g :: tail else tail)
      end
  end.

(** [list.sort(key=lambda g: g.priority, reverse=True)]: a stable sort, the
    elements of equal key keep their order also under [reverse]. *)
Fixpoint insert_desc (g : AIGoal) (sorted : list AIGoal) : list AIGoal :=
  match sorted with
  | [] => [g]
  | h :: t => if priority g <? priority h then h :: insert_desc g t else g :: h :: t
  end.

Definition sort_desc (l : list AIGoal) : list AIGoal := fold_right insert_desc [] l.

Definition get_highest_priority_goal (self : GoalManager) (current_context : gmap string pyval)
  : result (option AIGoal) :=
  let* eligible := eligible_goals (goals self) current_context (active_goals self) in
  match eligible with
  | [] => Ok None
  | _ => Ok (hd_error (sort_desc eligible))
  end.

(** *** IntelligentDecisionMaker *)

Record IntelligentDecisionMaker : Type := {
  local_model : string;
  remote_server_url : string;
  remote_available : bool;
  complex_decision_threshold : float;
  last_remote_call : float;
  remote_call_cooldown : float;
  is_openhermes : bool
}.

Definition set_remote_available (s : IntelligentDecisionMaker) (b : bool) :=
  {| local_model := local_model s; remote_server_url := remote_server_url s;
     remote_available := b;
     complex_decision_threshold := complex_decision_threshold s;
     last_remote_call := last_remote_call s;
     remote_call_cooldown := remote_call_cooldown s;
     is_openhermes := is_openhermes s |}.

Definition set_complex_decision_threshold (s : IntelligentDecisionMaker) (x : float) :=
  {| local_model := local_model s; remote_server_url := remote_server_url s;
     remote_available := remote_available s;
     complex_decision_threshold := x;
     last_remote_call := last_remote_call s;
     remote_call_cooldown := remote_call_cooldown s;
     is_openhermes := is_openhermes s |}.

Definition set_last_remote_call (s : IntelligentDecisionMaker) (x : float) :=
  {| local_model := local_model s; remote_server_url := remote_server_url s;
     remote_available := remote_available s;
     complex_decision_threshold := complex_decision_threshold s;
     last_remote_call := x;
     remote_call_cooldown := remote_call_cooldown s;
     is_openhermes := is_openhermes s |}.

Definition set_remote_call_cooldown (s : IntelligentDecisionMaker) (x : float) :=
  {| local_model := local_model s; remote_server_url := remote_server_url s;
     remote_available := remote_available s;
     complex_decision_threshold := complex_decision_threshold s;
     last_remote_call := last_remote_call s;
     remote_call_cooldown := x;
     is_openhermes := is_openhermes s |}.

Definition set_is_openhermes (s : IntelligentDecisionMaker) (b : bool) :=
  {| local_model := local_model s; remote_server_url := remote_server_url s;
     remote_available := remote_available s;
     complex_decision_threshold := complex_decision_threshold s;
     last_remote_call := last_remote_call s;
     remote_call_cooldown := remote_call_cooldown s;
     is_openhermes := b |}.

(** What [requests.get] hands back: the status code and the outcome of
    [response.json()]. *)
Record response : Type := {
  status_code : Z;
  response_json : result json
}.

(** The module reads the global name [requests] without importing it.
    [requests] is [Some get] when that name is bound to the HTTP library and
    [None] as the file stands. *)
Definition http : Type := option (string -> result response).

Definition _test_kobold_connection (requests : http) (self : IntelligentDecisionMaker)
  : result IntelligentDecisionMaker :=
  match requests with
  | None => Raise (NameError "requests")
  | Some get =>
      let suite : result IntelligentDecisionMaker :=
        let* response := get (remote_server_url self +:+ "/api/v1/model") in
        if status_code response =? 200 then
          let* model_info := response_json response in
          let* model_name := json_get model_info "result" (JStr "Unknown model") in
          match model_name with
          | JStr model_name =>
              let self :=
                if contains "openhermes" (lower model_name)
                   || contains "hermes" (lower model_name)
                then
                  let self := set_is_openhermes self true in
                  let self := set_complex_decision_threshold self 0.6 in
                  set_remote_call_cooldown self 30
                else set_is_openhermes self false in
              Ok (set_remote_available self true)
          | _ => Raise AttributeError
          end
        else
          let self := set_remote_available self false in
          Ok (set_is_openhermes self false) in
      match suite with
      | Raise RequestException =>
          let self := set_remote_available self false in
          Ok (set_is_openhermes self false)
      | r => r
      end
  end.

(** An object before [__init__] has assigned anything; every field is written
    before [__init__] returns, and none is read before it is written. *)
Definition blank : IntelligentDecisionMaker :=
  {| local_model := ""; remote_server_url := ""; remote_available := false;
     complex_decision_threshold := 0; last_remote_call := 0;
     remote_call_cooldown := 0; is_openhermes := false |}.

(** [config] is read at one key, the server address, a string. *)
Definition IntelligentDecisionMaker__init__ (requests : http) (config : list (string * string))
  : result IntelligentDecisionMaker :=
  let self := blank in
  let self :=
    {| local_model := "gemma:2b";
       remote_server_url :=
         dict_get_default config "kobold_server_url" "http://100.64.150.78:5001";
       remote_available := false;
       complex_decision_threshold := complex_decision_threshold self;
       last_remote_call := last_remote_call self;
       remote_call_cooldown := remote_call_cooldown self;
       is_openhermes := is_openhermes self |} in
  let* self := _test_kobold_connection requests self in
  let self := set_complex_decision_threshold self 0.7 in
  let self := set_last_remote_call self 0 in
  let self := set_remote_call_cooldown self 60 in
  let self := set_is_openhermes self false in
  Ok self.

(** [min(a, b)]: the first argument unless the second is smaller. *)
Definition py_min (a b : float) : float := if (b <? a)%float then b else a.

Definition flag (context : gmap string pyval) (key : string) : bool :=
  py_truthy (ctx_get context key (PyBool false)).

Definition _calculate_complexity (context : gmap string pyval) (g : AIGoal) : float :=
  let complexity := 0.0%float in
  let complexity :=
    if String.eqb (id g) "do_public_events" then (complexity + 0.6)%float
    else if String.eqb (id g) "manage_inventory" then (complexity + 0.4)%float
    else if String.eqb (id g) "fishing" then (complexity + 0.2)%float
    else complexity in
  let complexity :=
    if flag context "multiple_threats" then (complexity + 0.3)%float else complexity in
  let complexity :=
    if flag context "unknown_location" then (complexity + 0.2)%float else complexity in
  let complexity :=
    if flag context "inventory_full" then (complexity + 0.2)%float else complexity in
  let complexity :=
    if flag context "low_resources" then (complexity + 0.2)%float else complexity in
  py_min complexity 1.0.

Inductive tier : Type :=
| Strategic
| Routine.

(** The test of [make_decision]; [now] is [time.time()]. *)
Definition make_decision_tier (self : IntelligentDecisionMaker)
    (context : gmap string pyval) (g : AIGoal) (now : float) : tier :=
  let complexity := _calculate_complexity context g in
  if (complex_decision_threshold self <=? complexity)%float
     && remote_available self
     && (remote_call_cooldown self <=? now - last_remote_call self)%float
  then Strategic else Routine.

Section Tiers.

(** The two coroutines [make_decision] hands over to. *)
Context {D : Type}.
Variable _strategic_decision_kobold :
  IntelligentDecisionMaker -> gmap string pyval -> AIGoal -> float ->
  result D * IntelligentDecisionMaker.
Variable _routine_decision :
  IntelligentDecisionMaker -> gmap string pyval -> AIGoal ->
  result D * IntelligentDecisionMaker.

Definition make_decision (self : IntelligentDecisionMaker)
    (context : gmap string pyval) (g : AIGoal) (now : float)
  : result D * IntelligentDecisionMaker :=
  match make_decision_tier self context g now with
  | Strategic => _strategic_decision_kobold self context g now
  | Routine => _routine_decision self context g
  end.

(** *** ComprehensiveAI *)

Record ComprehensiveAI : Type := {
  goal_manager : GoalManager;
  decision_maker : IntelligentDecisionMaker;
  current_context : gmap string pyval;
  total_decisions : Z
}.

(** A decision with the two entries [make_intelligent_decision] adds. *)
Record Decision : Type := {
  decision : D;
  decision_goal : string;
  decision_timestamp : float
}.

(** The first step of [make_intelligent_decision]: the goal of the cycle. *)
Definition current_goal_of (self : ComprehensiveAI) : result AIGoal :=
  let* current_goal :=
    get_highest_priority_goal (goal_manager self) (current_context self) in
  match current_goal with
  | Some g => Ok g
  | None =>
      match dict_get (goals (goal_manager self)) "explore_and_map" with
      | Some g => Ok g
      | None => Raise (KeyError "explore_and_map")
      end
  end.

Definition make_intelligent_decision (self : ComprehensiveAI) (now : float)
  : result Decision * ComprehensiveAI :=
  match current_goal_of self with
  | Raise e => (Raise e, self)
  | Ok current_goal =>
      let '(r, dm) :=
        make_decision (decision_maker self) (current_context self) current_goal now in
      let self :=
        {| goal_manager := goal_manager self; decision_maker := dm;
           current_context := current_context self;
           total_decisions := total_decisions self |} in
      match r with
      | Raise e => (Raise e, self)
      | Ok d =>
          (Ok {| decision := d; decision_goal := name current_goal;
                 decision_timestamp := now |},
           {| goal_manager := goal_manager self; decision_maker := dm;
              current_context := current_context self;
              total_decisions := total_decisions self + 1 |})
      end
  end.

End Tiers.

Definition get_goal_states (self : ComprehensiveAI) : list (string * bool) :=
  map (fun kv => (fst kv, enabled (snd kv))) (goals (goal_manager self)).

Definition set_goal_state (self : ComprehensiveAI) (goal_id : string) (enabled : bool)
  : ComprehensiveAI :=
  {| goal_manager := set_goal_enabled (goal_manager self) goal_id enabled;
     decision_maker := decision_maker self;
     current_context := current_context self;
     total_decisions := total_decisions self |}.

(** *** update_context *)

Section Arithmetic.

(** [a / b] on what the game state holds for the two weights: the quotient,
    or what the division raises (a zero divisor, an operand that is no
    number). *)
Variable truediv : pyval -> pyval -> result pyval.

(** The [update] of [update_context]; [now] is the reading of [time.time()].
    The values of the dict display are computed before the update, so a
    division that raises leaves the context as it was.  What the method does
    next, feeding the world database, does not touch the context and is left
    out. *)
Definition update_context (self : ComprehensiveAI) (game_state : gmap string pyval)
    (now : float) : result ComprehensiveAI :=
  let* weight_ratio :=
    truediv (ctx_get game_state "weight" (PyInt 0))
      (ctx_get game_state "max_weight" (PyInt 1000)) in
  let context := current_context self in
  let context := <["timestamp" := PyFloat now]> context in
  let context := <["location" := ctx_get game_state "location" (PyStr "unknown")]> context in
  let context := <["character_level" := ctx_get game_state "level" (PyInt 1)]> context in
  let context := <["health_percent" := ctx_get game_state "health" (PyInt 100)]> context in
  let context := <["weight_ratio" := weight_ratio]> context in
  let context := <["caps" := ctx_get game_state "caps" (PyInt 0)]> context in
  let context :=
    <["public_event_active" := ctx_get game_state "event_active" (PyBool false)]> context in
  let context := <["at_water" := ctx_get game_state "near_water" (PyBool false)]> context in
  let context := <["threats" := ctx_get game_state "enemies" (PyList [])]> context in
  let context := <["opportunities" := ctx_get game_state "loot" (PyList [])]> context in
  let context := <["inventory_items" := ctx_get game_state "inventory" (PyList [])]> context in
  Ok {| goal_manager := goal_manager self; decision_maker := decision_maker self;
        current_context := context; total_decisions := total_decisions self |}.

End Arithmetic.

Definition _classify_location (game_state : gmap string pyval) : string :=
  if py_truthy (ctx_get game_state "event_active" PyNone) then "event"
  else if py_truthy (ctx_get game_state "vendors_present" PyNone) then "vendor"
  else if py_truthy (ctx_get game_state "near_water" PyNone) then "fishing"
  else if py_truthy (ctx_get game_state "workbenches_present" PyNone) then "crafting"
  else "general".

(** *** WorldDatabase *)

Record ItemKnowledge : Type := {
  item_name : string;
  item_type : string;
  base_value : Z;
  is_god_roll : bool;
  god_roll_effects : list string;
  vendor_value : Z;
  keep_or_sell : string;
  rarity : string;
  notes : string
}.

Definition should_keep_item (item_knowledge : list (string * ItemKnowledge))
    (item_name : string) : string :=
  match dict_get item_knowledge item_name with
  | Some item => keep_or_sell item
  | None =>
      if contains "plan" (lower item_name) then "learn_then_sell"
      else if contains "legendary" (lower item_name) then "evaluate"
      else "sell"
  end.

(** *** The routine tier *)

Definition plan (action : string) (duration : decimal) (reason : string)
  : list (string * json) :=
  [("action", JStr action); ("duration", JFloat duration); ("reason", JStr reason)].

Definition _fallback_decision (context : gmap string pyval) (g : AIGoal)
  : list (string * json) :=
  if String.eqb (id g) "do_public_events" then plan "JOIN_EVENT" (Dec 1 0) "event_active"
  else if String.eqb (id g) "fishing" then plan "CAST_LINE" (Dec 5 0) "fishing_goal"
  else if String.eqb (id g) "manage_inventory" then
    plan "OPEN_INVENTORY" (Dec 1 0) "inventory_management"
  else plan "EXPLORE" (Dec 3 0) "default_action".

Section LocalModel.

(** [format(v)], the text an f-string puts in for a value. *)
Variable py_format : pyval -> string.

Variable json_loads : string -> result (list (string * json)).

(** [self.local_client.generate(model=..., prompt=..., options=...)]. *)
Variable generate : string -> string -> json -> result json.

Definition routine_prompt (context : gmap string pyval) (g : AIGoal) : string :=
  "
You are an AI playing Fallout 76. Make a quick decision for this situation:

GOAL: " +:+ name g +:+ "
SITUATION: " +:+ py_format (ctx_get context "situation" (PyStr "normal")) +:+ "
LOCATION: " +:+ py_format (ctx_get context "location" (PyStr "unknown")) +:+ "
HEALTH: " +:+ py_format (ctx_get context "health_percent" (PyInt 100)) +:+ "%
WEIGHT: " +:+ py_format (ctx_get context "weight_ratio" (PyFloat 0.5)) +:+ "/1.0

Quick action needed. Respond with JSON:
{" +:+ dq +:+ "action" +:+ dq +:+ ": " +:+ dq +:+ "ACTION_NAME" +:+ dq +:+ ", "
  +:+ dq +:+ "duration" +:+ dq +:+ ": 2.0, "
  +:+ dq +:+ "reason" +:+ dq +:+ ": " +:+ dq +:+ "brief" +:+ dq +:+ "}

Keep it simple and direct.
".

(** The [try] suite of [_routine_decision]: the decision of the local
    model, or [None] when its response holds no brace-delimited text. *)
Definition _routine_decision_try (self : IntelligentDecisionMaker)
    (context : gmap string pyval) (g : AIGoal)
  : result (option (list (string * json))) :=
  let prompt := routine_prompt context g in
  let* response :=
    generate (local_model self) prompt
      (JObj [("temperature", JFloat (Dec 2 (-1))); ("num_predict", JInt 80)]) in
  let* text := json_getitem response "response" in
  let* text := json_as_str text in
  match re_search re_braces_greedy text with
  | Some json_str =>
      let* decision := json_loads json_str in
      let decision := dict_set decision "source" (JStr "local_llm") in
      Ok (Some decision)
  | None => Ok None
  end.

Definition _routine_decision (self : IntelligentDecisionMaker)
    (context : gmap string pyval) (g : AIGoal)
  : result (list (string * json)) * IntelligentDecisionMaker :=
  match _routine_decision_try self context g with
  | Ok (Some decision) => (Ok decision, self)
  | Ok None => (Ok (_fallback_decision context g), self)
  | Raise _ => (Ok (_fallback_decision context g), self)
  end.

End LocalModel.

End comprehensive_fo76_ai.

(** ** main_bot.py *)

Module main_bot.

(** The two little quoted pieces of the prompt. *)
Definition quoted (s : string) : string := dq +:+ s +:+ dq.

Definition decision_prompt (context : string) : string :=
  "You are an AI playing Fallout 76. Based on the current situation, choose ONE action.

CURRENT SITUATION:
" +:+ context +:+ "

AVAILABLE ACTIONS: FORWARD, BACKWARD, STRAFE_LEFT, STRAFE_RIGHT, JUMP, INTERACT, VATS, ATTACK, AIM, M (map), WAIT

Respond with JSON: {" +:+ quoted "action" +:+ ": " +:+ quoted "ACTION_NAME" +:+ ", "
  +:+ quoted "duration" +:+ ": 2.0, "
  +:+ quoted "reason" +:+ ": " +:+ quoted "why you chose this" +:+ "}

Be strategic and safe. Explain your reasoning.".

Definition plan (action : string) (duration : decimal) (reason : string) : json :=
  JObj [("action", JStr action); ("duration", JFloat duration); ("reason", JStr reason)].

Definition fallback_decision (context : string) : json :=
  if contains "person" (lower context) || contains "creature" (lower context) then
    plan "VATS" (Dec 1 (-1)) "Detected potential threat"
  else if contains "container" (lower context) && contains "collect" (lower context) then
    plan "INTERACT" (Dec 1 0) "Found lootable container"
  else plan "FORWARD" (Dec 2 0) "Continue exploration".

Section Backend.

Variable json_loads : string -> result (list (string * json)).
Variable post : string -> json -> result json.

(** [make_intelligent_decision]: the decision and the brain afterwards. *)
Definition make_intelligent_decision (brain : local_llm_module.LocalBrain)
    (context : string) : result json * local_llm_module.LocalBrain :=
  let prompt := decision_prompt context in
  let '(brain_response, brain) :=
    local_llm_module.get_plan json_loads post brain prompt in
  let accepted : result bool :=
    if truthy brain_response then json_in "action" brain_response else Ok false in
  match accepted with
  | Raise e => (Raise e, brain)
  | Ok true => (Ok brain_response, brain)
  | Ok false => (Ok (fallback_decision context), brain)
  end.

End Backend.

(** What [execute_action] asks of the controller and of the clock. *)
Inductive step : Type :=
| Press (action : string) (duration : json)
| Sleep (duration : json)
| LogUnknown (action : string).

(** [execute_action], up to the update of the execution count: the steps
    taken, or the AttributeError of an action that is no [str]. *)
Definition execute_action (action_data : list (string * json)) : result (list step) :=
  match dict_get_default action_data "action" (JStr "WAIT") with
  | JStr a =>
      let action := upper a in
      let duration := dict_get_default action_data "duration" (JFloat (Dec 1 0)) in
      if String.eqb action "M" then
        Ok [Press "M" (JFloat (Dec 1 (-1))); Sleep (JFloat (Dec 2 0));
            Press "M" (JFloat (Dec 1 (-1)))]
      else if str_in_list action ["FORWARD"; "BACKWARD"; "STRAFE_LEFT"; "STRAFE_RIGHT";
                                  "JUMP"; "INTERACT"; "VATS"; "ATTACK"; "AIM"; "WAIT"] then
        if String.eqb action "WAIT" then Ok [Sleep duration]
        else Ok [Press action duration]
      else Ok [LogUnknown action]
  | _ => Raise AttributeError
  end.

End main_bot.

(** * Statements

    The notions the properties below are stated with, and the concrete
    inputs they are run on. *)

Module local_llm_lightweight_spec.
Import local_llm_lightweight.

(** A template plan as [get_quick_decision] returns it. *)
Definition canned (action : string) (duration : decimal) (reason : string) : json :=
  JObj [("action", JStr action); ("duration", JFloat duration);
        ("reason", JStr reason); ("source", JStr "template")].

(** [get_plan] answers [prompt] with [plan] whatever the decoder and the
    backend are, sends no request and leaves the brain as it was. *)
Definition answers_without_backend (self : LightweightBrain) (prompt : string)
    (plan : json) : Prop :=
  forall json_loads post,
    get_plan json_loads post self prompt = (Ok plan, self, []).

Definition brain_after_failures : LightweightBrain :=
  set_consecutive_failures (__init__ "qwen2:0.5b") 3.

End local_llm_lightweight_spec.

Module local_llm_module_spec.
Import local_llm_module.

(** A value that is a plan: a dict with an action, a duration and a reason
    (so in particular not [None]). *)
Definition is_plan (v : json) : Prop :=
  exists d, v = JObj d /\
            dict_mem d "action" = true /\
            dict_mem d "duration" = true /\
            dict_mem d "reason" = true.

Definition fallback_plans : list json :=
  [_combat_fallback_plan; _orientation_fallback_plan; _investigation_fallback_plan;
   _exploration_fallback_plan; _default_fallback_plan].

Definition dead_backend : string -> json -> result json :=
  fun _ _ => Raise RequestException.

End local_llm_module_spec.

Module main_bot_enhanced_spec.
Import main_bot_enhanced.

Definition retreat : json := reflex "BACKWARD" (Dec 3 0) "retreat_survival".
Definition engage : json := reflex "VATS" (Dec 1 (-1)) "engage_enemy".
Definition collect : json := reflex "INTERACT" (Dec 5 (-1)) "collect_loot".
Definition explore : json := reflex "FORWARD" (Dec 2 0) "continue_exploration".

(** A reflex with the tier entry the cycle writes into it. *)
Definition with_tier (plan : json) : json :=
  match plan with
  | JObj d => JObj (d ++ [("tier", JStr "REFLEX")])
  | _ => plan
  end.

(** The tables of a run: the one [__init__] builds, and what a cycle makes
    of it when a reflex fires. *)
Inductive table_reachable : FastDecisionMaker.t -> Prop :=
| table_init : table_reachable FastDecisionMaker.__init__
| table_cycle self game_state active_goals reflex_response self' :
    table_reachable self ->
    FastDecisionMaker.check_instant_response self game_state active_goals
    = Ok reflex_response ->
    FastDecisionMaker.tag self reflex_response = Ok self' ->
    table_reachable self'.

(** The table with the entries that have fired marked. *)
Definition fired (b : bool) (plan : json) : json := if b then with_tier plan else plan.

Definition table_of (b1 b2 b3 b4 b5 : bool) : FastDecisionMaker.t :=
  {| FastDecisionMaker.survival_reflexes :=
       [("enemy_close_health_low", fired b1 (reflex "BACKWARD" (Dec 3 0) "retreat_survival"));
        ("enemy_detected_healthy", fired b2 (reflex "VATS" (Dec 1 (-1)) "engage_enemy"));
        ("loot_safe_nearby", fired b3 (reflex "INTERACT" (Dec 5 (-1)) "collect_loot"));
        ("stuck_detected", fired b4 (reflex "BACKWARD" (Dec 1 0) "unstuck_maneuver"));
        ("path_clear_exploring", fired b5 (reflex "FORWARD" (Dec 2 0) "continue_exploration"))] |}.

(** The table after a first retreat. *)
Definition after_retreat : FastDecisionMaker.t := table_of true false false false false.

(** A person and a container in view, health 50, inventory and exploration
    goals active. *)
Definition wounded_with_loot : gmap string pyval :=
  <["health" := PyInt 50]>
    (<["detected_objects" :=
         PyList [PyDict [("label", PyStr "person"); ("position", PyStr "in the center");
                         ("size", PyStr "large (medium distance)")];
                 PyDict [("label", PyStr "container"); ("position", PyStr "on the left");
                         ("size", PyStr "small (far away)")]]]> ∅).

(** A person and a container in view, health 20. *)
Definition dying_with_loot : gmap string pyval :=
  <["health" := PyInt 20]> wounded_with_loot.

End main_bot_enhanced_spec.

Module decision_maker_spec.
Import comprehensive_fo76_ai.

(** The base weight of a goal, by its id. *)
Definition base_weight (goal_id : string) : float :=
  if String.eqb goal_id "do_public_events" then 0.6%float
  else if String.eqb goal_id "manage_inventory" then 0.4%float
  else if String.eqb goal_id "fishing" then 0.2%float
  else 0%float.

(** A weight that counts only when its flag is set. *)
Definition weight (set : bool) (w : float) : float := if set then w else 0%float.

(** What the context holds under a key counts as a condition when it is
    there and Python takes it for true. *)
Definition holds (context : gmap string pyval) (key : string) : bool :=
  match context !! key with
  | Some v => py_truthy v
  | None => false
  end.

(** The weighted sum the score is built from, added left to right in
    binary64 arithmetic. *)
Definition weighted_sum (context : gmap string pyval) (g : AIGoal) : float :=
  (base_weight (id g)
   + weight (holds context "multiple_threats") 0.3
   + weight (holds context "unknown_location") 0.2
   + weight (holds context "inventory_full") 0.2
   + weight (holds context "low_resources") 0.2)%float.

(** A score cut off at 1. *)
Definition clamped (x : float) : float := if (1 <? x)%float then 1%float else x.

(** The contexts of the program: the empty one of [__init__], and what
    [update_context] makes of one, whatever the game state and the outcome
    of the division. *)
Inductive program_context : gmap string pyval -> Prop :=
| context_init : program_context ∅
| context_update truediv self game_state now self' :
    program_context (current_context self) ->
    update_context truediv self game_state now = Ok self' ->
    program_context (current_context self').

(** The number of hostile entities a context lists. *)
Definition hostiles (context : gmap string pyval) : Z :=
  match context !! "threats" with
  | Some (PyList l) => Z.of_nat (List.length l)
  | _ => 0
  end.

Definition events_goal : AIGoal :=
  goal "do_public_events" "Participate in Public Events"
    "Automatically join and complete public events when they appear" true 8
    [("min_level", PyInt 5); ("max_deaths_per_event", PyInt 2)].

(** A context with the flag for several hostiles set by hand. *)
Definition two_hostiles : gmap string pyval := <["multiple_threats" := PyBool true]> ∅.

(** The division of two ints below 2^53 in size, where it is the quotient
    of the two as floats; other operands are not used here. *)
Definition truediv_ints (a b : pyval) : result pyval :=
  match a, b with
  | PyInt x, PyInt y =>
      if (Z.abs x <? 2 ^ 53) && (Z.abs y <? 2 ^ 53) && negb (y =? 0)
      then Ok (PyFloat (float_of_int x / float_of_int y))
      else Raise TypeError
  | _, _ => Raise TypeError
  end.

(** A companion whose server is in reach, and the game state of a raid: two
    hostile entities in view. *)
Definition connected_companion : ComprehensiveAI :=
  {| goal_manager := GoalManager__init__;
     decision_maker :=
       set_remote_available
         (set_remote_call_cooldown (set_complex_decision_threshold blank 0.7) 60) true;
     current_context := ∅;
     total_decisions := 0 |}.

Definition raid : gmap string pyval :=
  <["enemies" := PyList [PyStr "raider"; PyStr "raider"]]> (<["health" := PyInt 80]> ∅).

(** The context [update_context] builds from the raid. *)
Definition raid_context : gmap string pyval :=
  match update_context truediv_ints connected_companion raid 1000 with
  | Ok self => current_context self
  | Raise _ => ∅
  end.

(** A server whose model name mentions OpenHermes. *)
Definition openhermes_server : string -> result response :=
  fun _ => Ok {| status_code := 200;
                 response_json :=
                   Ok (JObj [("result", JStr "koboldcpp/OpenHermes-2.5-Mistral-7B")]) |}.

Definition settings (self : IntelligentDecisionMaker) : float * float * bool * bool :=
  (complex_decision_threshold self, remote_call_cooldown self,
   is_openhermes self, remote_available self).

End decision_maker_spec.

Module regex_spec.

(** [occurs c s]: the character [c] appears in [s]. *)
Fixpoint occurs (c : ascii) (s : string) : bool :=
  match s with
  | EmptyString => false
  | String a t => Ascii.eqb c a || occurs c t
  end.

(** The text from the first [c] on. *)
Fixpoint from_first (c : ascii) (s : string) : option string :=
  match s with
  | EmptyString => None
  | String a t => if Ascii.eqb c a then Some s else from_first c t
  end.

(** The text up to and including the last [c]. *)
Fixpoint through_last (c : ascii) (s : string) : option string :=
  match s with
  | EmptyString => None
  | String a t =>
      match through_last c t with
      | Some r => Some (String a r)
      | None => if Ascii.eqb c a then Some (String a EmptyString) else None
      end
  end.

(** The text up to and including the first [c]. *)
Fixpoint through_first (c : ascii) (s : string) : option string :=
  match s with
  | EmptyString => None
  | String a t =>
      if Ascii.eqb c a then Some (String a EmptyString)
      else option_map (String a) (through_first c t)
  end.

(** The substring from the first opening brace to the last closing brace. *)
Definition first_to_last_brace (s : string) : option string :=
  match from_first "{" s with
  | Some (String o t) => option_map (String o) (through_last "}" t)
  | _ => None
  end.

(** The substring from the first opening brace to the closing brace that
    comes next. *)
Definition first_to_next_brace (s : string) : option string :=
  match from_first "{" s with
  | Some (String o t) => option_map (String o) (through_first "}" t)
  | _ => None
  end.

End regex_spec.

(** ** The codec on flat plans

    The notions the round trip of a plan through [Json.dumps] and
    [Json.loads] is stated and proved with. *)

Module codec_spec.
Import Json.

(** A string of digits. *)
Fixpoint all_digits (s : string) : bool :=
  match s with
  | EmptyString => true
  | String c t => is_digit c && all_digits t
  end.

(** The value of a string of digits, most significant first. *)
Fixpoint sval (acc : Z) (s : string) : Z :=
  match s with
  | EmptyString => acc
  | String c t => sval (acc * 10 + digit_val c) t
  end.

(** A text that does not go on with a digit. *)
Definition no_digit_ahead (rest : string) : Prop :=
  match rest with
  | String c _ => is_digit c = false
  | EmptyString => True
  end.

(** A text that starts with a digit other than zero, as the decimal numeral
    of a positive number does. *)
Definition leading (s : string) : Prop :=
  match s with
  | String c _ => is_digit c = true /\ Ascii.eqb c "0" = false
  | EmptyString => False
  end.

(** [scan_number] read in its phases: the sign, the integer part, the
    fraction, the exponent, and the number they make. *)
Definition sign_part (s : string) : bool * string :=
  match s with
  | String c t => if Ascii.eqb c "-" then (true, t) else (false, s)
  | EmptyString => (false, s)
  end.

Definition int_part (s1 : string) : option (Z * string) :=
  match s1 with
  | String c t =>
      if Ascii.eqb c "0" then Some (0, t)
      else if is_digit c then let '(_, v, r) := scan_digits 0 0 s1 in Some (v, r)
      else None
  | EmptyString => None
  end.

Definition frac_part (s2 : string) : option (Z * Z) * string :=
  match s2 with
  | String c t =>
      if Ascii.eqb c "." then
        let '(n, v, r) := scan_digits 0 0 t in
        if 0 <? n then (Some (n, v), r) else (None, s2)
      else (None, s2)
  | EmptyString => (None, s2)
  end.

Definition exp_part (s3 : string) : option Z * string :=
  match s3 with
  | String c t =>
      if Ascii.eqb c "e" || Ascii.eqb c "E" then
        let '(sg, t1) :=
          match t with
          | String c1 t' =>
              if Ascii.eqb c1 "-" then (-1, t')
              else if Ascii.eqb c1 "+" then (1, t')
              else (1, t)
          | EmptyString => (1, t)
          end in
        let '(n, v, r) := scan_digits 0 0 t1 in
        if 0 <? n then (Some (sg * v), r) else (None, s3)
      else (None, s3)
  | EmptyString => (None, s3)
  end.

Definition number_of (neg : bool) (iv : Z) (frac : option (Z * Z)) (ex : option Z) : json :=
  let sign := if neg then -1 else 1 in
  match frac, ex with
  | None, None => JInt (sign * iv)
  | _, _ =>
      let '(fn, fv) := match frac with Some p => p | None => (0, 0) end in
      let e := match ex with Some e => e | None => 0 end in
      JFloat (normalize (sign * (iv * 10 ^ fn + fv)) (e - fn))
  end.

(** A text that does not go on with the number before it. *)
Definition ends_number (tail : string) : Prop :=
  match tail with
  | String c _ =>
      is_digit c = false /\ Ascii.eqb c "." = false /\
      Ascii.eqb c "e" = false /\ Ascii.eqb c "E" = false
  | EmptyString => True
  end.

(** The integer part of a numeral: a zero, or digits that do not start with
    a zero. *)
Definition int_form (ds : string) : Prop :=
  ds = "0" \/ (leading ds /\ all_digits ds = true).

(** The digits and the point of [dumps_float], after the sign. *)
Definition float_body (digits : string) (e : Z) : string :=
  let k := Z.of_nat (String.length digits) in
  let p := k + e in
  if (-4 <? p) && (p <=? 16) then
    if p <=? 0 then String.append "0." (String.append (zeros (Z.to_nat (- p))) digits)
    else if p <? k then
      String.append (String.substring 0 (Z.to_nat p) digits)
        (String.append "." (String.substring (Z.to_nat p) (Z.to_nat (k - p)) digits))
    else String.append digits (String.append (zeros (Z.to_nat (p - k))) ".0")
  else
    let x := p - 1 in
    let xs := Z_to_string (Z.abs x) in
    let xs := if Z.abs x <? 10 then String "0" xs else xs in
    let frac := String.substring 1 (Z.to_nat (k - 1)) digits in
    String.append (String.substring 0 1 digits)
      (String.append (if k =? 1 then "" else String.append "." frac)
         (String.append "e" (String.append (if x <? 0 then "-" else "+") xs))).

(** What the phases make of the body of a float with mantissa [a]. *)
Definition reads_as (neg : bool) (a e : Z) (text tail : string) : Prop :=
  exists iv s2 frac s3 ex,
    int_part text = Some (iv, s2) /\ frac_part s2 = (frac, s3) /\
    exp_part s3 = (ex, tail) /\
    number_of neg iv frac ex = JFloat (Dec ((if neg then -1 else 1) * a) e).

(** A decimal as the codec carries it: zero as 0 times 10^0, and otherwise a
    mantissa without trailing zeros. *)
Definition canonical (d : decimal) : Prop :=
  (dmant d = 0 /\ dexp d = 0) \/ dmant d mod 10 <> 0.

(** The values of a flat plan. *)
Definition scalar (v : json) : Prop :=
  match v with
  | JNull | JBool _ | JInt _ => True
  | JFloat d => canonical d
  | JStr s => isascii s = true
  | JArr _ | JObj _ => False
  end.

(** A text that goes on with a comma or a closing brace. *)
Definition ends_value (tail : string) : Prop :=
  exists t, tail = String "," t \/ tail = String "}" t.

(** The members of an object as [dumps] writes them. *)
Fixpoint obj_items (d : list (string * json)) : option (list string) :=
  match d with
  | [] => Some []
  | (k, x) :: t =>
      match quote k, dumps x, obj_items t with
      | Some a, Some b, Some c => Some (String.append a (String.append ": " b) :: c)
      | _, _, _ => None
      end
  end.

(** A flat plan: ASCII keys, scalar values. *)
Definition flat (d : list (string * json)) : Prop :=
  Forall (fun kv => isascii (fst kv) = true /\ scalar (snd kv)) d.

(** The dict [scan_members] builds: the members stored one by one. *)
Definition set_all (acc d : list (string * json)) : list (string * json) :=
  fold_left (fun a kv => dict_set a (fst kv) (snd kv)) d acc.

(** A plan the codec writes and reads back exactly: a dict (its keys are
    distinct) with ASCII keys and scalar values. *)
Definition flat_plan (plan : list (string * json)) : Prop :=
  List.NoDup (map fst plan) /\ flat plan.

End codec_spec.

Module extraction_spec.
Import regex_spec.

(** A response body whose generated text is [text]. *)
Definition reply_with (text : string) : json :=
  JObj [("results", JArr [JObj [("text", JStr text)]])].

Definition serve (text : string) : string -> json -> result json :=
  fun _ _ => Ok (reply_with text).

(** ["key": "value"] *)
Definition member (key value : string) : string :=
  dq +:+ key +:+ dq +:+ ": " +:+ dq +:+ value +:+ dq.

(** An object that holds another object. *)
Definition nested_reply : string :=
  "{" +:+ member "action" "JUMP" +:+ ", " +:+ dq +:+ "args" +:+ dq +:+ ": {}}".

(** A flat object followed by commentary that holds a closing brace. *)
Definition smiley_reply : string :=
  "Plan: {" +:+ member "action" "TAB" +:+ "} (done :-})".

Definition chatty_reply : string :=
  "Sure! " +:+ String "{" (member "action" "TAB" +:+ String "}" " Good luck.").

(** [{"action": "A}B"}]: the closing brace inside the action is written
    as an escape. *)
Definition escaped_reply : string :=
  "{" +:+ dq +:+ "action" +:+ dq +:+ ": " +:+ dq +:+ "A"
  +:+ String Json.c_bs "u007dB" +:+ dq +:+ "}".

Definition escaped_plan : list (string * json) :=
  [("action", JStr "A}B"); ("duration", JFloat (Dec 1 0)); ("reason", JStr "AI decision")].

Definition terse_plan : list (string * json) := [("action", JStr "TAB"); ("dx", JInt 3)].

End extraction_spec.

Module goal_manager_spec.
Import comprehensive_fo76_ai.

(** The states of the registry: the initial one, and any state reached by
    calls of [set_goal_enabled]. *)
Inductive reachable : GoalManager -> Prop :=
| reach_init : reachable GoalManager__init__
| reach_set gm goal_id on :
    reachable gm -> reachable (set_goal_enabled gm goal_id on).

(** An entry of the registry is a default goal under its own id, with only
    the enablement flag possibly changed. *)
Definition entry_of (kv : string * AIGoal) (g0 : AIGoal) : Prop :=
  fst kv = id g0 /\ snd kv = with_enabled g0 (enabled (snd kv)).

Record wf (gm : GoalManager) : Prop := {
  wf_entries : Forall2 entry_of (goals gm) default_goals;
  wf_nodup : List.NoDup (active_goals gm);
  wf_active : forall goal_id,
    In goal_id (active_goals gm) <->
    exists g, dict_get (goals gm) goal_id = Some g /\ enabled g = true
}.

(** First position of [x] in [l]. *)
Fixpoint position (x : string) (l : list string) : option nat :=
  match l with
  | [] => None
  | y :: t => if String.eqb x y then Some O else option_map S (position x t)
  end.

(** An eligible goal: registered under its id, enabled, conditions met. *)
Definition eligible (gm : GoalManager) (context : gmap string pyval) (g : AIGoal) : Prop :=
  dict_get (goals gm) (id g) = Some g /\
  enabled g = true /\
  _goal_conditions_met g context = Ok true.

Definition eligible_id (all : list (string * AIGoal)) (context : gmap string pyval)
    (goal_id : string) : bool :=
  match dict_get all goal_id with
  | Some g => match _goal_conditions_met g context with Ok true => true | _ => false end
  | None => false
  end.

Definition met_under (all : list (string * AIGoal)) (context : gmap string pyval)
    (goal_id : string) (g : AIGoal) : Prop :=
  dict_get all goal_id = Some g /\ _goal_conditions_met g context = Ok true.

(** Inventory and fishing enabled, in that order; overweight, at the water. *)
Definition busy_registry : GoalManager :=
  set_goal_enabled (set_goal_enabled GoalManager__init__ "manage_inventory" true)
    "fishing" true.

Definition heavy_at_water : gmap string pyval :=
  <["weight_ratio" := PyFloat 0.9]> (<["at_water" := PyBool true]> ∅).

Definition inventory_goal : AIGoal :=
  goal "manage_inventory" "Smart Inventory Management"
    "Auto-sell junk, known plans, and non-god-roll legendaries" true 5
    [("weight_threshold", PyFloat 0.8); ("caps_threshold", PyInt 1000)].

Definition explore_enabled (gm : GoalManager) : bool :=
  match dict_get (goals gm) "explore_and_map" with
  | Some g => enabled g
  | None => false
  end.

End goal_manager_spec.

Module actuator_spec.
Import input_emulator.

(** The number of rounds of a look. *)
Definition steps_of (dx dy : Z) : Z := Z.max 10 ((Z.abs dx + Z.abs dy) / 5).

(** The sum of the relative motions written on an axis. *)
Fixpoint net (axis : rel_code) (calls : list call) : Z :=
  match calls with
  | [] => 0
  | Rel code value :: rest =>
      (match axis, code with
       | REL_X, REL_X | REL_Y, REL_Y => value
       | _, _ => 0
       end) + net axis rest
  | Key _ :: rest => net axis rest
  end.

(** One round of the loop. *)
Definition round (step_dx step_dy : Z) : list call :=
  [Rel REL_X step_dx; Rel REL_Y step_dy; Key Syn].

Fixpoint rounds (n : nat) (step_dx step_dy : Z) : list call :=
  match n with
  | O => []
  | S n' => round step_dx step_dy ++ rounds n' step_dx step_dy
  end.

(** The outcome of the sleep of a round: what the division raises, or else
    what the sleep on the quotient does. *)
Definition sleep_outcome {D} (truediv : D -> Z -> result D) (sleep : D -> result unit)
    (duration : D) (steps : Z) : result unit :=
  match truediv duration steps with
  | Ok quotient => sleep quotient
  | Raise e => Raise e
  end.

(** The number of rounds the loop gets through: all of them when the sleep
    returns, one when it raises. *)
Definition rounds_run {D} (truediv : D -> Z -> result D) (sleep : D -> result unit)
    (duration : D) (steps : Z) : Z :=
  match sleep_outcome truediv sleep duration steps with
  | Ok _ => steps
  | Raise _ => 1
  end.

(** Durations that are floats: the quotient by the number of steps is the
    binary64 quotient, and the sleep refuses a negative time. *)
Definition seconds_truediv (duration : float) (steps : Z) : result float :=
  Ok (duration / float_of_int steps)%float.

Definition seconds_sleep (secs : float) : result unit :=
  if (secs <? 0)%float then Raise (ValueError "sleep length must be non-negative")
  else Ok tt.

(** A call that moves the pointer by at most [bound] on its axis. *)
Definition gentle (c : call) : Prop :=
  match c with
  | Rel _ value => -6 <= value <= 5
  | Key _ => True
  end.

Definition is_release (ev : event) : Prop :=
  match ev with
  | Write EV_KEY _ 0 => True
  | Syn => True
  | _ => False
  end.

End actuator_spec.

Module breaker_spec.
Import local_llm_module.

Definition backend : Type := string -> json -> result json.

(** A run of [get_plan] calls, each with the backend as it is at that time:
    the plans returned and the brain at the end. *)
Fixpoint session (json_loads : string -> result (list (string * json)))
    (self : LocalBrain) (calls : list (backend * string)) : list json * LocalBrain :=
  match calls with
  | [] => ([], self)
  | (post, prompt) :: rest =>
      let '(plan, self) := get_plan json_loads post self prompt in
      let '(plans, self) := session json_loads self rest in
      (plan :: plans, self)
  end.

(** The brains a program can hold: a new one, and what [get_plan] and
    [reset_failure_counter] make of one. *)
Inductive reachable (json_loads : string -> result (list (string * json)))
  : LocalBrain -> Prop :=
| reach_init server_url : reachable json_loads (__init__ server_url)
| reach_plan self post prompt :
    reachable json_loads self ->
    reachable json_loads (snd (get_plan json_loads post self prompt))
| reach_reset self :
    reachable json_loads self -> reachable json_loads (reset_failure_counter self).

(** The four keyword tests of [_extract_situation_context], on ASCII text. *)
Definition indicators (prompt : string) : bool * bool * bool * bool :=
  let p := lower prompt in
  (contains "threat" p || contains "enemy" p || contains "person" p,
   contains "loot" p || contains "container" p || contains "objects" p,
   contains "map" p || contains "location unknown" p,
   contains "clear" p && contains "path" p).

Definition tripped : LocalBrain := set_consecutive_failures (__init__ "http://deck:5001") 2.

End breaker_spec.

Module big_brain_spec.
Import llm_module.

(** A server that answers 200 with an empty list of results. *)
Definition empty_results : string -> json -> result json :=
  fun _ _ => Ok (JObj [("results", JArr [])]).

End big_brain_spec.

Module lightweight_session_spec.
Import local_llm_lightweight.

(** A prompt of ASCII text that none of the templates answers. *)
Definition plain (prompt : string) : bool :=
  let p := lower prompt in
  isascii prompt
  && negb (contains "enemy" p || contains "person" p)
  && negb (contains "loot" p || contains "container" p)
  && negb (contains "health" p && contains "low" p)
  && negb (contains "stuck" p).

(** A run of [get_plan] calls against one backend: the answers, the brain at
    the end, and the requests sent, oldest first. *)
Fixpoint session (json_loads : string -> result (list (string * json)))
    (post : string -> json -> result json)
    (self : LightweightBrain) (prompts : list string)
  : list (result json) * LightweightBrain * list (string * json) :=
  match prompts with
  | [] => ([], self, [])
  | prompt :: rest =>
      let '(answer, self, sent) := get_plan json_loads post self prompt in
      let '(answers, self, sent') := session json_loads post self rest in
      (answer :: answers, self, sent ++ sent')
  end.

Definition request (self : LightweightBrain) (prompt : string) : string * json :=
  (api_url_generate self, payload self prompt).

(** A model that answers in prose. *)
Definition chatty : string -> json -> result json :=
  fun _ _ => Ok (JObj [("response", JStr "I would walk forward."); ("done", JBool true)]).

Definition broken : string -> json -> result json :=
  fun _ _ => Raise RequestException.

End lightweight_session_spec.

Module enhanced_bot_spec.
Import main_bot_enhanced.
Import IntelligentFallout76AI.

(** The states of the bot: the one [__init__] builds, and what a goal switch
    from the dashboard or a decision cycle makes of one, whatever the text
    formatting, the decoder and the backend are at that time. *)
Inductive reachable : t -> Prop :=
| reach_init now : reachable (__init__ now)
| reach_switch self goal_id on :
    reachable self -> reachable (snd (set_goal_enabled self goal_id on))
| reach_decide py_format json_format py_eq json_loads post self game_state now :
    reachable self ->
    reachable (snd (make_intelligent_decision py_format json_format py_eq
                      json_loads post self game_state now)).

Definition decisions_counted (self : t) : Z :=
  reflex_decisions (stats self) + strategic_decisions (stats self)
  + local_decisions (stats self).

(** The three tier counters, and what counting one decision of a tier makes
    of them: the counter of that tier goes up by one, the other two stay. *)
Definition counters (self : t) : Z * Z * Z :=
  (reflex_decisions (stats self), strategic_decisions (stats self),
   local_decisions (stats self)).

Definition counted (tier : string) (c : Z * Z * Z) : Z * Z * Z :=
  let '(reflexes, strategic, local) := c in
  if String.eqb tier "REFLEX" then (reflexes + 1, strategic, local)
  else if String.eqb tier "STRATEGIC" then (reflexes, strategic + 1, local)
  else if String.eqb tier "LOCAL" then (reflexes, strategic, local + 1)
  else c.

(** A scene as the vision module reports it: a list of objects, each a dict
    whose label, if it has one, is a string; and a health that is a number. *)
Definition labelled (obj : pyval) : Prop :=
  exists d, obj = PyDict d /\
            (dict_get d "label" = None \/ exists label, dict_get d "label" = Some (PyStr label)).

Definition tidy (game_state : gmap string pyval) : Prop :=
  (exists objs, detected_objects_of game_state = PyList objs /\ Forall labelled objs) /\
  as_num (health_of game_state) <> None.

Definition tagged (v : json) (tier : string) : Prop :=
  exists d, v = JObj d /\ dict_get d "tier" = Some (JStr tier).

Definition quiet_scene : gmap string pyval :=
  <["health" := PyInt 100]> (<["detected_objects" := PyList []]> ∅).

(** A scene whose list of objects is not a list. *)
Definition garbled_scene : gmap string pyval := <["detected_objects" := PyInt 5]> ∅.

(** A runtime to run the cycle on: numbers print as a question mark, no two
    actions compare equal, the backend is down. *)
Definition blind_format : pyval -> string := fun _ => "?".
Definition action_text : json -> string :=
  fun v => match v with JStr s => s | _ => "?" end.
Definition never_equal : json -> json -> bool := fun _ _ => false.

Definition dead_cycle (self : t) (game_state : gmap string pyval) (now : float) : result json * t :=
  make_intelligent_decision blind_format action_text never_equal Json.loads
    local_llm_module_spec.dead_backend self game_state now.

End enhanced_bot_spec.

Module dispatch_spec.
Import main_bot_enhanced.IntelligentFallout76AI.

(** A plan the enhanced loop can carry out: a key that [press] knows, the
    look of 45 units, or a pause. *)
Definition runs (d : list (string * json)) : Prop :=
  match execute_action d with
  | Press a _ => dict_mem input_emulator.ACTION_TO_KEY a = true
  | Look dx dy _ => dx = JInt 45 /\ dy = JInt 0
  | Sleep _ => True
  | Unknown _ => False
  end.

(** What the loops do with a plan [v] of the brain: the enhanced loop runs
    it unless its action is TAB; main_bot also drops the look. *)
Definition dispatched (v : json) : Prop :=
  exists d, v = JObj d /\
    (dict_get d "action" = Some (JStr "TAB") /\
       execute_action d = Unknown (JStr "TAB") /\
       main_bot.execute_action d = Ok [main_bot.LogUnknown "TAB"]
     \/
     dict_get d "action" = Some (JStr "SMOOTH_LOOK") /\
       runs d /\
       main_bot.execute_action d = Ok [main_bot.LogUnknown "SMOOTH_LOOK"]
     \/
     runs d /\
       ((exists a duration, main_bot.execute_action d = Ok [main_bot.Press a duration]) \/
        (exists duration, main_bot.execute_action d = Ok [main_bot.Sleep duration]))).

End dispatch_spec.

Module companion_spec.
Import comprehensive_fo76_ai.

(** The four flags that add to the complexity. *)
Definition complexity_flags : list string :=
  ["multiple_threats"; "unknown_location"; "inventory_full"; "low_resources"].

(** [later] sets every complexity flag that [earlier] sets. *)
Definition no_flag_cleared (earlier later : gmap string pyval) : Prop :=
  forall key, In key complexity_flags -> flag earlier key = true -> flag later key = true.

Definition calm : gmap string pyval := <["unknown_location" := PyBool true]> ∅.
Definition tense : gmap string pyval :=
  <["multiple_threats" := PyBool true]> (<["unknown_location" := PyInt 1]> ∅).

(** The companion right after start-up, with no server in reach. *)
Definition fresh_companion : ComprehensiveAI :=
  {| goal_manager := GoalManager__init__;
     decision_maker :=
       set_remote_call_cooldown (set_complex_decision_threshold blank 0.7) 60;
     current_context := ∅;
     total_decisions := 0 |}.

(** A local model that is not running. *)
Definition no_model : string -> string -> json -> result json :=
  fun _ _ _ => Raise RequestException.

Definition plain_text : pyval -> string :=
  fun v => match v with PyStr s => s | _ => "?" end.

End companion_spec.

(** * Properties *)

(** ** Dictionaries *)

Module Py_facts.

Section Dict.
Context {V : Type}.
Implicit Types (d : list (string * V)) (k : string) (v : V).

Lemma dict_get_set_same d k v : dict_get (dict_set d k v) k = Some v.
Proof.
  induction d as [|[k' v'] t IH]; simpl.
  - now rewrite String.eqb_refl.
  - destruct (String.eqb k k') eqn:E; simpl; rewrite E; [reflexivity | exact IH].
Qed.

Lemma dict_get_set_other d k k' v :
  k <> k' -> dict_get (dict_set d k v) k' = dict_get d k'.
Proof.
  intros Hne. induction d as [|[k0 v0] t IH]; simpl.
  - destruct (String.eqb k' k) eqn:E; [|reflexivity].
    apply String.eqb_eq in E. congruence.
  - destruct (String.eqb k k0) eqn:E; simpl.
    + apply String.eqb_eq in E. subst k0.
      destruct (String.eqb k' k) eqn:E'; [|reflexivity].
      apply String.eqb_eq in E'. congruence.
    + now rewrite IH.
Qed.

Lemma dict_mem_set_same d k v : dict_mem (dict_set d k v) k = true.
Proof. unfold dict_mem. now rewrite dict_get_set_same. Qed.

Lemma dict_mem_set_keeps d k k' v :
  dict_mem d k' = true -> dict_mem (dict_set d k v) k' = true.
Proof.
  intros H. destruct (String.eqb k k') eqn:E.
  - apply String.eqb_eq in E. subst. apply dict_mem_set_same.
  - apply String.eqb_neq in E. unfold dict_mem in *.
    now rewrite dict_get_set_other.
Qed.

Lemma dict_set_present d k v :
  dict_get d k = Some v -> dict_set d k v = d.
Proof.
  induction d as [|[k' v'] t IH]; simpl; [discriminate|].
  destruct (String.eqb k k') eqn:E.
  - intros [= ->]. reflexivity.
  - intros H. now rewrite IH.
Qed.

End Dict.

End Py_facts.

(** ** The reference codec on sample texts *)

Module Json_facts.
Import Json.

Example loads_array :
  loads_value " [1, 2.50, -3e2, 1E-5, true, null, 0.1, [], {}] "
  = Some (JArr [JInt 1; JFloat (Dec 25 (-1)); JFloat (Dec (-3) 2); JFloat (Dec 1 (-5));
                JBool true; JNull; JFloat (Dec 1 (-1)); JArr []; JObj []]).
Proof. vm_compute. reflexivity. Qed.

Example loads_rejects :
  map loads_value ["01"; "1."; "[1,]"; "{"; "[1] x"; "tru"; ""]
  = [None; None; None; None; None; None; None].
Proof. vm_compute. reflexivity. Qed.

Example dumps_numbers :
  dumps (JArr [JFloat (Dec 1 16); JFloat (Dec 1 15); JFloat (Dec 1 (-4));
               JFloat (Dec 15 (-6)); JFloat (Dec 1 0); JFloat (Dec 25 (-1));
               JInt (-12); JBool false; JNull])
  = Some "[1e+16, 1000000000000000.0, 0.0001, 1.5e-05, 1.0, 2.5, -12, false, null]".
Proof. vm_compute. reflexivity. Qed.

(** A later duplicate of a key replaces the value and keeps the place of the
    first. *)
Example loads_duplicate_key :
  loads ("{" +:+ dq +:+ "a" +:+ dq +:+ ": 1, " +:+ dq +:+ "b" +:+ dq +:+ ": 2, "
         +:+ dq +:+ "a" +:+ dq +:+ ": 3}")
  = Ok [("a", JInt 3); ("b", JInt 2)].
Proof. vm_compute. reflexivity. Qed.

End Json_facts.

(** ** The codec reads back what it writes *)

Module codec_facts.
Import Json codec_spec.

Lemma append_cons c (a b : string) : String c a +:+ b = String c (a +:+ b).
Proof. reflexivity. Qed.

Lemma append_nil_l (b : string) : "" +:+ b = b.
Proof. reflexivity. Qed.

Lemma append_assoc (a b c : string) : (a +:+ b) +:+ c = a +:+ (b +:+ c).
Proof.
  induction a as [|x a IH]; [reflexivity|]. rewrite !append_cons. now rewrite IH.
Qed.

Lemma append_nil_r (a : string) : a +:+ "" = a.
Proof. induction a as [|x a IH]; [reflexivity|]. rewrite append_cons. now rewrite IH. Qed.

Lemma length_append (a b : string) :
  String.length (a +:+ b) = (String.length a + String.length b)%nat.
Proof.
  induction a as [|x a IH]; [reflexivity|]. rewrite append_cons. cbn. now rewrite IH.
Qed.

(** *** Strings *)

Lemma escape_char_scan c :
  (nat_of_ascii c <? 128)%nat = true ->
  exists a, escape_char c = Some a /\
            forall t, scan_string (a +:+ t) = cons_str (String c "") (scan_string t).
Proof.
  destruct c as [b0 b1 b2 b3 b4 b5 b6 b7].
  destruct b7;
    [intros H; destruct b0, b1, b2, b3, b4, b5, b6; vm_compute in H; discriminate H|].
  intros _.
  destruct b0, b1, b2, b3, b4, b5, b6;
    (eexists; split; [reflexivity|]; intros t; cbv [append]; cbn;
     destruct (scan_string t) as [[body rest]|]; reflexivity).
Qed.

Lemma scan_string_escape s :
  isascii s = true ->
  exists body, escape s = Some body /\
               forall rest, scan_string (body +:+ String c_dq rest) = Some (s, rest).
Proof.
  induction s as [|c s IH]; intros H.
  - exists "". split; [reflexivity|]. reflexivity.
  - cbn in H. apply andb_prop in H as [Hc Hs].
    destruct (IH Hs) as (body & Hb & Hscan).
    destruct (escape_char_scan c Hc) as (a & Ha & Hchar).
    exists (a +:+ body). split.
    + cbn. rewrite Ha, Hb. reflexivity.
    + intros rest. rewrite append_assoc, Hchar, Hscan. reflexivity.
Qed.

Lemma quote_scan s :
  isascii s = true ->
  exists body, quote s = Some (String c_dq (body +:+ String c_dq "")) /\
               forall rest, scan_string (body +:+ String c_dq rest) = Some (s, rest).
Proof.
  intros H. destruct (scan_string_escape s H) as (body & Hb & Hscan).
  exists body. split; [|exact Hscan]. unfold quote. now rewrite Hb.
Qed.

(** *** Digits *)

Lemma scan_digits_app ds : forall acc n rest,
  all_digits ds = true -> no_digit_ahead rest ->
  scan_digits acc n (ds +:+ rest)
  = (n + Z.of_nat (String.length ds), sval acc ds, rest).
Proof.
  induction ds as [|c ds IH]; intros acc n rest Hd Hr.
  - rewrite append_nil_l. cbn [String.length sval]. rewrite Z.add_0_r.
    destruct rest as [|c t]; [reflexivity|]. cbn in Hr. cbn. now rewrite Hr.
  - cbn in Hd. apply andb_prop in Hd as [Hc Hd]. rewrite append_cons.
    cbn [scan_digits]. rewrite Hc, IH by assumption.
    cbn [String.length sval]. f_equal. f_equal. lia.
Qed.

Lemma sval_acc ds : forall acc,
  sval acc ds = acc * 10 ^ Z.of_nat (String.length ds) + sval 0 ds.
Proof.
  induction ds as [|c ds IH]; intros acc.
  - cbn. lia.
  - cbn [sval String.length]. rewrite IH, (IH (0 * 10 + digit_val c)).
    rewrite Nat2Z.inj_succ, Z.pow_succ_r by lia. lia.
Qed.

Lemma sval_app a b acc :
  sval acc (a +:+ b) = sval (sval acc a) b.
Proof.
  revert acc. induction a as [|c a IH]; intros acc; [reflexivity|].
  rewrite append_cons. cbn [sval]. apply IH.
Qed.

Lemma all_digits_app a b : all_digits (a +:+ b) = all_digits a && all_digits b.
Proof.
  induction a as [|c a IH]; [reflexivity|]. rewrite append_cons. cbn. rewrite IH.
  now rewrite andb_assoc.
Qed.

Lemma all_digits_zeros n : all_digits (zeros n) = true.
Proof. induction n; [reflexivity|exact IHn]. Qed.

Lemma sval_zeros n acc : sval acc (zeros n) = acc * 10 ^ Z.of_nat n.
Proof.
  revert acc. induction n as [|n IH]; intros acc.
  - cbn. lia.
  - cbn [zeros sval]. rewrite IH. change (digit_val "0") with 0.
    rewrite Nat2Z.inj_succ, Z.pow_succ_r by lia. lia.
Qed.

Lemma length_zeros n : String.length (zeros n) = n.
Proof. induction n; [reflexivity|]. cbn. now rewrite IHn. Qed.

(** The digits of a decimal numeral of the library. *)
Lemma uint_digits d : all_digits (NilEmpty.string_of_uint d) = true.
Proof. induction d; cbn; auto. Qed.

Lemma sval_of_uint_acc d : forall acc,
  sval (Z.pos acc) (NilEmpty.string_of_uint d) = Z.pos (Pos.of_uint_acc d acc).
Proof.
  induction d; intros acc; cbn [NilEmpty.string_of_uint sval Pos.of_uint_acc];
    [reflexivity|..];
    match goal with
    | |- sval (_ * 10 + digit_val ?c) _ = _ =>
        let v := eval vm_compute in (digit_val c) in change (digit_val c) with v
    end;
    rewrite <- IHd; f_equal; lia.
Qed.

Lemma sval_of_uint d : sval 0 (NilEmpty.string_of_uint d) = Z.of_N (Pos.of_uint d).
Proof.
  induction d; cbn [NilEmpty.string_of_uint sval Pos.of_uint]; [reflexivity|exact IHd|..];
    match goal with
    | |- sval (0 * 10 + digit_val ?c) _ = _ =>
        let v := eval vm_compute in (digit_val c) in change (0 * 10 + digit_val c) with v
    end;
    apply (sval_of_uint_acc d).
Qed.

Lemma pos_to_uint_leading p : leading (NilEmpty.string_of_uint (Pos.to_uint p)).
Proof.
  pose proof (DecimalPos.Unsigned.to_of (Pos.to_uint p)) as H.
  rewrite DecimalPos.Unsigned.of_to in H. cbn [N.to_uint] in H.
  pose proof (Unsigned.to_uint_nonnil p) as Hn.
  pose proof (Unsigned.to_uint_nonzero p) as Hz.
  destruct (Pos.to_uint p) as [|d|d|d|d|d|d|d|d|d|d]; try (cbn; split; reflexivity).
  - congruence.
  - exfalso. unfold Decimal.unorm in H. cbn [Decimal.nzhead] in H.
    pose proof (nzhead_nonzero d) as Hnz.
    destruct (Decimal.nzhead d) eqn:E; try discriminate H.
    + injection H as H. subst d. now apply Hz.
    + now apply (Hnz u).
Qed.

Lemma Z_to_string_pos p :
  Z_to_string (Z.pos p) = NilEmpty.string_of_uint (Pos.to_uint p).
Proof.
  unfold Z_to_string. cbn [Z.to_int NilZero.string_of_int NilZero.string_of_uint].
  pose proof (Unsigned.to_uint_nonnil p). now destruct (Pos.to_uint p).
Qed.

Lemma digits_of_pos p :
  let digits := Z_to_string (Z.pos p) in
  all_digits digits = true /\ sval 0 digits = Z.pos p /\ leading digits.
Proof.
  cbv zeta. rewrite Z_to_string_pos. split; [apply uint_digits|]. split.
  - rewrite sval_of_uint, DecimalPos.Unsigned.of_to. reflexivity.
  - apply pos_to_uint_leading.
Qed.

(** *** Numbers *)

Lemma scan_number_phases s :
  scan_number s
  = let '(neg, s1) := sign_part s in
    match int_part s1 with
    | None => None
    | Some (iv, s2) =>
        let '(frac, s3) := frac_part s2 in
        let '(ex, s4) := exp_part s3 in
        Some (number_of neg iv frac ex, s4)
    end.
Proof.
  unfold scan_number, sign_part, int_part, frac_part, exp_part, number_of.
  repeat first
    [ reflexivity
    | match goal with
      | |- context [match ?x with _ => _ end] => destruct x
      end ].
Qed.

Lemma ends_number_no_digit tail : ends_number tail -> no_digit_ahead tail.
Proof. destruct tail; [auto|]. now intros (H & _). Qed.

Lemma int_part_app ds tail :
  int_form ds -> no_digit_ahead tail ->
  int_part (ds +:+ tail) = Some (sval 0 ds, tail).
Proof.
  intros [-> | [Hl Hd]] Ht; [reflexivity|].
  destruct ds as [|c ds]; [destruct Hl|]. destruct Hl as [Hc Hz].
  rewrite append_cons. unfold int_part. rewrite Hz, Hc.
  rewrite <- append_cons, scan_digits_app by assumption. reflexivity.
Qed.

Lemma frac_part_app fs tail :
  all_digits fs = true -> fs <> "" -> no_digit_ahead tail ->
  frac_part (String "." (fs +:+ tail))
  = (Some (Z.of_nat (String.length fs), sval 0 fs), tail).
Proof.
  intros Hd Hne Ht. unfold frac_part. cbn [Ascii.eqb Bool.eqb].
  rewrite scan_digits_app by assumption.
  destruct fs as [|c fs]; [congruence|]. cbn [String.length].
  destruct (0 <? 0 + Z.of_nat (S (String.length fs))) eqn:E; [reflexivity|].
  apply Z.ltb_ge in E. lia.
Qed.

Lemma frac_part_none tail :
  match tail with String c _ => Ascii.eqb c "." = false | EmptyString => True end ->
  frac_part tail = (None, tail).
Proof. destruct tail as [|c t]; [reflexivity|]. intros H. unfold frac_part. now rewrite H. Qed.

Lemma exp_part_none tail :
  match tail with
  | String c _ => Ascii.eqb c "e" = false /\ Ascii.eqb c "E" = false
  | EmptyString => True
  end ->
  exp_part tail = (None, tail).
Proof.
  destruct tail as [|c t]; [reflexivity|]. intros [H1 H2]. unfold exp_part.
  now rewrite H1, H2.
Qed.

Lemma exp_part_app (neg : bool) xs tail :
  all_digits xs = true -> xs <> "" -> no_digit_ahead tail ->
  exp_part (String "e" (String (if neg then "-" else "+")%char (xs +:+ tail)))
  = (Some ((if neg then -1 else 1) * sval 0 xs), tail).
Proof.
  intros Hd Hne Ht. unfold exp_part. cbn [Ascii.eqb Bool.eqb orb].
  destruct xs as [|c xs]; [congruence|].
  destruct neg; cbn [Ascii.eqb Bool.eqb];
    rewrite scan_digits_app by assumption; cbn [String.length];
    (destruct (0 <? 0 + Z.of_nat (S (String.length xs))) eqn:E;
     [reflexivity|apply Z.ltb_ge in E; lia]).
Qed.

(** Trailing zeros are stripped. *)
Lemma strip_zeros_pow m (Hm : m mod 10 <> 0) : forall z fuel e,
  (z < fuel)%nat ->
  strip_zeros fuel (m * 10 ^ Z.of_nat z) e = Dec m (e + Z.of_nat z).
Proof.
  assert (Hm0 : m <> 0) by (intros ->; now apply Hm).
  induction z as [|z IH]; intros fuel e Hf; (destruct fuel as [|fuel]; [lia|]).
  - cbn [strip_zeros]. rewrite Z.mul_1_r, Z.add_0_r.
    destruct (m =? 0) eqn:E0; [apply Z.eqb_eq in E0; congruence|].
    destruct (m mod 10 =? 0) eqn:E1; [apply Z.eqb_eq in E1; congruence|]. reflexivity.
  - cbn [strip_zeros]. rewrite Nat2Z.inj_succ, Z.pow_succ_r by lia.
    assert (Hnz : m * (10 * 10 ^ Z.of_nat z) <> 0) by nia.
    destruct (_ =? 0) eqn:E0; [apply Z.eqb_eq in E0; congruence|].
    replace (m * (10 * 10 ^ Z.of_nat z)) with (m * 10 ^ Z.of_nat z * 10) by lia.
    rewrite Z.mod_mul by lia. cbn [Z.eqb]. rewrite Z.div_mul by lia.
    rewrite IH by lia. f_equal. lia.
Qed.

Lemma normalize_pow m z e :
  m mod 10 <> 0 -> 0 <= z -> normalize (m * 10 ^ z) (e - z) = Dec m e.
Proof.
  intros Hm Hz. unfold normalize.
  assert (Hm0 : m <> 0) by (intros ->; now apply Hm).
  rewrite <- (Z2Nat.id z) at 2 3 by lia.
  rewrite strip_zeros_pow; [f_equal; lia|exact Hm|].
  assert (z <= Z.log2 (Z.abs (m * 10 ^ z))); [|lia].
  rewrite Z.abs_mul, (Z.abs_eq (10 ^ z)) by lia.
  transitivity (Z.log2 (2 ^ z)); [rewrite Z.log2_pow2 by lia; lia|].
  apply Z.log2_le_mono.
  assert (2 ^ z <= 10 ^ z) by (apply Z.pow_le_mono_l; lia).
  assert (0 < 10 ^ z) by lia. nia.
Qed.

(** Splitting a string at a position. *)
Lemma substring_split s : forall n,
  (n <= String.length s)%nat ->
  s = String.substring 0 n s +:+ String.substring n (String.length s - n) s.
Proof.
  induction s as [|c s IH]; intros n Hn.
  - cbn in Hn. assert (n = 0%nat) by lia. subst. reflexivity.
  - destruct n as [|n].
    + cbn [String.substring String.length Nat.sub]. rewrite append_nil_l.
      f_equal. clear. induction s as [|c' s IH]; [reflexivity|]. cbn. now rewrite <- IH.
    + cbn [String.substring String.length Nat.sub]. rewrite append_cons. f_equal.
      apply IH. cbn in Hn. lia.
Qed.

Lemma length_substring_0 s : forall n,
  (n <= String.length s)%nat -> String.length (String.substring 0 n s) = n.
Proof.
  induction s as [|c s IH]; intros n Hn.
  - cbn in Hn. assert (n = 0%nat) by lia. subst. reflexivity.
  - destruct n as [|n]; [reflexivity|]. cbn. rewrite IH; [reflexivity|cbn in Hn; lia].
Qed.

Lemma digit_is_not c x : is_digit c = true -> is_digit x = false -> Ascii.eqb c x = false.
Proof.
  intros Hc Hx. destruct (Ascii.eqb_spec c x) as [->|]; [congruence|reflexivity].
Qed.

Lemma sign_part_digit c t : is_digit c = true -> sign_part (String c t) = (false, String c t).
Proof. intros H. unfold sign_part. now rewrite (digit_is_not c "-" H). Qed.

Lemma leading_digit s : leading s -> exists c t, s = String c t /\ is_digit c = true.
Proof. destruct s as [|c t]; [intros []|]. intros [H _]. eauto. Qed.

Lemma frac_none_of_ends tail : ends_number tail -> frac_part tail = (None, tail).
Proof. intros H. apply frac_part_none. destruct tail; [exact I|]. apply H. Qed.

Lemma exp_none_of_ends tail : ends_number tail -> exp_part tail = (None, tail).
Proof. intros H. apply exp_part_none. destruct tail; [exact I|]. split; apply H. Qed.

(** An integer reads back. *)
Lemma scan_number_int n tail :
  ends_number tail -> scan_number (Z_to_string n +:+ tail) = Some (JInt n, tail).
Proof.
  intros Ht. pose proof (ends_number_no_digit tail Ht) as Hnd.
  rewrite scan_number_phases. destruct n as [|p|p].
  - change (Z_to_string 0) with "0". rewrite append_cons, sign_part_digit by reflexivity.
    rewrite <- append_cons, (int_part_app "0") by (try left; auto).
    rewrite frac_none_of_ends, exp_none_of_ends by assumption. reflexivity.
  - destruct (digits_of_pos p) as (Hd & Hv & Hl). cbv zeta in *.
    destruct (leading_digit _ Hl) as (c & t & E & Hc).
    rewrite E, append_cons, sign_part_digit by assumption.
    rewrite <- append_cons, <- E, int_part_app by (try right; auto).
    rewrite frac_none_of_ends, exp_none_of_ends by assumption.
    rewrite Hv. reflexivity.
  - destruct (digits_of_pos p) as (Hd & Hv & Hl). cbv zeta in *.
    assert (E : Z_to_string (Z.neg p) = String "-" (Z_to_string (Z.pos p))).
    { rewrite Z_to_string_pos. unfold Z_to_string.
      cbn [Z.to_int NilZero.string_of_int NilZero.string_of_uint].
      pose proof (Unsigned.to_uint_nonnil p). now destruct (Pos.to_uint p). }
    rewrite E, append_cons. cbn [sign_part Ascii.eqb Bool.eqb].
    rewrite int_part_app by (try right; auto).
    rewrite frac_none_of_ends, exp_none_of_ends by assumption.
    rewrite Hv. reflexivity.
Qed.

Lemma dumps_float_body d :
  dumps_float d
  = if dmant d =? 0 then "0.0"
    else (if dmant d <? 0 then "-" else "")
         +:+ float_body (Z_to_string (Z.abs (dmant d))) (dexp d).
Proof. reflexivity. Qed.

Lemma number_of_float neg iv fn fv ex a e :
  a mod 10 <> 0 ->
  (exists z, 0 <= z /\ iv * 10 ^ fn + fv = a * 10 ^ z /\
             match ex with Some x => x | None => 0 end - fn = e - z) ->
  number_of neg iv (Some (fn, fv)) ex = JFloat (Dec ((if neg then -1 else 1) * a) e).
Proof.
  intros Ha (z & Hz & Hv & He). unfold number_of.
  assert (E : JFloat (normalize ((if neg then -1 else 1) * (iv * 10 ^ fn + fv))
                        (match ex with Some x => x | None => 0 end - fn))
              = JFloat (Dec ((if neg then -1 else 1) * a) e)).
  { rewrite Hv, He, Z.mul_assoc. rewrite normalize_pow; [reflexivity| |exact Hz].
    destruct neg; [|now rewrite Z.mul_1_l].
    intros H. apply Ha. replace a with (- (-1 * a)) by lia.
    rewrite Z.mod_opp_l_z by lia. reflexivity. }
  destruct ex; exact E.
Qed.

Lemma number_of_exp neg a e :
  a mod 10 <> 0 ->
  number_of neg a None (Some e) = JFloat (Dec ((if neg then -1 else 1) * a) e).
Proof.
  intros Ha. unfold number_of. f_equal.
  replace ((if neg then -1 else 1) * (a * 10 ^ 0 + 0))
    with ((if neg then -1 else 1) * a * 10 ^ 0) by lia.
  rewrite normalize_pow; [reflexivity| |lia].
  destruct neg; [|now rewrite Z.mul_1_l].
  intros H. apply Ha. replace a with (- (-1 * a)) by lia.
  rewrite Z.mod_opp_l_z by lia. reflexivity.
Qed.

(** The digits of the exponent. *)
Lemma exponent_digits x :
  x <> 0 ->
  let xs := Z_to_string (Z.abs x) in
  let xs := if Z.abs x <? 10 then String "0" xs else xs in
  all_digits xs = true /\ xs <> "" /\ sval 0 xs = Z.abs x.
Proof.
  intros Hx. destruct (Z.abs x) as [|r|r] eqn:E; [lia| |lia].
  destruct (digits_of_pos r) as (Hd & Hv & Hl). cbv zeta in *.
  destruct (leading_digit _ Hl) as (c & t & Es & Hc).
  destruct (Z.pos r <? 10).
  - split; [exact Hd|]. split; [discriminate|]. exact Hv.
  - split; [exact Hd|]. split; [rewrite Es; discriminate|]. exact Hv.
Qed.

Lemma leading_prefix digits n :
  leading digits -> leading (String.substring 0 (S n) digits).
Proof. destruct digits as [|c t]; [intros []|]. intros H. exact H. Qed.

Lemma leading_app a b : leading a -> leading (a +:+ b).
Proof. destruct a as [|c t]; [intros []|]. intros H. exact H. Qed.

Lemma float_body_reads neg q e tail :
  Z.pos q mod 10 <> 0 -> ends_number tail ->
  reads_as neg (Z.pos q) e (float_body (Z_to_string (Z.pos q)) e +:+ tail) tail /\
  exists c t, float_body (Z_to_string (Z.pos q)) e = String c t /\ is_digit c = true.
Proof.
  intros Ha Ht. pose proof (ends_number_no_digit tail Ht) as Hnd.
  destruct (digits_of_pos q) as (Hd & Hv & Hl). cbv zeta in *.
  set (digits := Z_to_string (Z.pos q)) in *.
  destruct (leading_digit _ Hl) as (c0 & t0 & Edig & Hc0).
  unfold float_body.
  set (k := Z.of_nat (String.length digits)).
  assert (Hk : 1 <= k) by (subst k; rewrite Edig; cbn [String.length]; lia).
  set (p := k + e).
  destruct ((-4 <? p) && (p <=? 16)) eqn:Hrange.
  - destruct (p <=? 0) eqn:Hp0; [|destruct (p <? k) eqn:Hpk].
    + (* 0.000ddd *)
      apply Z.leb_le in Hp0. split; [|eexists _, _; split; [reflexivity|reflexivity]].
      change (String.append "0." ?x) with (String "0" (String "." x)).
      rewrite !append_cons.
      exists 0, (String "." ((zeros (Z.to_nat (- p)) +:+ digits) +:+ tail)),
        (Some (Z.of_nat (String.length (zeros (Z.to_nat (- p)) +:+ digits)),
               sval 0 (zeros (Z.to_nat (- p)) +:+ digits))), tail, None.
      split; [reflexivity|]. split.
      { apply frac_part_app; [|rewrite Edig; destruct (zeros _); discriminate|exact Hnd].
        now rewrite all_digits_app, all_digits_zeros, Hd. }
      split; [now apply exp_none_of_ends|].
      apply number_of_float; [exact Ha|].
      exists 0. split; [lia|]. split.
      { rewrite sval_app, sval_zeros, !Z.mul_0_l, Hv. lia. }
      rewrite length_append, length_zeros. fold k. subst p. lia.
    + (* dd.ddd *)
      apply Z.leb_gt in Hp0. apply Z.ltb_lt in Hpk.
      assert (Hn : (Z.to_nat p <= String.length digits)%nat) by (subst k; lia).
      pose proof (substring_split digits _ Hn) as Hsplit.
      pose proof (length_substring_0 digits _ Hn) as Hlen.
      replace (Z.to_nat (k - p)) with (String.length digits - Z.to_nat p)%nat
        by (subst k; lia).
      set (pre := String.substring 0 (Z.to_nat p) digits) in *.
      set (suf := String.substring (Z.to_nat p) (String.length digits - Z.to_nat p) digits) in *.
      assert (Hds : all_digits pre = true /\ all_digits suf = true).
      { rewrite Hsplit, all_digits_app in Hd. now apply andb_prop in Hd. }
      assert (Hlsuf : Z.of_nat (String.length suf) = k - p).
      { pose proof (f_equal String.length Hsplit) as HL.
        rewrite length_append, Hlen in HL. subst k. lia. }
      assert (Hlpre : leading pre).
      { subst pre. destruct (Z.to_nat p) as [|n] eqn:En; [lia|]. now apply leading_prefix. }
      split.
      2:{ destruct (leading_digit _ Hlpre) as (c & t & E & Hc).
          rewrite E. rewrite append_cons. eauto. }
      rewrite append_assoc.
      change (String.append "." ?x) with (String "." x). rewrite append_cons.
      exists (sval 0 pre), (String "." (suf +:+ tail)),
        (Some (Z.of_nat (String.length suf), sval 0 suf)), tail, None.
      split.
      { apply int_part_app; [right; tauto|reflexivity]. }
      split.
      { apply frac_part_app; [tauto| |exact Hnd].
        intros E. rewrite E in Hlsuf. cbn in Hlsuf. lia. }
      split; [now apply exp_none_of_ends|].
      assert (Hval : sval 0 pre * 10 ^ Z.of_nat (String.length suf) + sval 0 suf = Z.pos q).
      { rewrite <- Hv, Hsplit, sval_app. apply eq_sym, sval_acc. }
      apply number_of_float; [exact Ha|].
      exists 0. split; [lia|]. split; [lia|]. subst p. lia.
    + (* ddd00.0 *)
      apply Z.leb_gt in Hp0. apply Z.ltb_ge in Hpk.
      split; [|rewrite Edig, append_cons; eauto].
      replace ((digits +:+ zeros (Z.to_nat (p - k)) +:+ ".0") +:+ tail)
        with ((digits +:+ zeros (Z.to_nat (p - k))) +:+ String "." ("0" +:+ tail))
        by (rewrite !append_assoc; reflexivity).
      exists (sval 0 (digits +:+ zeros (Z.to_nat (p - k)))), (String "." ("0" +:+ tail)),
        (Some (Z.of_nat (String.length "0"), sval 0 "0")), tail, None.
      split.
      { apply int_part_app; [right|reflexivity]. split.
        - now apply leading_app.
        - now rewrite all_digits_app, Hd, all_digits_zeros. }
      split; [apply frac_part_app; [reflexivity|discriminate|exact Hnd]|].
      split; [now apply exp_none_of_ends|].
      rewrite sval_app, sval_zeros, Hv. cbn [String.length sval].
      apply number_of_float; [exact Ha|].
      exists (p - k + 1). split; [lia|]. split.
      { rewrite Z2Nat.id by lia. change (Z.of_nat 1) with 1.
        rewrite Z.pow_add_r by lia. change (digit_val "0") with 0. ring. }
      subst p. lia.
  - (* d.ddde+XX *)
    assert (Hx : p - 1 <> 0).
    { intros E.
      assert (Hr : (-4 <? p) && (p <=? 16) = true)
        by (apply andb_true_intro; split; [apply Z.ltb_lt|apply Z.leb_le]; lia).
      congruence. }
    destruct (exponent_digits (p - 1) Hx) as (Hxd & Hxne & Hxv). cbv zeta in *.
    set (xs := if Z.abs (p - 1) <? 10 then String "0" (Z_to_string (Z.abs (p - 1)))
               else Z_to_string (Z.abs (p - 1))) in *.
    assert (Hn : (1 <= String.length digits)%nat) by (subst k; lia).
    pose proof (substring_split digits _ Hn) as Hsplit.
    pose proof (length_substring_0 digits _ Hn) as Hlen.
    replace (Z.to_nat (k - 1)) with (String.length digits - 1)%nat by (subst k; lia).
    set (pre := String.substring 0 1 digits) in *.
    set (suf := String.substring 1 (String.length digits - 1) digits) in *.
    assert (Hds : all_digits pre = true /\ all_digits suf = true).
    { rewrite Hsplit, all_digits_app in Hd. now apply andb_prop in Hd. }
    assert (Hlsuf : Z.of_nat (String.length suf) = k - 1).
    { pose proof (f_equal String.length Hsplit) as HL.
      rewrite length_append, Hlen in HL. subst k. lia. }
    assert (Hlpre : leading pre) by (subst pre; now apply leading_prefix).
    split.
    2:{ destruct (leading_digit _ Hlpre) as (c & t & E & Hc).
        rewrite E. rewrite append_cons. eauto. }
    assert (Hexp :
              exp_part (String.append "e"
                          (String.append (if p - 1 <? 0 then "-" else "+") xs) +:+ tail)
              = (Some (p - 1), tail)).
    { change (String.append "e" ?x) with (String "e" x). rewrite append_cons.
      assert (E : forall neg : bool,
                (String.append (if neg then "-" else "+") xs) +:+ tail
                = String (if neg then "-" else "+")%char (xs +:+ tail))
        by (intros [|]; reflexivity).
      rewrite E, exp_part_app by assumption. rewrite Hxv. f_equal. f_equal.
      destruct (p - 1 <? 0) eqn:En; [apply Z.ltb_lt in En|apply Z.ltb_ge in En]; lia. }
    rewrite append_assoc.
    destruct (k =? 1) eqn:Ek.
    + apply Z.eqb_eq in Ek.
      assert (Esuf : suf = "").
      { destruct suf; [reflexivity|]. cbn in Hlsuf. lia. }
      assert (Epre : pre = digits).
      { transitivity (pre +:+ suf); [now rewrite Esuf, append_nil_r|now rewrite <- Hsplit]. }
      rewrite append_nil_l.
      exists (sval 0 pre), (String.append "e"
                             (String.append (if p - 1 <? 0 then "-" else "+") xs) +:+ tail),
        None, (String.append "e"
                 (String.append (if p - 1 <? 0 then "-" else "+") xs) +:+ tail),
        (Some (p - 1)).
      split.
      { apply int_part_app; [right; tauto|reflexivity]. }
      split; [apply frac_part_none; reflexivity|].
      split; [exact Hexp|].
      rewrite Epre, Hv. replace e with (p - 1) by (subst p; lia).
      now apply number_of_exp.
    + apply Z.eqb_neq in Ek.
      rewrite append_assoc.
      change (String.append "." ?x) with (String "." x). rewrite append_cons.
      exists (sval 0 pre),
        (String "." (suf +:+ String.append "e"
                        (String.append (if p - 1 <? 0 then "-" else "+") xs) +:+ tail)),
        (Some (Z.of_nat (String.length suf), sval 0 suf)),
        (String.append "e" (String.append (if p - 1 <? 0 then "-" else "+") xs) +:+ tail),
        (Some (p - 1)).
      split.
      { apply int_part_app; [right; tauto|reflexivity]. }
      split.
      { apply frac_part_app; [tauto| |reflexivity].
        intros E. rewrite E in Hlsuf. cbn in Hlsuf. lia. }
      split; [exact Hexp|].
      assert (Hval : sval 0 pre * 10 ^ Z.of_nat (String.length suf) + sval 0 suf = Z.pos q).
      { rewrite <- Hv, Hsplit, sval_app. apply eq_sym, sval_acc. }
      apply number_of_float; [exact Ha|].
      exists 0. split; [lia|]. split; [lia|]. subst p. lia.
Qed.

(** A float reads back. *)
Lemma scan_number_float d tail :
  canonical d -> ends_number tail ->
  scan_number (dumps_float d +:+ tail) = Some (JFloat d, tail).
Proof.
  intros Hc Ht. pose proof (ends_number_no_digit tail Ht) as Hnd.
  rewrite scan_number_phases, dumps_float_body. destruct d as [m e].
  unfold canonical in Hc. cbn [dmant dexp] in *.
  destruct m as [|q|q].
  - destruct Hc as [[_ ->]|Hc]; [|now contradiction Hc].
    cbn [Z.eqb].
    change (sign_part ("0.0" +:+ tail)) with (false, "0" +:+ String "." ("0" +:+ tail)).
    cbv beta iota zeta.
    rewrite (int_part_app "0") by (first [now left|reflexivity]).
    rewrite (frac_part_app "0") by (first [reflexivity|discriminate|assumption]).
    rewrite exp_none_of_ends by assumption. reflexivity.
  - destruct Hc as [[Hc _]|Hc]; [discriminate Hc|].
    cbn [Z.eqb Z.ltb Z.compare Z.abs]. rewrite append_nil_l.
    change (Z.abs (Z.pos q)) with (Z.pos q).
    destruct (float_body_reads false q e tail Hc Ht)
      as ((iv & s2 & frac & s3 & ex & Hi & Hf & He & Hn) & c & t & Eb & Hdig).
    rewrite Eb, append_cons, sign_part_digit, <- append_cons, <- Eb by assumption.
    rewrite Hi, Hf, He, Hn. reflexivity.
  - destruct Hc as [[Hc _]|Hc]; [discriminate Hc|].
    cbn [Z.eqb Z.ltb Z.compare Z.abs].
    assert (Hq : Z.pos q mod 10 <> 0).
    { intros H. apply Hc. change (Z.neg q) with (- Z.pos q).
      now rewrite Z.mod_opp_l_z by lia. }
    destruct (float_body_reads true q e tail Hq Ht)
      as ((iv & s2 & frac & s3 & ex & Hi & Hf & He & Hn) & _).
    change (Z.abs (Z.neg q)) with (Z.pos q).
    rewrite append_assoc. change ("-" +:+ ?x) with (String "-" x).
    cbn [sign_part Ascii.eqb Bool.eqb].
    rewrite Hi, Hf, He, Hn. reflexivity.
Qed.

(** *** Values *)

Lemma ends_value_number tail : ends_value tail -> ends_number tail.
Proof. intros (t & [-> | ->]); repeat split. Qed.

Lemma substring_all s : String.substring 0 (String.length s) s = s.
Proof. induction s as [|c s IH]; [reflexivity|]. cbn. now rewrite IH. Qed.

Lemma strip_prefix_app pre tail : strip_prefix pre (pre +:+ tail) = Some tail.
Proof.
  unfold strip_prefix.
  assert (Hp : String.prefix pre (pre +:+ tail) = true).
  { induction pre as [|c pre IH]; [rewrite append_nil_l; now destruct tail|].
    rewrite append_cons. cbn [String.prefix].
    destruct (ascii_dec c c); [exact IH|congruence]. }
  rewrite Hp. f_equal. rewrite length_append.
  replace (String.length pre + String.length tail - String.length pre)%nat
    with (String.length tail) by lia.
  induction pre as [|c pre IH]; [apply substring_all|].
  rewrite append_cons. cbn [String.length String.substring]. apply IH.
  clear -Hp. rewrite append_cons in Hp. cbn [String.prefix] in Hp.
  now destruct (ascii_dec c c).
Qed.

(** The first character of a numeral sends [scan_value] to [scan_number]. *)
Lemma scan_value_number fuel c t :
  is_digit c = true \/ c = "-"%char ->
  scan_value (S fuel) (String c t) = scan_number (String c t).
Proof.
  intros H. cbn [scan_value].
  assert (E : forall x, is_digit x = false -> x <> "-"%char -> Ascii.eqb c x = false).
  { intros x Hx Hm. destruct H as [H | ->]; [now apply digit_is_not|].
    destruct (Ascii.eqb_spec "-" x); [congruence|reflexivity]. }
  unfold c_dq.
  rewrite !E by (try reflexivity; discriminate). reflexivity.
Qed.

Lemma number_starts n :
  exists c t, Z_to_string n = String c t /\ (is_digit c = true \/ c = "-"%char).
Proof.
  destruct n as [|p|p].
  - exists "0"%char, "". split; [reflexivity|now left].
  - destruct (digits_of_pos p) as (_ & _ & Hl). cbv zeta in Hl.
    destruct (leading_digit _ Hl) as (c & t & E & Hc). eauto.
  - exists "-"%char, (Z_to_string (Z.pos p)). split; [|now right].
    rewrite Z_to_string_pos. unfold Z_to_string.
    cbn [Z.to_int NilZero.string_of_int NilZero.string_of_uint].
    pose proof (Unsigned.to_uint_nonnil p). now destruct (Pos.to_uint p).
Qed.

Lemma float_starts d :
  canonical d ->
  exists c t, dumps_float d = String c t /\ (is_digit c = true \/ c = "-"%char).
Proof.
  intros Hc. rewrite dumps_float_body. destruct d as [m e].
  unfold canonical in Hc. cbn [dmant dexp] in *.
  destruct m as [|q|q].
  - exists "0"%char, ".0". split; [reflexivity|now left].
  - destruct Hc as [[Hc _]|Hc]; [discriminate Hc|].
    cbn [Z.eqb Z.ltb Z.compare Z.abs]. rewrite append_nil_l.
    change (Z.abs (Z.pos q)) with (Z.pos q).
    destruct (float_body_reads false q e "" Hc I) as (_ & c & t & Eb & Hdig). eauto.
  - eexists "-"%char, _. split; [reflexivity|now right].
Qed.

Lemma digit_is_ws c : is_digit c = true -> is_ws c = false.
Proof.
  unfold is_digit, is_ws. intros H. apply andb_prop in H as [H1 H2].
  apply Nat.leb_le in H1, H2.
  repeat (apply orb_false_intro); apply Nat.eqb_neq; lia.
Qed.

(** A scalar value reads back, and its text starts with no white space. *)
Lemma scan_value_scalar v tail fuel :
  scalar v -> ends_value tail ->
  exists text,
    dumps v = Some text /\
    scan_value (S fuel) (text +:+ tail) = Some (v, tail) /\
    skip_ws (text +:+ tail) = text +:+ tail.
Proof.
  intros Hv Ht. pose proof (ends_value_number tail Ht) as Hn.
  destruct v as [|b|n|d|s|l|o]; try contradiction Hv.
  - exists "null". split; [reflexivity|]. split; [|reflexivity].
    change ("null" +:+ tail) with (String "n" ("ull" +:+ tail)).
    cbn [scan_value]. unfold c_dq. cbn [Ascii.eqb Bool.eqb].
    change (String "n" ("ull" +:+ tail)) with ("null" +:+ tail).
    now rewrite strip_prefix_app.
  - destruct b.
    + exists "true". split; [reflexivity|]. split; [|reflexivity].
      change ("true" +:+ tail) with (String "t" ("rue" +:+ tail)).
      cbn [scan_value]. unfold c_dq. cbn [Ascii.eqb Bool.eqb].
      change (String "t" ("rue" +:+ tail)) with ("true" +:+ tail).
      now rewrite strip_prefix_app.
    + exists "false". split; [reflexivity|]. split; [|reflexivity].
      change ("false" +:+ tail) with (String "f" ("alse" +:+ tail)).
      cbn [scan_value]. unfold c_dq. cbn [Ascii.eqb Bool.eqb].
      change (String "f" ("alse" +:+ tail)) with ("false" +:+ tail).
      now rewrite strip_prefix_app.
  - exists (Z_to_string n). split; [reflexivity|].
    destruct (number_starts n) as (c & t & E & Hc).
    split.
    + rewrite E, append_cons, scan_value_number, <- append_cons, <- E by assumption.
      now apply scan_number_int.
    + rewrite E, append_cons. cbn [skip_ws].
      destruct Hc as [Hc | ->]; [|reflexivity].
      rewrite (digit_is_ws c Hc). reflexivity.
  - exists (dumps_float d). split; [reflexivity|].
    destruct (float_starts d Hv) as (c & t & E & Hc).
    split.
    + rewrite E, append_cons, scan_value_number, <- append_cons, <- E by assumption.
      now apply scan_number_float.
    + rewrite E, append_cons. cbn [skip_ws].
      destruct Hc as [Hc | ->]; [|reflexivity].
      rewrite (digit_is_ws c Hc). reflexivity.
  - cbn in Hv. destruct (quote_scan s Hv) as (body & Hq & Hscan).
    exists (String c_dq (body +:+ String c_dq "")). split; [exact Hq|].
    split; [|reflexivity].
    rewrite append_cons, append_assoc.
    change (String c_dq "" +:+ tail) with (String c_dq tail).
    cbn [scan_value]. change (Ascii.eqb c_dq c_dq) with true. cbv iota.
    now rewrite Hscan.
Qed.

(** *** Objects *)

Lemma dumps_obj d :
  dumps (JObj d)
  = match obj_items d with
    | Some xs => Some (String.append "{" (String.append (join ", " xs) "}"))
    | None => None
    end.
Proof.
  cbn [dumps].
  match goal with
  | |- match ?f d with _ => _ end = _ => assert (E : f d = obj_items d)
  end.
  { induction d as [|[k x] t IH]; [reflexivity|]. cbn [obj_items]. rewrite <- IH.
    reflexivity. }
  now rewrite E.
Qed.

Lemma members_scan d :
  flat d -> d <> [] ->
  exists xs,
    obj_items d = Some xs /\
    (forall rest, exists t, join ", " xs +:+ rest = String c_dq t) /\
    (List.length d <= String.length (join ", " xs))%nat /\
    forall acc fuel tail,
      (List.length d < fuel)%nat ->
      scan_members fuel acc (join ", " xs +:+ String "}" tail)
      = Some (set_all acc d, tail).
Proof.
  induction d as [|[k v] d IH]; intros Hflat Hne; [congruence|].
  inversion_clear Hflat as [|? ? [Hk Hv] Hflat']. cbn [fst snd] in *.
  (* the text of the first member, whatever follows it *)
  assert (Hitem : exists body vtext,
            quote k = Some (String c_dq (body +:+ String c_dq "")) /\
            dumps v = Some vtext /\
            (forall rest, scan_string (body +:+ String c_dq rest) = Some (k, rest)) /\
            (forall fuel rest, ends_value rest ->
               scan_value (S fuel) (vtext +:+ rest) = Some (v, rest) /\
               skip_ws (vtext +:+ rest) = vtext +:+ rest)).
  { destruct (quote_scan k Hk) as (body & Hq & Hscan).
    destruct (scan_value_scalar v (String "}" "") O Hv) as (vtext & Hd & _);
      [exists ""; now right|].
    exists body, vtext. split; [exact Hq|]. split; [exact Hd|]. split; [exact Hscan|].
    intros fuel rest Hrest.
    destruct (scan_value_scalar v rest fuel Hv Hrest) as (vtext' & Hd' & H1 & H2).
    rewrite Hd in Hd'. injection Hd' as <-. auto. }
  destruct Hitem as (body & vtext & Hq & Hd & Hkey & Hval).
  assert (Hshape : forall rest,
            String.append (String c_dq (body +:+ String c_dq ""))
              (String.append ": " vtext) +:+ rest
            = String c_dq (body +:+ String c_dq (String ":" (String " " (vtext +:+ rest))))).
  { intros rest. rewrite !append_cons, !append_assoc. reflexivity. }
  assert (Hstep : forall acc fuel rest,
            ends_value rest ->
            scan_members (S (S fuel)) acc
              (String.append (String c_dq (body +:+ String c_dq ""))
                 (String.append ": " vtext) +:+ rest)
            = match rest with
              | String c2 r3 =>
                  if Ascii.eqb c2 "}" then Some (dict_set acc k v, r3)
                  else scan_members (S fuel) (dict_set acc k v) (skip_ws r3)
              | EmptyString => None
              end).
  { intros acc fuel rest Hrest. rewrite Hshape. cbn [scan_members].
    change (Ascii.eqb c_dq c_dq) with true. cbv iota. rewrite Hkey.
    change (skip_ws (String ":" ?x)) with (String ":" x). cbv iota.
    change (Ascii.eqb ":" ":") with true. cbv iota.
    change (skip_ws (String " " ?x)) with (skip_ws x).
    destruct (Hval fuel rest Hrest) as [H1 H2]. rewrite H2, H1.
    destruct Hrest as (t & [-> | ->]); reflexivity. }
  destruct d as [|kv d'].
  - exists [String.append (String c_dq (body +:+ String c_dq "")) (String.append ": " vtext)].
    split; [cbn [obj_items]; now rewrite Hq, Hd|]. split; [|split].
    + intros rest. cbn [join]. rewrite !append_cons. eauto.
    + cbn [join List.length]. rewrite append_cons. cbn [String.length]. lia.
    + intros acc fuel tail Hf. cbn [join].
      destruct fuel as [|[|fuel]]; [cbn in Hf; lia|cbn in Hf; lia|].
      rewrite Hstep by (exists tail; now right). reflexivity.
  - destruct (IH Hflat' ltac:(discriminate)) as (xs & Hxs & Hhead & Hlen & Hscan).
    exists (String.append (String c_dq (body +:+ String c_dq "")) (String.append ": " vtext)
            :: xs).
    split; [cbn [obj_items] in *; now rewrite Hq, Hd, Hxs|].
    assert (Hjoin : join ", "
                      (String.append (String c_dq (body +:+ String c_dq ""))
                         (String.append ": " vtext) :: xs)
                    = String.append (String c_dq (body +:+ String c_dq ""))
                        (String.append ": " vtext)
                      +:+ String "," (String " " (join ", " xs))).
    { destruct xs as [|x0 xs']; [|reflexivity].
      destruct (Hhead "") as (t & Ht). discriminate Ht. }
    rewrite Hjoin. split; [|split].
    + intros rest. rewrite !append_cons. eauto.
    + rewrite length_append, !append_cons. cbn [String.length List.length] in *. lia.
    + intros acc fuel tail Hf.
      destruct fuel as [|[|fuel]]; [cbn in Hf; lia|cbn in Hf; lia|].
      rewrite append_assoc, Hstep by (eexists; left; reflexivity).
      change (String "," ?x +:+ ?y) with (String "," (x +:+ y)). cbv iota.
      change (Ascii.eqb "," "}") with false. cbv iota.
      change (String " " ?x +:+ ?y) with (String " " (x +:+ y)).
      change (skip_ws (String " " ?x)) with (skip_ws x).
      destruct (Hhead (String "}" tail)) as (t & Ht). rewrite Ht.
      change (skip_ws (String c_dq t)) with (String c_dq t). rewrite <- Ht.
      rewrite Hscan by (cbn [List.length] in *; lia). reflexivity.
Qed.

Lemma dict_set_absent {V} (acc : list (string * V)) k v :
  dict_get acc k = None -> dict_set acc k v = acc ++ [(k, v)].
Proof.
  induction acc as [|[k' v'] acc IH]; [reflexivity|]. cbn.
  destruct (String.eqb k k'); [discriminate|]. intros H. now rewrite IH.
Qed.

Lemma dict_get_snoc_other {V} (acc : list (string * V)) k v k' :
  k' <> k -> dict_get (acc ++ [(k, v)]) k' = dict_get acc k'.
Proof.
  intros Hne. induction acc as [|[k0 v0] acc IH]; cbn.
  - apply String.eqb_neq in Hne. now rewrite Hne.
  - destruct (String.eqb k' k0); [reflexivity|exact IH].
Qed.

Lemma set_all_fresh d : forall acc,
  List.NoDup (map fst d) ->
  (forall k, In k (map fst d) -> dict_get acc k = None) ->
  set_all acc d = acc ++ d.
Proof.
  induction d as [|[k v] d IH]; intros acc Hnd Hfresh.
  - cbn. now rewrite app_nil_r.
  - cbn [map fst] in Hnd. inversion_clear Hnd as [|? ? Hk Hnd'].
    unfold set_all. cbn [fold_left fst snd]. fold (set_all (dict_set acc k v) d).
    rewrite dict_set_absent by (apply Hfresh; now left).
    rewrite IH; [now rewrite <- app_assoc|exact Hnd'|].
    intros k' Hin. rewrite dict_get_snoc_other; [apply Hfresh; now right|].
    intros ->. contradiction.
Qed.

(** The codec reads back what it writes of a flat plan. *)
Lemma loads_dumps d :
  flat d -> List.NoDup (map fst d) ->
  exists body,
    dumps (JObj d) = Some (String "{" (body +:+ "}")) /\
    loads (String "{" (body +:+ "}")) = Ok d.
Proof.
  intros Hflat Hnd. rewrite dumps_obj. destruct d as [|kv d].
  - exists "". split; reflexivity.
  - destruct (members_scan (kv :: d) Hflat ltac:(discriminate))
      as (xs & -> & Hhead & Hlen & Hscan).
    exists (join ", " xs). split; [reflexivity|].
    unfold loads, loads_value. change (skip_ws (String "{" ?x)) with (String "{" x).
    set (text := String "{" (join ", " xs +:+ "}")).
    assert (Hfuel : exists fuel, (2 * String.length text + 2 = S (S fuel))%nat /\
                                 (List.length (kv :: d) < S fuel)%nat).
    { exists (2 * String.length text)%nat. split; [lia|].
      subst text. cbn [String.length]. rewrite length_append. lia. }
    destruct Hfuel as (fuel & -> & Hf). subst text.
    cbn [scan_value]. unfold c_dq. cbn [Ascii.eqb Bool.eqb]. fold c_dq.
    destruct (Hhead "}") as (t & Ht). rewrite Ht.
    change (skip_ws (String c_dq t)) with (String c_dq t). cbv iota.
    change (Ascii.eqb c_dq "}") with false. cbv iota. rewrite <- Ht.
    rewrite Hscan by exact Hf.
    rewrite set_all_fresh by (auto; intros; reflexivity). reflexivity.
Qed.

End codec_facts.


Module input_emulator_facts.
Import input_emulator.

(** The rejection happens before the [try] suite: it does not depend on what
    the suite does nor on how the name [e] resolves. *)
Lemma press_frame_unmapped {D} sleep (e : slot ecodes) device action_name (duration : D) :
  dict_get ACTION_TO_KEY (upper action_name) = None ->
  press_frame sleep e device action_name duration = (false, device).
Proof.
  intros H. unfold press_frame. rewrite H. reflexivity.
Qed.

(** With the module [ecodes] visible as [e], a mapped action is a key press
    followed, when the sleep returns, by a key release. *)
Lemma press_frame_bound_mapped {D} sleep device action_name key_code (duration : D) :
  dict_get ACTION_TO_KEY (upper action_name) = Some key_code ->
  sleep duration = Ok tt ->
  press_frame sleep (Bound evdev_ecodes) device action_name duration
  = (true, device ++ [Write EV_KEY key_code 1; Syn; Write EV_KEY key_code 0; Syn]).
Proof.
  intros H Hs. unfold press_frame. rewrite H. cbn. unfold time_sleep. rewrite Hs. cbn.
  repeat rewrite <- app_assoc. reflexivity.
Qed.

(** And a sleep that raises would leave the key down. *)
Lemma press_frame_bound_sleep_raises {D} sleep device action_name key_code (duration : D) e :
  dict_get ACTION_TO_KEY (upper action_name) = Some key_code ->
  sleep duration = Raise e ->
  press_frame sleep (Bound evdev_ecodes) device action_name duration
  = (false, device ++ [Write EV_KEY key_code 1; Syn]).
Proof.
  intros H Hs. unfold press_frame. rewrite H. cbn. unfold time_sleep. rewrite Hs. cbn.
  repeat rewrite <- app_assoc. reflexivity.
Qed.

(** As written, the [try] suite stops at its first load of [e]. *)
Lemma press_try_unbound {D} sleep key_code (duration : D) device :
  press_try sleep Unbound key_code duration device = (Raise (UnboundLocalError "e"), device).
Proof. reflexivity. Qed.

(** C9. An action name that is not a key of ACTION_TO_KEY is rejected:
    [press] returns False, and the device has received no event at all (its
    state is the one before the call).  When the upper-case form of the name
    is no key either, this is the early return of [press], whatever its [try]
    suite does, however the name [e] resolves there and whatever the sleep
    does. *)
Theorem press_rejects_unknown_action {D} sleep device action_name (duration : D) :
  dict_get ACTION_TO_KEY action_name = None ->
  press sleep device action_name duration = (false, device) /\
  (dict_get ACTION_TO_KEY (upper action_name) = None ->
   forall e, press_frame sleep e device action_name duration = (false, device)).
Proof.
  intros Hname. split.
  - unfold press, press_frame.
    destruct (dict_get ACTION_TO_KEY (upper action_name)) as [key_code|]; [|reflexivity].
    rewrite press_try_unbound. reflexivity.
  - intros Hupper e. now apply press_frame_unmapped.
Qed.

Lemma press_rejects_unknown_action_witness :
  dict_get ACTION_TO_KEY "dance" = None /\
  press actuator_spec.seconds_sleep [Write EV_KEY KEY_W 1; Syn] "dance" 3%float
  = (false, [Write EV_KEY KEY_W 1; Syn]).
Proof.
  split; [reflexivity|].
  exact (proj1 (press_rejects_unknown_action actuator_spec.seconds_sleep
                  [Write EV_KEY KEY_W 1; Syn] "dance" 3%float eq_refl)).
Defined.

End input_emulator_facts.

(** ** LightweightBrain: template answers *)

Module local_llm_lightweight_facts.
Import local_llm_lightweight.
Import local_llm_lightweight_spec.

Lemma quick_decision_known self key action duration reason :
  dict_get (quick_decisions self) key = Some (template action duration reason) ->
  get_quick_decision self key = Ok (canned action duration reason).
Proof.
  intros H. unfold get_quick_decision. rewrite H. reflexivity.
Qed.

(** The brain keeps its table: [get_plan] only ever rewrites the failure
    counter. *)
Lemma get_plan_keeps_table json_loads post self prompt :
  quick_decisions (snd (fst (get_plan json_loads post self prompt)))
  = quick_decisions self.
Proof.
  unfold get_plan.
  repeat match goal with
         | |- context [if ?c then _ else _] => destruct c; try reflexivity
         end.
  destruct (get_plan_try json_loads post self prompt) as [[plan|]|e]; reflexivity.
Qed.

(** C10. A prompt whose lower-case text mentions an enemy or a person gets the
    VATS template; failing that, loot or a container gets the INTERACT
    template; failing that, health together with low gets the retreat
    template; failing that, stuck gets the unstuck template.  Each answer is
    tagged with source template, is the same for every backend and decoder,
    and no request is sent. *)
Theorem template_answers_ignore_backend self prompt :
  quick_decisions self = quick_decisions_table ->
  let p := lower prompt in
  let threat := contains "enemy" p || contains "person" p in
  let loot := contains "loot" p || contains "container" p in
  let hurt := contains "health" p && contains "low" p in
  let stuck := contains "stuck" p in
  (threat = true ->
     answers_without_backend self prompt (canned "VATS" (Dec 1 (-1)) "engage_target")) /\
  (threat = false -> loot = true ->
     answers_without_backend self prompt (canned "INTERACT" (Dec 5 (-1)) "collect_loot")) /\
  (threat = false -> loot = false -> hurt = true ->
     answers_without_backend self prompt (canned "BACKWARD" (Dec 2 0) "seek_safety")) /\
  (threat = false -> loot = false -> hurt = false -> stuck = true ->
     answers_without_backend self prompt (canned "BACKWARD" (Dec 1 0) "unstuck")).
Proof.
  intros Htable p threat loot hurt stuck.
  assert (Hq : forall key action duration reason,
             dict_get quick_decisions_table key = Some (template action duration reason) ->
             get_quick_decision self key = Ok (canned action duration reason)).
  { intros key a d r Hk. apply quick_decision_known. rewrite Htable. exact Hk. }
  repeat split; intros; intros json_loads post; unfold get_plan;
    fold p; fold threat; fold loot; fold hurt; fold stuck;
    repeat match goal with H : _ = _ :> bool |- _ => rewrite H; clear H end;
    cbv iota; erewrite Hq by reflexivity; reflexivity.
Qed.

Lemma template_answers_ignore_backend_witness :
  quick_decisions brain_after_failures = quick_decisions_table /\
  answers_without_backend brain_after_failures "A PERSON is near the loot"
    (canned "VATS" (Dec 1 (-1)) "engage_target").
Proof.
  split; [reflexivity|].
  apply (template_answers_ignore_backend brain_after_failures "A PERSON is near the loot");
    reflexivity.
Defined.

End local_llm_lightweight_facts.

(** ** LocalBrain: the plan is never missing *)

Module local_llm_module_facts.
Import local_llm_module Py_facts.
Import local_llm_module_spec.

Lemma fallback_plans_are_plans v : In v fallback_plans -> is_plan v.
Proof.
  intros H. simpl in H.
  repeat destruct H as [<-|H]; try contradiction;
    (eexists; split; [reflexivity|]; repeat split; reflexivity).
Qed.

Lemma smart_fallback_in_table prompt :
  In (_generate_smart_fallback_plan prompt) fallback_plans.
Proof.
  unfold _generate_smart_fallback_plan, fallback_plans.
  repeat match goal with
         | |- context [if ?c then _ else _] => destruct c
         end; simpl; tauto.
Qed.

Lemma text_action_is_plan text : is_plan (_extract_action_from_text text).
Proof.
  unfold _extract_action_from_text.
  repeat match goal with
         | |- context [if ?c then _ else _] => destruct c
         end;
    (eexists; split; [reflexivity|]; repeat split; reflexivity).
Qed.

Lemma fill_defaults_is_plan plan :
  dict_mem plan "action" = true -> is_plan (JObj (fill_defaults plan)).
Proof.
  intros Ha. exists (fill_defaults plan). split; [reflexivity|].
  unfold fill_defaults, set_default.
  destruct (dict_mem plan "duration") eqn:Hd; simpl;
    destruct (dict_mem _ "reason") eqn:Hr; simpl;
    repeat split;
    auto using dict_mem_set_same, dict_mem_set_keeps.
Qed.

Lemma extract_plan_is_plan json_loads text v :
  _extract_plan_from_response json_loads text = Ok v -> is_plan v.
Proof.
  unfold _extract_plan_from_response.
  destruct (re_search re_braces_flat text) as [json_str|].
  - destruct (json_loads json_str) as [plan|e].
    + destruct (dict_mem plan "action") eqn:Ha; intros [= <-].
      * now apply fill_defaults_is_plan.
      * apply text_action_is_plan.
    + destruct e; try discriminate. intros [= <-]. apply text_action_is_plan.
  - intros [= <-]. apply text_action_is_plan.
Qed.

Lemma get_plan_try_is_plan json_loads post self prompt v :
  get_plan_try json_loads post self prompt = Ok v -> is_plan v.
Proof.
  unfold get_plan_try, rbind.
  repeat match goal with
         | |- context [match ?x with _ => _ end] =>
             lazymatch x with
             | _extract_plan_from_response _ _ => fail
             | _ => destruct x eqn:?; try discriminate
             end
         end.
  all: try (destruct (_extract_plan_from_response json_loads _) as [plan|e] eqn:Hx;
            [|discriminate]).
  all: try (destruct (truthy _); [|discriminate]).
  all: intros [= <-]; eapply extract_plan_is_plan; eassumption.
Qed.

(** [get_plan] always hands back a plan. *)
Lemma get_plan_is_plan json_loads post self prompt :
  is_plan (fst (get_plan json_loads post self prompt)).
Proof.
  unfold get_plan.
  destruct (max_failures_before_fallback self <=? consecutive_failures self).
  - simpl. apply fallback_plans_are_plans, smart_fallback_in_table.
  - destruct (get_plan_try json_loads post self prompt) as [v|e] eqn:Ht; simpl.
    + eapply get_plan_try_is_plan; eassumption.
    + apply fallback_plans_are_plans, smart_fallback_in_table.
Qed.



End local_llm_module_facts.

(** ** FastDecisionMaker: precedence of the reflexes *)

Module main_bot_enhanced_facts.
Import main_bot_enhanced.
Import main_bot_enhanced_spec.

(** On integers the two tests read as expected. *)
Lemma py_lt_int a b : py_lt (PyInt a) (PyInt b) = Ok (a <? b).
Proof.
  unfold py_lt, py_order, Z.ltb. simpl. now destruct (a ?= b).
Qed.

Lemma py_gt_int a b : py_gt (PyInt a) (PyInt b) = Ok (a >? b).
Proof.
  unfold py_gt, py_order, Z.gtb. simpl. now destruct (a ?= b).
Qed.

(** C2, as stated, fails: a hostile is present and health is not below the
    low-health threshold, yet the context is not classified as enemy
    detected; with loot in view it is not classified as combat at all. *)
Lemma hostile_mid_health_unclassified :
  has_enemy_of wounded_with_loot = Ok true /\
  has_loot_of wounded_with_loot = Ok true /\
  py_lt (health_of wounded_with_loot) (PyInt 30) = Ok false /\
  check_instant_response wounded_with_loot ["manage_inventory"; "explore_and_map"]
  = Ok None /\
  check_instant_response wounded_with_loot ["manage_inventory"; "explore_and_map"]
  <> Ok (Some engage) /\
  FastDecisionMaker.check_instant_response FastDecisionMaker.__init__
    wounded_with_loot ["manage_inventory"; "explore_and_map"]
  = Ok None.
Proof.
  assert (H : check_instant_response wounded_with_loot
                ["manage_inventory"; "explore_and_map"] = Ok None)
    by (vm_compute; reflexivity).
  repeat split; try (vm_compute; reflexivity).
  rewrite H. discriminate.
Qed.

(** The entry a reflex hands out is what the table holds under its key. *)
Lemma instant_response_entry self game_state active_goals key r :
  FastDecisionMaker.check_instant_response self game_state active_goals = Ok (Some (key, r)) ->
  dict_get (FastDecisionMaker.survival_reflexes self) key = Some r /\
  (key = "enemy_close_health_low" \/ key = "enemy_detected_healthy" \/
   key = "loot_safe_nearby" \/ key = "path_clear_exploring").
Proof.
  unfold FastDecisionMaker.check_instant_response, FastDecisionMaker.survival_reflex, rbind.
  destruct (has_enemy_of game_state) as [has_enemy|]; [|discriminate].
  destruct (and_then has_enemy _) as [[|]|]; try discriminate.
  { destruct (dict_get _ _) eqn:E; [|discriminate]. intros [= <- <-]. auto. }
  destruct (and_then has_enemy _) as [[|]|]; try discriminate.
  { destruct (dict_get _ _) eqn:E; [|discriminate]. intros [= <- <-]. auto. }
  destruct (has_loot_of game_state) as [has_loot|]; [|discriminate].
  destruct (has_loot && negb has_enemy && str_in_list "manage_inventory" active_goals).
  { destruct (dict_get _ _) eqn:E; [|discriminate]. intros [= <- <-]. auto 6. }
  destruct (str_in_list "explore" active_goals && negb has_enemy); [|discriminate].
  destruct (dict_get _ _) eqn:E; [|discriminate]. intros [= <- <-]. auto 6.
Qed.

Ltac try_bools k := first [k true | k false].

Lemma table_reachable_shape self :
  table_reachable self -> exists b1 b2 b3 b4 b5, self = table_of b1 b2 b3 b4 b5.
Proof.
  induction 1 as [|self game_state active_goals reflex_response self' _ IH Hc Ht].
  - exists false, false, false, false, false. reflexivity.
  - destruct IH as (b1 & b2 & b3 & b4 & b5 & ->).
    destruct reflex_response as [[key r]|].
    2:{ injection Ht as <-. eauto 6. }
    apply instant_response_entry in Hc. destruct Hc as [Hr Hk].
    destruct Hk as [-> | [-> | [-> | ->]]];
      destruct b1, b2, b3, b4, b5; cbn in Hr; injection Hr as <-;
      cbn in Ht; injection Ht as <-;
      try_bools ltac:(fun a => try_bools ltac:(fun b => try_bools ltac:(fun c =>
        try_bools ltac:(fun d => try_bools ltac:(fun e =>
          exists a, b, c, d, e; reflexivity))))).
Qed.

(** C2, amended.  For every table of a run (the one [__init__] builds, or
    one in which reflexes have fired and carry the tier entry the cycle
    wrote into them) and with a hostile in view: health below 30 hands out
    the entry of the retreat reflex, whatever else is in view and whatever
    goals are active; health above 60 hands out the entry of the engage
    reflex; health from 30 to 60 gives no reflex; and the answer is never
    the entry of the loot reflex nor that of the exploration reflex.  The
    entry handed out is the dict of [__init__], or that dict with the tier
    entry once the reflex has fired before. *)
Theorem hostile_context_precedence self game_state active_goals :
  table_reachable self ->
  has_enemy_of game_state = Ok true ->
  let health := health_of game_state in
  let answer := FastDecisionMaker.check_instant_response self game_state active_goals in
  (py_lt health (PyInt 30) = Ok true ->
     exists r, answer = Ok (Some ("enemy_close_health_low", r)) /\
               (r = retreat \/ r = with_tier retreat)) /\
  (py_lt health (PyInt 30) = Ok false -> py_gt health (PyInt 60) = Ok true ->
     exists r, answer = Ok (Some ("enemy_detected_healthy", r)) /\
               (r = engage \/ r = with_tier engage)) /\
  (py_lt health (PyInt 30) = Ok false -> py_gt health (PyInt 60) = Ok false ->
     forall has_loot, has_loot_of game_state = Ok has_loot -> answer = Ok None) /\
  (forall r, answer <> Ok (Some ("loot_safe_nearby", r))) /\
  (forall r, answer <> Ok (Some ("path_clear_exploring", r))).
Proof.
  intros Hreach He health answer. subst answer.
  destruct (table_reachable_shape self Hreach) as (b1 & b2 & b3 & b4 & b5 & ->).
  unfold FastDecisionMaker.check_instant_response.
  fold health. rewrite He. cbn [rbind and_then].
  split; [|split; [|split; [|split]]].
  - intros ->. cbn. eexists. split; [reflexivity|]. destruct b1; auto.
  - intros -> ->. cbn. eexists. split; [reflexivity|]. destruct b2; auto.
  - intros -> -> has_loot ->. cbn.
    rewrite andb_false_r. cbn. rewrite andb_false_r. reflexivity.
  - intros r. destruct (py_lt health (PyInt 30)) as [[|]|]; cbn; try discriminate.
    destruct (py_gt health (PyInt 60)) as [[|]|]; cbn; try discriminate.
    destruct (has_loot_of game_state) as [has_loot|]; cbn; try discriminate.
    rewrite andb_false_r. cbn. rewrite andb_false_r. discriminate.
  - intros r. destruct (py_lt health (PyInt 30)) as [[|]|]; cbn; try discriminate.
    destruct (py_gt health (PyInt 60)) as [[|]|]; cbn; try discriminate.
    destruct (has_loot_of game_state) as [has_loot|]; cbn; try discriminate.
    rewrite andb_false_r. cbn. rewrite andb_false_r. discriminate.
Qed.

Lemma after_retreat_reachable : table_reachable after_retreat.
Proof.
  apply (table_cycle FastDecisionMaker.__init__ dying_with_loot ["manage_inventory"]
           (Some ("enemy_close_health_low", retreat)));
    [apply table_init|vm_compute; reflexivity|vm_compute; reflexivity].
Qed.

Lemma hostile_context_precedence_witness :
  table_reachable after_retreat /\
  has_enemy_of dying_with_loot = Ok true /\
  exists r,
    FastDecisionMaker.check_instant_response after_retreat dying_with_loot ["manage_inventory"]
    = Ok (Some ("enemy_close_health_low", r)) /\
    (r = retreat \/ r = with_tier retreat).
Proof.
  assert (He : has_enemy_of dying_with_loot = Ok true) by (vm_compute; reflexivity).
  split; [exact after_retreat_reachable|]. split; [exact He|].
  apply (hostile_context_precedence after_retreat dying_with_loot ["manage_inventory"]
           after_retreat_reachable He).
  vm_compute. reflexivity.
Defined.

(** The second answer carries the tier entry: it is not the dict of
    [__init__] any more. *)
Lemma second_reflex_is_tagged :
  FastDecisionMaker.check_instant_response FastDecisionMaker.__init__ dying_with_loot []
  = Ok (Some ("enemy_close_health_low", retreat)) /\
  FastDecisionMaker.check_instant_response after_retreat dying_with_loot []
  = Ok (Some ("enemy_close_health_low", with_tier retreat)) /\
  with_tier retreat
  = JObj [("action", JStr "BACKWARD"); ("duration", JFloat (Dec 3 0));
          ("reason", JStr "retreat_survival"); ("tier", JStr "REFLEX")].
Proof. repeat split; vm_compute; reflexivity. Qed.

(** The stateless reading: [main_bot_enhanced.check_instant_response] gives
    the answer of the table up to the tier entry. *)
Lemma check_instant_response_up_to_tier self game_state active_goals :
  table_reachable self ->
  match FastDecisionMaker.check_instant_response self game_state active_goals,
        check_instant_response game_state active_goals with
  | Ok None, Ok None => True
  | Ok (Some (key, r)), Ok (Some base) =>
      dict_get survival_reflexes key = Some base /\ (r = base \/ r = with_tier base)
  | Raise e, Raise e' => e = e'
  | _, _ => False
  end.
Proof.
  intros Hreach.
  destruct (table_reachable_shape self Hreach) as (b1 & b2 & b3 & b4 & b5 & ->).
  unfold FastDecisionMaker.check_instant_response, check_instant_response, rbind.
  destruct (has_enemy_of game_state) as [has_enemy|]; [|reflexivity].
  destruct (and_then has_enemy _) as [[|]|]; [| |reflexivity].
  { cbn. split; [reflexivity|]. destruct b1; auto. }
  destruct (and_then has_enemy _) as [[|]|]; [| |reflexivity].
  { cbn. split; [reflexivity|]. destruct b2; auto. }
  destruct (has_loot_of game_state) as [has_loot|]; [|reflexivity].
  destruct (has_loot && negb has_enemy && str_in_list "manage_inventory" active_goals).
  { cbn. split; [reflexivity|]. destruct b3; auto. }
  destruct (str_in_list "explore" active_goals && negb has_enemy); [|exact I].
  cbn. split; [reflexivity|]. destruct b5; auto.
Qed.

End main_bot_enhanced_facts.

(** ** IntelligentDecisionMaker: complexity and escalation *)

Module decision_maker_facts.
Import comprehensive_fo76_ai.
Import decision_maker_spec.

Lemma flag_holds context key : flag context key = holds context key.
Proof. unfold flag, holds, ctx_get. now destruct (context !! key). Qed.

Lemma clamp_is_min x : py_min x 1 = clamped x.
Proof. reflexivity. Qed.

Lemma complexity_formula context g :
  _calculate_complexity context g = clamped (weighted_sum context g).
Proof.
  unfold _calculate_complexity, weighted_sum, base_weight, weight.
  rewrite !flag_holds, clamp_is_min.
  destruct (String.eqb (id g) "do_public_events");
    [|destruct (String.eqb (id g) "manage_inventory");
      [|destruct (String.eqb (id g) "fishing")]];
    destruct (holds context "multiple_threats"), (holds context "unknown_location"),
      (holds context "inventory_full"), (holds context "low_resources");
    vm_compute; reflexivity.
Qed.

Lemma weighted_sum_range context g :
  (0 <=? clamped (weighted_sum context g))%float = true /\
  (clamped (weighted_sum context g) <=? 1)%float = true.
Proof.
  unfold weighted_sum, base_weight, weight.
  destruct (String.eqb (id g) "do_public_events");
    [|destruct (String.eqb (id g) "manage_inventory");
      [|destruct (String.eqb (id g) "fishing")]];
    destruct (holds context "multiple_threats"), (holds context "unknown_location"),
      (holds context "inventory_full"), (holds context "low_resources");
    vm_compute; split; reflexivity.
Qed.

(** [update_context] writes eleven keys, none of them a complexity flag. *)
Lemma update_context_keeps truediv self game_state now self' key :
  update_context truediv self game_state now = Ok self' ->
  ~ In key ["timestamp"; "location"; "character_level"; "health_percent"; "weight_ratio";
            "caps"; "public_event_active"; "at_water"; "threats"; "opportunities";
            "inventory_items"] ->
  current_context self' !! key = current_context self !! key.
Proof.
  unfold update_context, rbind. destruct (truediv _ _) as [weight_ratio|]; [|discriminate].
  intros [= <-] Hkey. cbn [current_context].
  repeat (rewrite lookup_insert_ne; [|intros <-; apply Hkey; cbn; tauto]).
  reflexivity.
Qed.

Lemma program_context_has_no_flag context key :
  program_context context ->
  In key ["multiple_threats"; "unknown_location"; "inventory_full"; "low_resources"] ->
  context !! key = None.
Proof.
  induction 1 as [|truediv self game_state now self' _ IH Hu]; intros Hkey.
  - apply lookup_empty.
  - rewrite (update_context_keeps _ _ _ _ _ key Hu); [now apply IH|].
    cbn in Hkey. destruct Hkey as [<-|[<-|[<-|[<-|[]]]]]; cbn;
      intros H; repeat destruct H as [H|H]; try discriminate H; exact H.
Qed.

Lemma program_context_score context g :
  program_context context -> _calculate_complexity context g = base_weight (id g).
Proof.
  intros H. rewrite complexity_formula. unfold weighted_sum, holds.
  rewrite !(program_context_has_no_flag context _ H) by (cbn; tauto).
  unfold base_weight, weight.
  destruct (String.eqb (id g) "do_public_events");
    [|destruct (String.eqb (id g) "manage_inventory");
      [|destruct (String.eqb (id g) "fishing")]];
    vm_compute; reflexivity.
Qed.

Lemma raid_context_built : program_context raid_context.
Proof.
  unfold raid_context.
  destruct (update_context truediv_ints connected_companion raid 1000) as [self|e] eqn:E.
  - eapply context_update; [|exact E]. apply context_init.
  - apply context_init.
Qed.

(** C3, as stated, fails.  The score does not look at the hostile entities
    of the context.  In the context that [update_context] builds from a game
    state with two hostile entities in view, the score of the events goal is
    its base weight 0.6, not 0.6 plus 0.3: the score reads the entry
    multiple_threats of the context, which is not there. *)
Lemma two_hostiles_add_nothing :
  program_context raid_context /\
  hostiles raid_context = 2 /\
  _calculate_complexity raid_context events_goal = 0.6%float /\
  (_calculate_complexity raid_context events_goal =? 0.6 + 0.3)%float = false /\
  raid_context !! "multiple_threats" = None.
Proof.
  split; [exact raid_context_built|].
  repeat split; vm_compute; reflexivity.
Qed.

(** C3, amended.  The complexity score is the weighted sum clamped at 1.0:
    the base weight of the goal, plus 0.3 when the context holds a true value
    under multiple_threats, plus 0.2 each when it holds one under
    unknown_location, inventory_full and low_resources, added left to right
    in binary64 arithmetic.  It is never negative and never above 1.  The
    four entries are flags of the context and nothing else: [update_context]
    does not write them, so in every context of the program the score is the
    base weight of the goal alone. *)
Theorem complexity_is_clamped_weighted_sum context g :
  let score := _calculate_complexity context g in
  score = clamped (weighted_sum context g) /\
  (0 <=? score)%float = true /\
  (score <=? 1)%float = true /\
  (program_context context -> score = base_weight (id g)).
Proof.
  intros score. subst score. split; [apply complexity_formula|].
  rewrite complexity_formula. split; [apply weighted_sum_range|].
  split; [apply weighted_sum_range|].
  intros H. rewrite <- complexity_formula. now apply program_context_score.
Qed.

Lemma complexity_is_clamped_weighted_sum_witness :
  _calculate_complexity two_hostiles events_goal = (0.6 + 0.3)%float /\
  _calculate_complexity raid_context events_goal = 0.6%float.
Proof.
  split.
  - exact (proj1 (complexity_is_clamped_weighted_sum two_hostiles events_goal)).
  - exact (proj2 (proj2 (proj2 (complexity_is_clamped_weighted_sum raid_context events_goal)))
             raid_context_built).
Defined.

(** The clamp is reached: every weight at once overshoots 1. *)
Lemma complexity_clamps_at_one g :
  id g = "do_public_events" ->
  _calculate_complexity
    (<["multiple_threats" := PyBool true]>
       (<["unknown_location" := PyBool true]>
          (<["inventory_full" := PyBool true]> ∅))) g = 1%float.
Proof.
  intros Hid. unfold _calculate_complexity. rewrite Hid. vm_compute. reflexivity.
Qed.

(** The test of [make_decision], spelled out. *)
Lemma strategic_iff self context g now :
  make_decision_tier self context g now = Strategic <->
  (complex_decision_threshold self <=? _calculate_complexity context g)%float = true /\
  remote_available self = true /\
  (remote_call_cooldown self <=? now - last_remote_call self)%float = true.
Proof.
  unfold make_decision_tier.
  destruct (complex_decision_threshold self <=? _calculate_complexity context g)%float;
    destruct (remote_available self);
    destruct (remote_call_cooldown self <=? now - last_remote_call self)%float;
    simpl; split; try discriminate; try tauto; intros (H1 & H2 & H3); discriminate.
Qed.

(** Scenario C: base weight 0.6 and several hostiles.  The binary64 sum is
    the float just below 0.9; it passes the threshold 0.7. *)
Lemma scenario_c_score :
  _calculate_complexity two_hostiles events_goal = (0.6 + 0.3)%float /\
  next_up (0.6 + 0.3)%float = 0.9%float /\
  (0.7 <=? _calculate_complexity two_hostiles events_goal)%float = true.
Proof. vm_compute. repeat split; reflexivity. Qed.

(** C4, at the failing input.  The connection test on its own lowers the
    threshold to 0.6 and the cooldown to 30 for an OpenHermes server; but
    [__init__] runs it before its own assignments, which put 0.7, 60 and
    False back.  As the file stands (no import of [requests]) [__init__] raises
    NameError; and whenever [__init__] returns, the threshold is 0.7 and the
    cooldown 60, OpenHermes or not. *)
Theorem openhermes_tuning_is_overwritten :
  option_map settings
    (match _test_kobold_connection (Some openhermes_server) blank with
     | Ok s => Some s | Raise _ => None end)
  = Some (0.6, 30, true, true)%float /\
  option_map settings
    (match IntelligentDecisionMaker__init__ (Some openhermes_server) [] with
     | Ok s => Some s | Raise _ => None end)
  = Some (0.7, 60, false, true)%float /\
  IntelligentDecisionMaker__init__ None [] = Raise (NameError "requests") /\
  (forall requests config,
     match IntelligentDecisionMaker__init__ requests config with
     | Ok self => complex_decision_threshold self = 0.7%float /\
                  remote_call_cooldown self = 60%float /\
                  is_openhermes self = false
     | Raise _ => True
     end).
Proof.
  repeat split; try (vm_compute; reflexivity).
  intros requests config. unfold IntelligentDecisionMaker__init__, rbind.
  destruct (_test_kobold_connection requests _); [|exact I].
  repeat split.
Qed.

(** With the settings [__init__] leaves, Scenario C escalates once the
    backend is available and the cooldown of 60 seconds has passed. *)
Lemma scenario_c_escalates self now :
  complex_decision_threshold self = 0.7%float ->
  remote_available self = true ->
  (remote_call_cooldown self <=? now - last_remote_call self)%float = true ->
  make_decision_tier self two_hostiles events_goal now = Strategic.
Proof.
  intros Ht Ha Hc. apply strategic_iff. rewrite Ht. repeat split; auto.
Qed.

End decision_maker_facts.

(** ** The two brace patterns *)

Module regex_facts.
Import regex_spec.

Example search_greedy_sample :
  map (re_search re_braces_greedy) ["xx{a}b}c{"; "}xx{ab"; "no braces"; "{}"]
  = [Some "{a}b}"; None; None; Some "{}"].
Proof. vm_compute. reflexivity. Qed.

Example search_flat_sample :
  map (re_search re_braces_flat) ["xx{a}b}c{"; "x{a{b}c}"; "{ab"; "}{}"]
  = [Some "{a}"; Some "{a{b}"; None; Some "{}"].
Proof. vm_compute. reflexivity. Qed.

Lemma match_here_star p rest s :
  match_here (Star p :: rest) s =
  match s with
  | String c t =>
      if p c then
        match match_here (Star p :: rest) t with
        | Some n => Some (S n)
        | None => match_here rest s
        end
      else match_here rest s
  | EmptyString => match_here rest s
  end.
Proof. destruct s; reflexivity. Qed.

Lemma match_here_one p rest s :
  match_here (One p :: rest) s =
  match s with
  | String c t => if p c then option_map S (match_here rest t) else None
  | EmptyString => None
  end.
Proof. destruct s; reflexivity. Qed.

Lemma greedy_tail t :
  match_here [Star any_char; One (is_char "}")] t
  = option_map String.length (through_last "}" t).
Proof.
  induction t as [|a t IH]; rewrite match_here_star; [reflexivity|].
  change (any_char a) with true. cbv iota. rewrite IH. cbn [through_last].
  destruct (through_last "}" t) as [r|]; [reflexivity|].
  cbn [option_map]. rewrite match_here_one.
  change (is_char "}" a) with (Ascii.eqb "}" a).
  destruct (Ascii.eqb "}" a); reflexivity.
Qed.

Lemma flat_tail t :
  match_here [Star (not_char "}"); One (is_char "}")] t
  = option_map String.length (through_first "}" t).
Proof.
  induction t as [|a t IH]; rewrite match_here_star; [reflexivity|].
  rewrite match_here_one. cbn [through_first].
  change (not_char "}" a) with (negb (Ascii.eqb "}" a)).
  change (is_char "}" a) with (Ascii.eqb "}" a).
  destruct (Ascii.eqb "}" a); cbn [negb option_map]; [reflexivity|].
  rewrite IH. destruct (through_first "}" t); reflexivity.
Qed.

Lemma through_last_prefix c t r :
  through_last c t = Some r -> String.substring 0 (String.length r) t = r.
Proof.
  revert r. induction t as [|a t IH]; intros r; simpl; [discriminate|].
  destruct (through_last c t) as [r'|].
  - intros [= <-]. simpl. now rewrite IH.
  - destruct (Ascii.eqb c a); [|discriminate]. intros [= <-]. simpl.
    now destruct t.
Qed.

Lemma through_first_prefix c t r :
  through_first c t = Some r -> String.substring 0 (String.length r) t = r.
Proof.
  revert r. induction t as [|a t IH]; intros r; simpl; [discriminate|].
  destruct (Ascii.eqb c a).
  - intros [= <-]. simpl. now destruct t.
  - destruct (through_first c t) as [r'|]; [|discriminate].
    intros [= <-]. simpl. now rewrite IH.
Qed.

Lemma greedy_none_without_closing t :
  through_last "}" t = None -> re_search re_braces_greedy t = None.
Proof.
  induction t as [|a t IH]; [reflexivity|]. cbn [through_last].
  destruct (through_last "}" t) as [r|] eqn:Hl; [discriminate|]. intros _.
  unfold re_braces_greedy in *. cbn [re_search].
  change (match_here (One (is_char "{") :: [Star any_char; One (is_char "}")]) (String a t))
    with (if is_char "{" a
          then option_map S (match_here [Star any_char; One (is_char "}")] t) else None).
  rewrite greedy_tail, Hl. cbn [option_map].
  destruct (is_char "{" a); now apply IH.
Qed.

Lemma flat_none_without_closing t :
  through_first "}" t = None -> re_search re_braces_flat t = None.
Proof.
  induction t as [|a t IH]; [reflexivity|]. cbn [through_first].
  destruct (Ascii.eqb "}" a); [discriminate|].
  destruct (through_first "}" t) as [r|] eqn:Hl; [discriminate|]. intros _.
  unfold re_braces_flat in *. cbn [re_search].
  change (match_here (One (is_char "{") :: [Star (not_char "}"); One (is_char "}")]) (String a t))
    with (if is_char "{" a
          then option_map S (match_here [Star (not_char "}"); One (is_char "}")] t) else None).
  rewrite flat_tail, Hl. cbn [option_map].
  destruct (is_char "{" a); now apply IH.
Qed.

(** [r'\{.*\}'] finds the text from the first opening brace to the last
    closing brace. *)
Lemma greedy_is_first_to_last s :
  re_search re_braces_greedy s = first_to_last_brace s.
Proof.
  unfold first_to_last_brace.
  induction s as [|a t IH]; [reflexivity|].
  unfold re_braces_greedy in *. cbn [re_search]. cbn [from_first].
  change (match_here (One (is_char "{") :: [Star any_char; One (is_char "}")]) (String a t))
    with (if is_char "{" a
          then option_map S (match_here [Star any_char; One (is_char "}")] t) else None).
  rewrite greedy_tail. unfold is_char.
  destruct (Ascii.eqb "{" a) eqn:Ea.
  - destruct (through_last "}" t) as [r|] eqn:Hl;
      cbn [option_map String.length String.substring].
    + now rewrite (through_last_prefix _ _ _ Hl).
    + now apply greedy_none_without_closing.
  - exact IH.
Qed.

(** [r'\{[^}]*\}'] finds the text from the first opening brace to the next
    closing brace. *)
Lemma flat_is_first_to_next s :
  re_search re_braces_flat s = first_to_next_brace s.
Proof.
  unfold first_to_next_brace.
  induction s as [|a t IH]; [reflexivity|].
  unfold re_braces_flat in *. cbn [re_search]. cbn [from_first].
  change (match_here (One (is_char "{") :: [Star (not_char "}"); One (is_char "}")]) (String a t))
    with (if is_char "{" a
          then option_map S (match_here [Star (not_char "}"); One (is_char "}")] t) else None).
  rewrite flat_tail. unfold is_char.
  destruct (Ascii.eqb "{" a) eqn:Ea.
  - destruct (through_first "}" t) as [r|] eqn:Hl;
      cbn [option_map String.length String.substring].
    + now rewrite (through_first_prefix _ _ _ Hl).
    + now apply flat_none_without_closing.
  - exact IH.
Qed.

Lemma from_first_skips c pre rest :
  occurs c pre = false ->
  from_first c (pre +:+ String c rest) = Some (String c rest).
Proof.
  induction pre as [|a pre IH]; simpl.
  - now rewrite Ascii.eqb_refl.
  - intros H. apply orb_false_iff in H as [-> H]. now apply IH.
Qed.

Lemma through_last_none c post :
  occurs c post = false -> through_last c post = None.
Proof.
  induction post as [|a post IH]; simpl; [reflexivity|].
  intros H. apply orb_false_iff in H as [-> H]. now rewrite IH.
Qed.

Lemma through_last_closing c body post :
  occurs c post = false ->
  through_last c (body +:+ String c post) = Some (body +:+ String c EmptyString).
Proof.
  intros H. induction body as [|a body IH]; simpl.
  - now rewrite through_last_none, Ascii.eqb_refl.
  - now rewrite IH.
Qed.

Lemma through_first_closing c body post :
  occurs c body = false ->
  through_first c (body +:+ String c post) = Some (body +:+ String c EmptyString).
Proof.
  induction body as [|a body IH]; simpl.
  - now rewrite Ascii.eqb_refl.
  - intros H. apply orb_false_iff in H as [-> H]. now rewrite IH.
Qed.

(** A brace-delimited object between commentary: what each reading finds. *)
Lemma first_to_last_of_wrapped pre body post :
  occurs "{" pre = false -> occurs "}" post = false ->
  first_to_last_brace (pre +:+ String "{" (body +:+ String "}" post))
  = Some (String "{" (body +:+ String "}" EmptyString)).
Proof.
  intros Hpre Hpost. unfold first_to_last_brace.
  rewrite from_first_skips by assumption.
  now rewrite through_last_closing.
Qed.

Lemma first_to_next_of_wrapped pre body post :
  occurs "{" pre = false -> occurs "}" body = false ->
  first_to_next_brace (pre +:+ String "{" (body +:+ String "}" post))
  = Some (String "{" (body +:+ String "}" EmptyString)).
Proof.
  intros Hpre Hbody. unfold first_to_next_brace.
  rewrite from_first_skips by assumption.
  now rewrite through_first_closing.
Qed.

End regex_facts.

(** ** Extraction of the plan from the response text *)

Module extraction_facts.
Import regex_spec regex_facts Py_facts.
Import extraction_spec codec_spec codec_facts.

(** C5, as stated, fails.  LocalBrain does not take the text up to the last
    closing brace: on an object that holds an object it stops at the inner
    closing brace, the decoder refuses the fragment, and the plan comes from
    the keyword scan instead of the object.  And BigBrain, which does take
    the text up to the last closing brace, loses a well-formed object when
    the commentary after it holds a closing brace. *)
Lemma extraction_misses_the_object :
  first_to_last_brace nested_reply = Some nested_reply /\
  Json.loads nested_reply = Ok [("action", JStr "JUMP"); ("args", JObj [])] /\
  re_search re_braces_flat nested_reply
  = Some ("{" +:+ member "action" "JUMP" +:+ ", " +:+ dq +:+ "args" +:+ dq +:+ ": {}") /\
  re_search re_braces_flat nested_reply <> first_to_last_brace nested_reply /\
  local_llm_module._extract_plan_from_response Json.loads nested_reply
  = Ok (JObj (local_llm_module.plan3 "FORWARD" (Dec 15 (-1)) "continue exploration")) /\
  Json.loads ("{" +:+ member "action" "TAB" +:+ "}") = Ok [("action", JStr "TAB")] /\
  llm_module.get_plan Json.loads (serve smiley_reply)
    (llm_module.__init__ "http://100.64.150.78:5001/api/v1/generate") "What now?"
  = Ok None.
Proof.
  repeat split; try (vm_compute; reflexivity).
  vm_compute. discriminate.
Qed.

(** C5, amended.  The greedy pattern (BigBrain) takes the text from the first
    opening brace to the last closing brace; the flat pattern (LocalBrain)
    takes the text from the first opening brace to the next closing brace.
    For a response made of commentary without an opening brace, an object and
    more commentary: BigBrain returns the decoded object when the commentary
    after it has no closing brace; LocalBrain returns the decoded object, with
    its defaults, when the object has no closing brace before its last
    character and has an action. *)
Theorem extraction_takes_brace_delimited_text json_loads pre body post :
  occurs "{" pre = false ->
  let obj := String "{" (body +:+ "}") in
  let text := pre +:+ String "{" (body +:+ String "}" post) in
  (forall t, re_search re_braces_greedy t = first_to_last_brace t) /\
  (forall t, re_search re_braces_flat t = first_to_next_brace t) /\
  (occurs "}" post = false ->
     re_search re_braces_greedy text = Some obj /\
     forall backend self prompt plan,
       backend (llm_module.api_url self) (llm_module.payload prompt)
       = Ok (reply_with text) ->
       json_loads obj = Ok plan ->
       llm_module.get_plan json_loads backend self prompt = Ok (Some (JObj plan))) /\
  (occurs "}" body = false ->
     re_search re_braces_flat text = Some obj /\
     forall plan,
       json_loads obj = Ok plan -> dict_mem plan "action" = true ->
       local_llm_module._extract_plan_from_response json_loads text
       = Ok (JObj (local_llm_module.fill_defaults plan))).
Proof.
  intros Hpre obj text.
  split; [exact greedy_is_first_to_last|].
  split; [exact flat_is_first_to_next|].
  split.
  - intros Hpost.
    assert (Hm : re_search re_braces_greedy text = Some obj).
    { rewrite greedy_is_first_to_last. now apply first_to_last_of_wrapped. }
    split; [exact Hm|].
    intros backend self prompt plan Hb Hl.
    unfold llm_module.get_plan, llm_module.get_plan_try.
    rewrite Hb. unfold reply_with. cbn [rbind json_getitem dict_get json_first json_as_str].
    cbn [String.eqb Ascii.eqb Bool.eqb rbind json_getitem dict_get json_first json_as_str].
    rewrite Hm. cbn [rbind]. rewrite Hl. reflexivity.
  - intros Hbody.
    assert (Hm : re_search re_braces_flat text = Some obj).
    { rewrite flat_is_first_to_next. now apply first_to_next_of_wrapped. }
    split; [exact Hm|].
    intros plan Hl Ha. unfold local_llm_module._extract_plan_from_response.
    rewrite Hm, Hl, Ha. reflexivity.
Qed.

Lemma extraction_takes_brace_delimited_text_witness :
  llm_module.get_plan Json.loads (serve chatty_reply)
    (llm_module.__init__ "http://100.64.150.78:5001/api/v1/generate") "What now?"
  = Ok (Some (JObj [("action", JStr "TAB")])) /\
  local_llm_module._extract_plan_from_response Json.loads chatty_reply
  = Ok (JObj [("action", JStr "TAB"); ("duration", JFloat (Dec 1 0));
              ("reason", JStr "AI decision")]).
Proof.
  pose proof (extraction_takes_brace_delimited_text Json.loads
                "Sure! " (member "action" "TAB") " Good luck." eq_refl)
    as (_ & _ & Hbig & Hlocal).
  split.
  - apply (proj2 (Hbig eq_refl)); reflexivity.
  - apply (proj2 (Hlocal eq_refl) [("action", JStr "TAB")]); reflexivity.
Defined.


Lemma fill_defaults_keeps plan k v :
  dict_get plan k = Some v ->
  dict_get (local_llm_module.fill_defaults plan) k = Some v.
Proof.
  intros H. unfold local_llm_module.fill_defaults, local_llm_module.set_default.
  assert (Hk : forall d k' v', dict_get d k = Some v ->
                 dict_get (if negb (dict_mem d k') then dict_set d k' v' else d) k = Some v).
  { intros d k' v' Hd. destruct (dict_mem d k') eqn:Hm; simpl; [exact Hd|].
    destruct (String.eqb k' k) eqn:E.
    - apply String.eqb_eq in E. subst k'. unfold dict_mem in Hm. now rewrite Hd in Hm.
    - apply String.eqb_neq in E. now rewrite dict_get_set_other. }
  now apply Hk, Hk.
Qed.

Lemma set_default_get plan k v :
  dict_get (local_llm_module.set_default plan k v) k = Some (dict_get_default plan k v).
Proof.
  unfold local_llm_module.set_default, dict_mem, dict_get_default.
  destruct (dict_get plan k) eqn:H; simpl; [exact H|apply dict_get_set_same].
Qed.

Lemma set_default_present plan k v :
  dict_mem plan k = true -> local_llm_module.set_default plan k v = plan.
Proof. intros H. unfold local_llm_module.set_default. now rewrite H. Qed.

Lemma nodup_snoc (l : list string) k :
  List.NoDup l -> ~ In k l -> List.NoDup (l ++ [k]).
Proof.
  induction 1 as [|x l Hx Hl IH]; intros Hk; cbn.
  - constructor; [intros []|constructor].
  - constructor.
    + rewrite in_app_iff. intros [H|[<-|[]]]; [contradiction|]. apply Hk. now left.
    + apply IH. intros H. apply Hk. now right.
Qed.

Lemma dict_get_none_keys (plan : list (string * json)) k :
  dict_get plan k = None -> ~ In k (map fst plan).
Proof.
  induction plan as [|[k0 v0] plan IH]; [intros _ []|].
  cbn. destruct (String.eqb k k0) eqn:Ek; [discriminate|].
  apply String.eqb_neq in Ek. intros E [H|H]; [congruence|now apply IH].
Qed.

Lemma set_default_flat plan k v :
  flat_plan plan -> isascii k = true -> scalar v ->
  flat_plan (local_llm_module.set_default plan k v).
Proof.
  intros [Hnd Hflat] Hk Hv. unfold local_llm_module.set_default, dict_mem.
  destruct (dict_get plan k) eqn:E; cbn [negb]; [now split|].
  rewrite dict_set_absent by exact E. split.
  - rewrite map_app. cbn [map fst].
    apply nodup_snoc; [exact Hnd|now apply dict_get_none_keys].
  - apply Forall_app. split; [exact Hflat|]. repeat constructor; assumption.
Qed.

Lemma fill_defaults_flat plan :
  flat_plan plan -> flat_plan (local_llm_module.fill_defaults plan).
Proof.
  intros H. unfold local_llm_module.fill_defaults.
  apply set_default_flat; [apply set_default_flat; [exact H|reflexivity|]|reflexivity
                          |reflexivity].
  right. vm_compute. discriminate.
Qed.


Lemma append_snoc_inj (a b : string) c :
  a +:+ String c "" = b +:+ String c "" -> a = b.
Proof.
  revert b. induction a as [|x a IH]; intros [|y b] H.
  - reflexivity.
  - rewrite append_nil_l, append_cons in H. injection H as _ H.
    destruct b; discriminate H.
  - rewrite append_nil_l, append_cons in H. injection H as _ H.
    destruct a; discriminate H.
  - rewrite !append_cons in H. injection H as -> H. f_equal. now apply IH.
Qed.

Lemma terse_plan_flat : flat_plan terse_plan.
Proof.
  split.
  - repeat constructor; cbn; intuition discriminate.
  - repeat constructor.
Qed.


End extraction_facts.

(** ** Goal registry: states, invariant, selection *)

Module goal_manager_facts.
Import comprehensive_fo76_ai Py_facts.
Import goal_manager_spec.

Lemma str_in_list_In x l : str_in_list x l = true <-> In x l.
Proof.
  unfold str_in_list. rewrite existsb_exists. split.
  - intros (y & Hy & E). apply String.eqb_eq in E. now subst.
  - intros H. exists x. split; [exact H|apply String.eqb_refl].
Qed.

Lemma In_list_remove x y l :
  List.NoDup l -> (In x (list_remove y l) <-> In x l /\ x <> y).
Proof.
  induction 1 as [|a l Ha Hnd IH]; simpl; [tauto|].
  destruct (String.eqb y a) eqn:E.
  - apply String.eqb_eq in E. subst a. split.
    + intros H. split; [now right|]. intros ->. contradiction.
    + intros [[->|H] Hne]; [congruence|exact H].
  - apply String.eqb_neq in E. simpl. rewrite IH. split.
    + intros [->|[H Hne]]; [split; [now left|congruence]|split; [now right|exact Hne]].
    + intros [[->|H] Hne]; [now left|right; now split].
Qed.

Lemma NoDup_list_remove y l : List.NoDup l -> List.NoDup (list_remove y l).
Proof.
  induction 1 as [|a l Ha Hnd IH]; simpl; [constructor|].
  destruct (String.eqb y a); [exact Hnd|].
  constructor; [|exact IH]. rewrite In_list_remove by exact Hnd. tauto.
Qed.

Lemma NoDup_snoc (x : string) l : List.NoDup l -> ~ In x l -> List.NoDup (l ++ [x]).
Proof.
  induction 1 as [|a l Ha Hnd IH]; simpl; intros Hx.
  - constructor; [tauto|constructor].
  - constructor.
    + rewrite in_app_iff. simpl. intros [H|[H|[]]]; [contradiction|]. subst. tauto.
    + apply IH. tauto.
Qed.

(** Replacing the value under an existing key keeps the shape of the
    registry. *)
Lemma entries_dict_set all defaults goal_id g on :
  Forall2 entry_of all defaults ->
  dict_get all goal_id = Some g ->
  Forall2 entry_of (dict_set all goal_id (with_enabled g on)) defaults.
Proof.
  induction 1 as [|[k v] g0 all defaults [Hk Hv] Hrest IH]; simpl; [discriminate|].
  destruct (String.eqb goal_id k) eqn:E.
  - intros [= ->]. constructor; [|exact Hrest].
    split; [exact Hk|]. simpl in *. rewrite Hv. reflexivity.
  - intros H. constructor; [now split|now apply IH].
Qed.

Lemma entries_key all defaults goal_id g :
  Forall2 entry_of all defaults ->
  dict_get all goal_id = Some g ->
  id g = goal_id /\ exists g0, In g0 defaults /\ g = with_enabled g0 (enabled g).
Proof.
  induction 1 as [|[k v] g0 all defaults [Hk Hv] Hrest IH]; simpl; [discriminate|].
  destruct (String.eqb goal_id k) eqn:E.
  - apply String.eqb_eq in E. intros [= ->]. simpl in *. split.
    + rewrite Hv. simpl. congruence.
    + exists g0. split; [now left|exact Hv].
  - intros H. destruct (IH H) as (Hid & g1 & Hin & Hg).
    split; [exact Hid|]. exists g1. split; [now right|exact Hg].
Qed.

Lemma wf_init : wf GoalManager__init__.
Proof.
  split.
  - vm_compute. repeat constructor.
  - vm_compute. repeat constructor. intros [].
  - intros goal_id. change (active_goals GoalManager__init__) with ["explore_and_map"].
    split.
    + intros [<-|[]]. eexists. split; vm_compute; reflexivity.
    + intros (g & Hg & He). left.
      change (goals GoalManager__init__)
        with (map (fun g => (id g, g)) default_goals) in Hg.
      unfold default_goals in Hg. cbn [map dict_get goal id] in Hg.
      repeat match type of Hg with
             | (if String.eqb ?a ?b then _ else _) = _ =>
                 destruct (String.eqb a b) eqn:?;
                 [injection Hg as <-; try discriminate He|]
             end; try discriminate Hg.
      symmetry. now apply String.eqb_eq.
Qed.

Lemma wf_set_goal_enabled gm goal_id on :
  wf gm -> wf (set_goal_enabled gm goal_id on).
Proof.
  intros [Hent Hnd Hact]. unfold set_goal_enabled.
  destruct (dict_get (goals gm) goal_id) as [g|] eqn:Hg; [|now split].
  assert (Hin : str_in_list goal_id (active_goals gm) = enabled g).
  { destruct (str_in_list goal_id (active_goals gm)) eqn:E.
    - apply str_in_list_In, Hact in E. destruct E as (g' & Hg' & He). congruence.
    - destruct (enabled g) eqn:He; [|reflexivity].
      assert (In goal_id (active_goals gm)) as H by (apply Hact; eauto).
      apply str_in_list_In in H. congruence. }
  split; cbn [goals active_goals].
  - now apply entries_dict_set.
  - rewrite Hin. destruct on, (enabled g) eqn:He; cbn; try exact Hnd.
    + apply NoDup_snoc; [exact Hnd|]. rewrite <- str_in_list_In. congruence.
    + now apply NoDup_list_remove.
  - intros x. destruct (String.eqb goal_id x) eqn:E.
    + apply String.eqb_eq in E. subst x. rewrite dict_get_set_same.
      rewrite Hin. destruct on, (enabled g) eqn:He; cbn.
      * rewrite Hact. split; intros _; eauto.
      * rewrite in_app_iff. split; [eauto|]. intros _. right. now left.
      * rewrite In_list_remove by exact Hnd. split; [tauto|].
        intros (g' & [= <-] & Hf). discriminate Hf.
      * rewrite Hact. split.
        -- intros (g' & Hg' & He'). congruence.
        -- intros (g' & [= <-] & Hf). discriminate Hf.
    + apply String.eqb_neq in E. rewrite dict_get_set_other by exact E.
      rewrite <- Hact. rewrite Hin. destruct on, (enabled g) eqn:He; cbn; try tauto.
      * rewrite in_app_iff. simpl. split; [intros [H|[H|[]]]; congruence|tauto].
      * rewrite In_list_remove by exact Hnd. split; [tauto|]. intros H. split; congruence.
Qed.

Lemma reachable_wf gm : reachable gm -> wf gm.
Proof.
  induction 1; [apply wf_init|now apply wf_set_goal_enabled].
Qed.

(** *** The stable sort puts the first of the highest goals in front *)

Lemma insert_desc_head g sorted :
  hd_error (insert_desc g sorted)
  = match sorted with
    | [] => Some g
    | h :: _ => if priority g <? priority h then Some h else Some g
    end.
Proof.
  destruct sorted as [|h t]; simpl; [reflexivity|].
  now destruct (priority g <? priority h).
Qed.

Lemma sort_desc_head l g :
  hd_error (sort_desc l) = Some g ->
  exists pre post,
    l = pre ++ g :: post /\
    Forall (fun x => priority x < priority g) pre /\
    Forall (fun x => priority x <= priority g) post.
Proof.
  revert g. induction l as [|x l IH]; intros g; [discriminate|].
  change (sort_desc (x :: l)) with (insert_desc x (sort_desc l)).
  rewrite insert_desc_head.
  destruct (sort_desc l) as [|h t] eqn:Hs.
  - intros [= <-]. destruct l as [|y l].
    + exists [], []. repeat split; constructor.
    + exfalso. change (sort_desc (y :: l)) with (insert_desc y (sort_desc l)) in Hs.
      destruct (sort_desc l) as [|h' t']; simpl in Hs; [discriminate|].
      destruct (priority y <? priority h'); discriminate.
  - destruct (IH h eq_refl) as (pre & post & -> & Hpre & Hpost).
    destruct (priority x <? priority h) eqn:Hlt; intros [= <-].
    + apply Z.ltb_lt in Hlt. exists (x :: pre), post. repeat split; auto.
    + apply Z.ltb_ge in Hlt. exists [], (pre ++ h :: post). repeat split; [constructor|].
      apply List.Forall_app. split.
      * eapply List.Forall_impl; [|exact Hpre]. simpl. intros. lia.
      * constructor; [exact Hlt|]. eapply List.Forall_impl; [|exact Hpost]. simpl. intros. lia.
Qed.

(** [sort_desc] is the stable descending sort: a rearrangement of its input,
    in descending order of priority, that keeps the goals of each priority in
    their original order. *)
Lemma insert_desc_permutation g sorted :
  Permutation (g :: sorted) (insert_desc g sorted).
Proof.
  induction sorted as [|h t IH]; simpl; [reflexivity|].
  destruct (priority g <? priority h); [|reflexivity].
  rewrite perm_swap. now constructor.
Qed.

Lemma sort_desc_permutation l : Permutation l (sort_desc l).
Proof.
  induction l as [|x l IH]; [reflexivity|].
  change (sort_desc (x :: l)) with (insert_desc x (sort_desc l)).
  rewrite <- insert_desc_permutation. now constructor.
Qed.

Lemma insert_desc_sorted g sorted :
  Sorted (fun a b => priority b <= priority a) sorted ->
  Sorted (fun a b => priority b <= priority a) (insert_desc g sorted).
Proof.
  induction 1 as [|h t Hs IH Hh]; simpl; [repeat constructor|].
  destruct (priority g <? priority h) eqn:E.
  - apply Z.ltb_lt in E. constructor; [exact IH|].
    destruct t as [|h' t']; simpl.
    + constructor. lia.
    + inversion Hh; subst. destruct (priority g <? priority h'); constructor; lia.
  - apply Z.ltb_ge in E. constructor; [now constructor|]. now constructor.
Qed.

Lemma sort_desc_sorted l :
  Sorted (fun a b => priority b <= priority a) (sort_desc l).
Proof.
  induction l as [|x l IH]; [constructor|].
  change (sort_desc (x :: l)) with (insert_desc x (sort_desc l)).
  now apply insert_desc_sorted.
Qed.

Lemma insert_desc_stable p g sorted :
  List.filter (fun x => priority x =? p) (insert_desc g sorted)
  = List.filter (fun x => priority x =? p) (g :: sorted).
Proof.
  induction sorted as [|h t IH]; [reflexivity|]. cbn [insert_desc].
  destruct (priority g <? priority h) eqn:E; [|reflexivity].
  apply Z.ltb_lt in E. cbn [List.filter] in *. rewrite IH.
  destruct (priority g =? p) eqn:Eg, (priority h =? p) eqn:Eh; try reflexivity.
  apply Z.eqb_eq in Eg, Eh. lia.
Qed.

Lemma sort_desc_stable p l :
  List.filter (fun x => priority x =? p) (sort_desc l)
  = List.filter (fun x => priority x =? p) l.
Proof.
  induction l as [|x l IH]; [reflexivity|].
  change (sort_desc (x :: l)) with (insert_desc x (sort_desc l)).
  rewrite insert_desc_stable. cbn [List.filter]. now rewrite IH.
Qed.

Lemma filter_split {A} (p : A -> bool) l front x back :
  List.filter p l = front ++ x :: back ->
  exists l1 l2, l = l1 ++ x :: l2 /\ List.filter p l1 = front /\ List.filter p l2 = back.
Proof.
  revert front. induction l as [|a l IH]; intros front; simpl.
  - destruct front; discriminate.
  - destruct (p a) eqn:Hp.
    + destruct front as [|f front]; simpl; intros [= -> H].
      * exists [], l. repeat split. exact H.
      * destruct (IH _ H) as (l1 & l2 & -> & H1 & H2).
        exists (f :: l1), l2. simpl. rewrite Hp, H1. repeat split. exact H2.
    + intros H. destruct (IH _ H) as (l1 & l2 & -> & H1 & H2).
      exists (a :: l1), l2. simpl. rewrite Hp. repeat split; assumption.
Qed.

Lemma Forall2_In_left {A B} (R : A -> B -> Prop) la lb a :
  Forall2 R la lb -> In a la -> exists b, In b lb /\ R a b.
Proof.
  induction 1 as [|x y la lb Hxy _ IH]; simpl; [tauto|].
  intros [<-|H]; [eauto|]. destruct (IH H) as (b & Hb & Hr). eauto.
Qed.

(** *** Eligibility *)

Lemma eligible_goals_ok all context ids el :
  eligible_goals all context ids = Ok el ->
  Forall2 (met_under all context) (List.filter (eligible_id all context) ids) el.
Proof.
  revert el. induction ids as [|i ids IH]; intros el; simpl.
  - intros [= <-]. constructor.
  - unfold eligible_id at 1.
    destruct (dict_get all i) as [g|] eqn:Hg; [|discriminate].
    destruct (_goal_conditions_met g context) as [met|e] eqn:Hm; [|discriminate].
    unfold rbind.
    destruct (eligible_goals all context ids) as [tail|e]; [|discriminate].
    destruct met; intros [= <-].
    + constructor; [now split|now apply IH].
    + now apply IH.
Qed.

(** The goals of a reachable registry never make the condition test raise
    on a context whose weight ratio is a number or is absent. *)
Lemma conditions_do_not_raise gm context goal_id g :
  wf gm ->
  as_num (ctx_get context "weight_ratio" (PyInt 0)) <> None ->
  dict_get (goals gm) goal_id = Some g ->
  exists met, _goal_conditions_met g context = Ok met.
Proof.
  intros [Hent _ _] Hw Hg.
  destruct (entries_key _ _ _ _ Hent Hg) as (_ & g0 & Hin & ->).
  destruct (as_num (ctx_get context "weight_ratio" (PyInt 0))) as [w|] eqn:Ew;
    [|congruence].
  unfold default_goals in Hin. simpl in Hin.
  repeat destruct Hin as [<-|Hin]; try contradiction;
    unfold _goal_conditions_met; cbn -[ctx_get py_ge]; eauto.
  unfold py_ge, py_order. rewrite Ew. cbn. eauto.
Qed.

Lemma eligible_goals_returns gm context ids :
  wf gm ->
  as_num (ctx_get context "weight_ratio" (PyInt 0)) <> None ->
  Forall (fun i => In i (active_goals gm)) ids ->
  exists el, eligible_goals (goals gm) context ids = Ok el.
Proof.
  intros Hwf Hw. induction 1 as [|i ids Hi _ IH]; simpl; [eauto|].
  apply (wf_active gm Hwf) in Hi. destruct Hi as (g & Hg & _). rewrite Hg.
  destruct (conditions_do_not_raise gm context i g Hwf Hw Hg) as (met & ->).
  destruct IH as (el & ->). simpl. eauto.
Qed.

(** C7, as stated, fails.  After the camp goal is enabled, the registry holds
    two eligible goals of priority 1; the camp goal was registered first, yet
    the exploration goal, enabled earlier, is the one selected. *)
Lemma tie_follows_activation_order :
  let gm := set_goal_enabled GoalManager__init__ "camp_maintenance" true in
  reachable gm /\
  option_map id (match get_highest_priority_goal gm ∅ with
                 | Ok r => r | Raise _ => None end) = Some "explore_and_map" /\
  (exists camp,
     eligible gm ∅ camp /\ id camp = "camp_maintenance" /\ priority camp = 1) /\
  (exists explore,
     eligible gm ∅ explore /\ id explore = "explore_and_map" /\ priority explore = 1) /\
  position "camp_maintenance" (map fst (goals gm)) = Some 6%nat /\
  position "explore_and_map" (map fst (goals gm)) = Some 7%nat /\
  active_goals gm = ["explore_and_map"; "camp_maintenance"].
Proof.
  intros gm. split; [apply reach_set, reach_init|].
  split; [vm_compute; reflexivity|].
  split; [|split].
  - exists (default (goal "" "" "" false 0 []) (dict_get (goals gm) "camp_maintenance")).
    repeat split; vm_compute; reflexivity.
  - exists (default (goal "" "" "" false 0 []) (dict_get (goals gm) "explore_and_map")).
    repeat split; vm_compute; reflexivity.
  - repeat split; vm_compute; reflexivity.
Qed.

(** The first-maximum reading of [max] in main_bot_enhanced. *)
Lemma max_by_priority_first best items :
  exists pre post,
    best :: items = pre ++ main_bot_enhanced.max_by_priority best items :: post /\
    Forall (fun x => main_bot_enhanced.priority x
                     < main_bot_enhanced.priority
                         (main_bot_enhanced.max_by_priority best items)) pre /\
    Forall (fun x => main_bot_enhanced.priority x
                     <= main_bot_enhanced.priority
                          (main_bot_enhanced.max_by_priority best items)) post.
Proof.
  revert best. induction items as [|x items IH]; intros best; simpl.
  - exists [], []. repeat split; constructor.
  - destruct (main_bot_enhanced.priority best <? main_bot_enhanced.priority x) eqn:Hlt.
    + apply Z.ltb_lt in Hlt. destruct (IH x) as (pre & post & E & Hpre & Hpost).
      exists (best :: pre), post. rewrite E. repeat split; [|exact Hpost].
      constructor; [|exact Hpre].
      assert (Hx : main_bot_enhanced.priority x
                   <= main_bot_enhanced.priority
                        (main_bot_enhanced.max_by_priority x items)).
      { assert (Hin : In x (pre ++ main_bot_enhanced.max_by_priority x items :: post))
          by (rewrite <- E; now left).
        apply in_app_or in Hin. rewrite List.Forall_forall in Hpre, Hpost.
        destruct Hin as [H|[H|H]];
          [apply Hpre in H; lia|rewrite H; lia|now apply Hpost]. }
      lia.
    + apply Z.ltb_ge in Hlt. destruct (IH best) as (pre & post & E & Hpre & Hpost).
      destruct pre as [|b pre]; simpl in E.
      * injection E as E1 E2. exists [], (x :: post). simpl.
        split; [congruence|]. split; [constructor|].
        constructor; [rewrite <- E1; exact Hlt|exact Hpost].
      * injection E as <- E2. exists (best :: x :: pre), post.
        split; [simpl; now rewrite <- E2|]. split; [|exact Hpost].
        inversion Hpre as [|? ? Hb Hpre']; subst.
        constructor; [exact Hb|]. constructor; [lia|exact Hpre'].
Qed.

(** C7, amended.  In every reachable state of the registry, on a context
    whose weight ratio is a number or absent, the selection returns; it
    returns no goal exactly when no goal is eligible; and the goal it returns
    is eligible, no eligible goal has a higher priority, and among the
    eligible goals of that priority it is the one that comes first in the
    list of active goals (the order in which the goals were last enabled).
    The registry of main_bot_enhanced selects the enabled goal of highest
    priority that comes first in the registry itself. *)
Theorem selection_is_first_highest_active gm context :
  reachable gm ->
  as_num (ctx_get context "weight_ratio" (PyInt 0)) <> None ->
  (exists r, get_highest_priority_goal gm context = Ok r) /\
  (get_highest_priority_goal gm context = Ok None ->
     forall g, ~ eligible gm context g) /\
  (forall g, get_highest_priority_goal gm context = Ok (Some g) ->
     eligible gm context g /\
     exists before after,
       active_goals gm = before ++ id g :: after /\
       (forall g', eligible gm context g' -> In (id g') before ->
                   priority g' < priority g) /\
       (forall g', eligible gm context g' -> In (id g') after ->
                   priority g' <= priority g)) /\
  (forall registry : list (string * main_bot_enhanced.AIGoal),
     (main_bot_enhanced.get_highest_priority_goal registry = None <->
        forall g, In g (map snd registry) -> main_bot_enhanced.enabled g = false) /\
     (forall g, main_bot_enhanced.get_highest_priority_goal registry = Some g ->
        main_bot_enhanced.enabled g = true /\
        exists before after,
          map snd registry = before ++ g :: after /\
          (forall g', In g' before -> main_bot_enhanced.enabled g' = true ->
                      main_bot_enhanced.priority g' < main_bot_enhanced.priority g) /\
          (forall g', In g' after -> main_bot_enhanced.enabled g' = true ->
                      main_bot_enhanced.priority g' <= main_bot_enhanced.priority g))).
Proof.
  intros Hreach Hw. pose proof (reachable_wf gm Hreach) as Hwf.
  destruct (eligible_goals_returns gm context (active_goals gm) Hwf Hw) as (el & Hel).
  { apply List.Forall_forall. auto. }
  pose proof (eligible_goals_ok _ _ _ _ Hel) as Hrel.
  assert (Hmem : forall g, eligible gm context g ->
                   forall ids, In (id g) ids ->
                     In (id g) (List.filter (eligible_id (goals gm) context) ids)).
  { intros g (Hg & _ & Hm) ids Hin. apply List.filter_In. split; [exact Hin|].
    unfold eligible_id. now rewrite Hg, Hm. }
  assert (Hact : forall g, eligible gm context g -> In (id g) (active_goals gm)).
  { intros g (Hg & He & _). apply (wf_active gm Hwf). eauto. }
  unfold get_highest_priority_goal. rewrite Hel. cbn [rbind].
  split; [|split; [|split]].
  - destruct el; eauto.
  - destruct el as [|x el'].
    2:{ intros H. exfalso. injection H as H.
        change (sort_desc (x :: el')) with (insert_desc x (sort_desc el')) in H.
        rewrite insert_desc_head in H.
        destruct (sort_desc el') as [|h t]; [discriminate|].
        destruct (priority x <? priority h); discriminate. }
    intros _ g Hg.
    inversion Hrel as [Hf|]; subst.
    pose proof (Hmem g Hg _ (Hact g Hg)) as Hin. rewrite <- Hf in Hin. exact Hin.
  - intros g Hsel.
    assert (Hhd : hd_error (sort_desc el) = Some g) by (destruct el; [discriminate|congruence]).
    destruct (sort_desc_head _ _ Hhd) as (pre & post & -> & Hpre & Hpost).
    apply List.Forall2_app_inv_r in Hrel as (front & rest & Hfront & Hrest & Hfilter).
    inversion Hrest as [|i g0 back post0 [Hgi Hgm] Hback]; subst.
    destruct (filter_split _ _ _ _ _ Hfilter) as (l1 & l2 & Hids & Hf1 & Hf2).
    destruct (entries_key _ _ _ _ (wf_entries gm Hwf) Hgi) as (Hid & _). subst i.
    assert (Hen : enabled g = true).
    { assert (In (id g) (active_goals gm)) as H by (rewrite Hids; apply in_elt).
      apply (wf_active gm Hwf) in H. destruct H as (g' & Hg' & He'). congruence. }
    split; [now repeat split|].
    exists l1, l2. split; [exact Hids|]. split.
    + intros g' Hg' Hin. pose proof (Hmem g' Hg' _ Hin) as Hin'. rewrite Hf1 in Hin'.
      destruct (Forall2_In_left _ _ _ _ Hfront Hin') as (b & Hb & Hb1 & _).
      destruct Hg' as (Hg' & _). rewrite Hg' in Hb1. injection Hb1 as <-.
      rewrite List.Forall_forall in Hpre. now apply Hpre.
    + intros g' Hg' Hin. pose proof (Hmem g' Hg' _ Hin) as Hin'. rewrite Hf2 in Hin'.
      destruct (Forall2_In_left _ _ _ _ Hback Hin') as (b & Hb & Hb1 & _).
      destruct Hg' as (Hg' & _). rewrite Hg' in Hb1. injection Hb1 as <-.
      rewrite List.Forall_forall in Hpost. now apply Hpost.
  - intros registry. unfold main_bot_enhanced.get_highest_priority_goal.
    destruct (List.filter main_bot_enhanced.enabled (map snd registry))
      as [|b items] eqn:Hf.
    + split.
      * split; [|reflexivity]. intros _ g Hin.
        destruct (main_bot_enhanced.enabled g) eqn:He; [|reflexivity].
        assert (In g []) as [] by (rewrite <- Hf; apply List.filter_In; now split).
      * discriminate.
    + split.
      * split; [discriminate|]. intros Hall.
        assert (Hb : In b (List.filter main_bot_enhanced.enabled (map snd registry)))
          by (rewrite Hf; now left).
        apply List.filter_In in Hb as [Hb He]. rewrite (Hall b Hb) in He. discriminate.
      * intros g [= <-].
        destruct (max_by_priority_first b items) as (pre & post & E & Hpre & Hpost).
        rewrite E in Hf.
        destruct (filter_split _ _ _ _ _ Hf) as (l1 & l2 & Hreg & Hf1 & Hf2).
        assert (Hg : In (main_bot_enhanced.max_by_priority b items)
                       (List.filter main_bot_enhanced.enabled (map snd registry)))
          by (rewrite Hf; apply in_elt).
        apply List.filter_In in Hg as [_ Hen].
        split; [exact Hen|]. exists l1, l2. split; [exact Hreg|]. split.
        -- intros g' Hin He. rewrite List.Forall_forall in Hpre. apply Hpre.
           rewrite <- Hf1. apply List.filter_In. now split.
        -- intros g' Hin He. rewrite List.Forall_forall in Hpost. apply Hpost.
           rewrite <- Hf2. apply List.filter_In. now split.
Qed.

Lemma selection_is_first_highest_active_witness :
  get_highest_priority_goal busy_registry heavy_at_water = Ok (Some inventory_goal) /\
  eligible busy_registry heavy_at_water inventory_goal.
Proof.
  assert (Hsel : get_highest_priority_goal busy_registry heavy_at_water
                 = Ok (Some inventory_goal)) by (vm_compute; reflexivity).
  split; [exact Hsel|].
  assert (Hreach : reachable busy_registry) by (repeat apply reach_set; apply reach_init).
  assert (Hw : as_num (ctx_get heavy_at_water "weight_ratio" (PyInt 0)) <> None)
    by (vm_compute; discriminate).
  exact (proj1 (proj1 (proj2 (proj2
           (selection_is_first_highest_active busy_registry heavy_at_water Hreach Hw)))
           inventory_goal Hsel)).
Defined.

(** *** The exploration goal *)

Lemma exploration_goal_registered gm :
  wf gm ->
  exists g, dict_get (goals gm) "explore_and_map" = Some g /\
            id g = "explore_and_map" /\ name g = "Exploration & Mapping".
Proof.
  intros [Hent _ _]. remember (goals gm) as all eqn:Hall. clear Hall.
  unfold default_goals in Hent.
  repeat match goal with
         | H : Forall2 _ _ (_ :: _) |- _ => inversion H; clear H; subst
         | H : Forall2 _ _ [] |- _ => inversion H; clear H; subst
         | H : entry_of ?kv _ |- _ => destruct kv; destruct H as [? ?]; simpl in *; subst
         end.
  eexists. split; [reflexivity|].
  match goal with
  | H : ?a = with_enabled _ (enabled ?a) |- id ?a = _ /\ _ => rewrite H
  end.
  split; reflexivity.
Qed.

(** What does hold of the exploration goal.  In every reachable state it is
    registered; and whenever the selection returns, the decision step has a
    goal: the selected one, or, when none is eligible, the exploration goal
    taken from the registry, enabled or not. *)
Lemma exploration_goal_is_the_fallback gm :
  reachable gm ->
  (exists g, dict_get (goals gm) "explore_and_map" = Some g /\
             id g = "explore_and_map" /\ name g = "Exploration & Mapping") /\
  (forall self, goal_manager self = gm ->
     (get_highest_priority_goal gm (current_context self) = Ok None ->
        exists g, current_goal_of self = Ok g /\
                  dict_get (goals gm) "explore_and_map" = Some g) /\
     (forall g, get_highest_priority_goal gm (current_context self) = Ok (Some g) ->
        current_goal_of self = Ok g) /\
     (forall r, get_highest_priority_goal gm (current_context self) = Ok r ->
        exists g, current_goal_of self = Ok g)).
Proof.
  intros Hreach. pose proof (reachable_wf gm Hreach) as Hwf.
  destruct (exploration_goal_registered gm Hwf) as (ex & Hex & Hid & Hname).
  split; [eauto|].
  intros self <-. unfold current_goal_of. repeat split.
  - intros ->. cbn [rbind]. rewrite Hex. eauto.
  - intros g ->. reflexivity.
  - intros [g|] ->; cbn [rbind]; [eauto|]. rewrite Hex. eauto.
Qed.

(** C8.  The source registers the exploration goal with the remark that it
    is always enabled, in both registries, but [set_goal_enabled] has no
    guard for it.  One call from the dashboard, through [set_goal_state],
    switches it off: the goal is then disabled, no goal is active, and the
    selection returns no goal.  The decision step of the companion still
    substitutes the exploration goal, taken from the registry although it is
    switched off; the registry of main_bot_enhanced has no such step and its
    selection returns None. *)
Theorem exploration_goal_can_be_disabled :
  let gm := set_goal_enabled GoalManager__init__ "explore_and_map" false in
  let self := set_goal_state companion_spec.fresh_companion "explore_and_map" false in
  let switched :=
    main_bot_enhanced.set_goal_enabled main_bot_enhanced.initial_goals
      "explore_and_map" false in
  reachable gm /\
  goal_manager self = gm /\
  explore_enabled GoalManager__init__ = true /\
  active_goals GoalManager__init__ = ["explore_and_map"] /\
  explore_enabled gm = false /\
  active_goals gm = [] /\
  get_highest_priority_goal gm ∅ = Ok None /\
  (exists g, current_goal_of self = Ok g /\
             dict_get (goals gm) "explore_and_map" = Some g /\ enabled g = false) /\
  main_bot_enhanced.get_active_goals main_bot_enhanced.initial_goals = ["explore_and_map"] /\
  fst switched = true /\
  main_bot_enhanced.get_active_goals (snd switched) = [] /\
  main_bot_enhanced.get_highest_priority_goal (snd switched) = None.
Proof.
  intros gm self switched. split; [apply reach_set, reach_init|].
  repeat split; try (vm_compute; reflexivity).
  eexists. repeat split; vm_compute; reflexivity.
Qed.

End goal_manager_facts.

(** ** The actuator: what reaches the device *)

Module actuator_facts.
Import input_emulator actuator_spec.

Lemma smooth_look_loop_rounds {D} truediv sleep n dx dy steps (duration : D) device :
  nap truediv sleep duration steps = Ok tt ->
  smooth_look_loop truediv sleep n dx dy steps duration device
  = (Ok tt, device ++ rounds n (dx / steps) (dy / steps)).
Proof.
  intros Hnap. revert device. induction n as [|n IH]; intros device; simpl.
  - now rewrite app_nil_r.
  - rewrite Hnap, IH. repeat rewrite <- app_assoc. reflexivity.
Qed.

Lemma smooth_look_loop_raises {D} truediv sleep n dx dy steps (duration : D) device e :
  nap truediv sleep duration steps = Raise e ->
  smooth_look_loop truediv sleep (S n) dx dy steps duration device
  = (Raise e, device ++ rounds 1 (dx / steps) (dy / steps)).
Proof.
  intros Hnap. simpl. rewrite Hnap. repeat rewrite <- app_assoc. reflexivity.
Qed.

Lemma nap_outcome {D} truediv sleep (duration : D) steps :
  nap truediv sleep duration steps = sleep_outcome truediv sleep duration steps.
Proof. reflexivity. Qed.

(** What [smooth_look] does, by the outcome of the sleep. *)
Lemma smooth_look_cases {D} truediv sleep device dx dy (duration : D) :
  smooth_look truediv sleep device dx dy duration
  = (sleep_outcome truediv sleep duration (steps_of dx dy),
     device ++ rounds (Z.to_nat (rounds_run truediv sleep duration (steps_of dx dy)))
                 (dx / steps_of dx dy) (dy / steps_of dx dy)).
Proof.
  unfold smooth_look, rounds_run. fold (steps_of dx dy). rewrite <- nap_outcome.
  destruct (nap truediv sleep duration (steps_of dx dy)) as [[]|e] eqn:Hnap.
  - now apply smooth_look_loop_rounds.
  - assert (Hs : exists n, Z.to_nat (steps_of dx dy) = S n).
    { exists (Z.to_nat (steps_of dx dy - 1)). unfold steps_of. lia. }
    destruct Hs as (n & ->). now apply smooth_look_loop_raises.
Qed.

Lemma net_app axis a b : net axis (a ++ b) = net axis a + net axis b.
Proof.
  induction a as [|[ev|code value] a IH]; simpl; [reflexivity|exact IH|].
  rewrite IH. lia.
Qed.

Lemma net_rounds_x n sx sy : net REL_X (rounds n sx sy) = Z.of_nat n * sx.
Proof. induction n as [|n IH]; [reflexivity|]. rewrite Nat2Z.inj_succ. cbn [rounds]. rewrite net_app, IH. simpl. lia. Qed.

Lemma net_rounds_y n sx sy : net REL_Y (rounds n sx sy) = Z.of_nat n * sy.
Proof. induction n as [|n IH]; [reflexivity|]. rewrite Nat2Z.inj_succ. cbn [rounds]. rewrite net_app, IH. simpl. lia. Qed.

Lemma steps_of_ge dx dy : 10 <= steps_of dx dy.
Proof. unfold steps_of. lia. Qed.

Lemma floor_steps_bounds d s : 0 < s -> d - s < s * (d / s) <= d.
Proof.
  intros Hs. pose proof (Z.mul_div_le d s Hs). pose proof (Z.mul_succ_div_gt d s Hs). lia.
Qed.

Lemma step_gentle dx dy : -6 <= dx / steps_of dx dy <= 5.
Proof.
  pose proof (steps_of_ge dx dy) as Hs.
  assert (Hb : Z.abs dx < 5 * steps_of dx dy + 5).
  { unfold steps_of.
    pose proof (Z.mul_succ_div_gt (Z.abs dx + Z.abs dy) 5 ltac:(lia)). lia. }
  split.
  - apply Z.div_le_lower_bound; lia.
  - assert (dx / steps_of dx dy < 6); [|lia].
    apply Z.div_lt_upper_bound; lia.
Qed.

Lemma step_gentle_y dx dy : -6 <= dy / steps_of dx dy <= 5.
Proof.
  pose proof (steps_of_ge dx dy) as Hs.
  assert (Hb : Z.abs dy < 5 * steps_of dx dy + 5).
  { unfold steps_of.
    pose proof (Z.mul_succ_div_gt (Z.abs dx + Z.abs dy) 5 ltac:(lia)). lia. }
  split.
  - apply Z.div_le_lower_bound; lia.
  - assert (dy / steps_of dx dy < 6); [|lia].
    apply Z.div_lt_upper_bound; lia.
Qed.

Lemma rounds_gentle n sx sy :
  -6 <= sx <= 5 -> -6 <= sy <= 5 -> Forall gentle (rounds n sx sy).
Proof.
  intros Hx Hy. induction n as [|n IH]; simpl; [constructor|].
  constructor; [exact Hx|]. constructor; [exact Hy|]. constructor; [exact I|exact IH].
Qed.

Lemma length_rounds n sx sy : List.length (rounds n sx sy) = (3 * n)%nat.
Proof. induction n as [|n IH]; simpl; [reflexivity|]. rewrite IH. lia. Qed.

(** X2. [smooth_look] splits a look into at least ten rounds, each a
    relative move on the X axis, one on the Y axis, a report and a sleep of
    the duration divided by the number of rounds.  When that sleep returns,
    all the rounds run: three calls per round, appended to what the device
    has received before.  When it raises (ValueError for a negative duration,
    TypeError for a duration that is no number), the method raises the same
    after the three calls of the first round.  No single move is large:
    whatever the offsets, every value written lies between -6 and 5. *)
Theorem smooth_look_takes_small_steps {D} truediv sleep device dx dy (duration : D) :
  let steps := steps_of dx dy in
  let outcome := sleep_outcome truediv sleep duration steps in
  exists written,
    smooth_look truediv sleep device dx dy duration = (outcome, device ++ written) /\
    (outcome = Ok tt ->
     written = rounds (Z.to_nat steps) (dx / steps) (dy / steps) /\
     Z.of_nat (List.length written) = 3 * steps) /\
    (forall e, outcome = Raise e ->
     written = [Rel REL_X (dx / steps); Rel REL_Y (dy / steps); Key Syn]) /\
    10 <= steps /\
    Forall gentle written.
Proof.
  intros steps outcome. subst steps outcome. eexists. split; [apply smooth_look_cases|].
  pose proof (steps_of_ge dx dy) as Hs. unfold rounds_run.
  split; [|split; [|split; [exact Hs|]]].
  - intros ->. split; [reflexivity|]. rewrite length_rounds. lia.
  - intros e ->. reflexivity.
  - apply rounds_gentle; [apply step_gentle|apply step_gentle_y].
Qed.

Lemma smooth_look_takes_small_steps_witness :
  smooth_look seconds_truediv seconds_sleep [] 7 (-3) (-1)%float
  = (Raise (ValueError "sleep length must be non-negative"),
     [Rel REL_X 0; Rel REL_Y (-1); Key Syn]) /\
  snd (smooth_look seconds_truediv seconds_sleep [] 7 (-3) 0.1%float)
  = rounds 10 0 (-1).
Proof.
  split.
  - destruct (smooth_look_takes_small_steps seconds_truediv seconds_sleep [] 7 (-3) (-1)%float)
      as (written & E & _ & Hraise & _).
    rewrite E, (Hraise (ValueError "sleep length must be non-negative") eq_refl).
    reflexivity.
  - destruct (smooth_look_takes_small_steps seconds_truediv seconds_sleep [] 7 (-3) 0.1%float)
      as (written & E & Hok & _).
    rewrite E. cbn [snd app]. exact (proj1 (Hok eq_refl)).
Defined.

(** X3. When the sleep of a round returns, the pointer moves on each axis by
    the number of rounds times the floor quotient of the offset by that
    number.  This is at most the offset asked for and misses it by less than
    the number of rounds, the remainder of the division being dropped: an
    offset from 0 to 9 moves nothing at all, an offset from -10 to -1 moves
    by minus the number of rounds, that is by 10 units or more.  When the
    sleep raises, the pointer has moved by one floor quotient only. *)
Theorem smooth_look_falls_short {D} truediv sleep dx dy (duration : D) :
  let steps := steps_of dx dy in
  let outcome := sleep_outcome truediv sleep duration steps in
  let moved_x := net REL_X (snd (smooth_look truediv sleep [] dx dy duration)) in
  let moved_y := net REL_Y (snd (smooth_look truediv sleep [] dx dy duration)) in
  (outcome = Ok tt ->
   moved_x = steps * (dx / steps) /\
   moved_y = steps * (dy / steps) /\
   dx - steps < moved_x <= dx /\
   dy - steps < moved_y <= dy /\
   (0 <= dx < 10 -> moved_x = 0) /\
   (-10 <= dx < 0 -> moved_x = - steps)) /\
  (forall e, outcome = Raise e ->
   moved_x = dx / steps /\ moved_y = dy / steps).
Proof.
  intros steps outcome moved_x moved_y. subst steps outcome moved_x moved_y.
  rewrite smooth_look_cases. cbn [snd app]. unfold rounds_run.
  rewrite net_rounds_x, net_rounds_y.
  pose proof (steps_of_ge dx dy) as Hs.
  split.
  - intros ->. rewrite Z2Nat.id by lia.
    pose proof (floor_steps_bounds dx (steps_of dx dy) ltac:(lia)).
    pose proof (floor_steps_bounds dy (steps_of dx dy) ltac:(lia)).
    repeat split; try lia.
    + intros Hd. rewrite Z.div_small by lia. lia.
    + intros Hd. assert (-1 = dx / steps_of dx dy) as <-; [|lia].
      apply Z.div_unique with (r := dx + steps_of dx dy); lia.
  - intros e ->. cbn. lia.
Qed.

Lemma smooth_look_falls_short_witness :
  net REL_X (snd (smooth_look seconds_truediv seconds_sleep [] (-3) 0 0.1%float)) = -10 /\
  net REL_X (snd (smooth_look seconds_truediv seconds_sleep [] (-3) 0 (-1)%float)) = -1.
Proof.
  split.
  - pose proof (smooth_look_falls_short seconds_truediv seconds_sleep (-3) 0 0.1%float) as H.
    cbv zeta in H. destruct (proj1 H eq_refl) as (_ & _ & _ & _ & _ & Hneg).
    exact (Hneg ltac:(lia)).
  - pose proof (smooth_look_falls_short seconds_truediv seconds_sleep (-3) 0 (-1)%float) as H.
    cbv zeta in H.
    exact (proj1 (proj2 H (ValueError "sleep length must be non-negative") eq_refl)).
Defined.

(** X1. As the module stands, [press] never writes to the device: for every
    action name, mapped or not, it returns False and leaves the device as it
    was.  The handler [except Exception as e] makes [e] a local name of the
    function, so the first [e.EV_KEY] of the [try] suite raises
    UnboundLocalError, which the handler swallows; the sleep is not
    reached. *)
Theorem press_never_reaches_the_device {D} sleep device action_name (duration : D) :
  press sleep device action_name duration = (false, device).
Proof.
  unfold press, press_frame.
  destruct (dict_get ACTION_TO_KEY (upper action_name)) as [key_code|]; reflexivity.
Qed.

Lemma release_keys_writes key_codes device :
  release_keys key_codes device
  = (Ok tt, device ++ map (fun key_code => Write EV_KEY key_code 0) key_codes).
Proof.
  revert device. induction key_codes as [|k rest IH]; intros device.
  - cbn. now rewrite app_nil_r.
  - cbn [release_keys]. unfold bind, try_pass, device_write.
    rewrite IH. cbn [map]. now rewrite <- app_assoc.
Qed.

Lemma emergency_stop_all_writes device :
  emergency_stop_all device
  = (Ok tt,
     device ++ map (fun key_code => Write EV_KEY key_code 0) (map snd ACTION_TO_KEY)
            ++ [Syn]).
Proof.
  unfold emergency_stop_all, bind. rewrite release_keys_writes.
  unfold device_syn. now rewrite <- app_assoc.
Qed.

(** X4. [emergency_stop_all] writes a key release (value 0) for every key
    of ACTION_TO_KEY, the two mouse buttons included, then one report.  It
    writes nothing else, twenty calls in all and never a key press, and
    keeps what the device has received before. *)
Theorem emergency_stop_releases_every_key device :
  exists written,
    emergency_stop_all device = (Ok tt, device ++ written) /\
    (forall action_name key_code,
       dict_get ACTION_TO_KEY action_name = Some key_code ->
       In (Write EV_KEY key_code 0) written) /\
    In (Write EV_KEY BTN_LEFT 0) written /\
    In (Write EV_KEY BTN_RIGHT 0) written /\
    Forall is_release written /\
    List.last written (Write EV_KEY KEY_W 1) = Syn /\
    List.length written = 20%nat.
Proof.
  eexists. split; [apply emergency_stop_all_writes|].
  split; [|split; [|split; [|split; [|split]]]].
  - intros action_name key_code. unfold ACTION_TO_KEY. cbn [dict_get].
    repeat match goal with
           | |- (if String.eqb ?a ?b then _ else _) = _ -> _ =>
               destruct (String.eqb a b);
               [intros [= <-]; cbn; tauto|]
           end.
    discriminate.
  - cbn. tauto.
  - cbn. tauto.
  - cbn. repeat constructor.
  - reflexivity.
  - reflexivity.
Qed.

End actuator_facts.

(** ** LocalBrain: the failure counter *)

Module breaker_facts.
Import local_llm_module local_llm_module_spec local_llm_module_facts.
Import breaker_spec extraction_spec.

(** X5. In every brain a program reaches from a new [LocalBrain] by calls
    of [get_plan], against any backend, and of [reset_failure_counter], the
    failure counter lies between 0 and the limit 2, the limit is still 2,
    and [get_stats] reports the counter. *)
Theorem failure_counter_stays_in_range json_loads self :
  reachable json_loads self ->
  0 <= consecutive_failures self <= 2 /\
  max_failures_before_fallback self = 2 /\
  dict_get (get_stats self) "consecutive_failures"
  = Some (JInt (consecutive_failures self)).
Proof.
  intros H. split; [|split; [|reflexivity]].
  - assert (0 <= consecutive_failures self <= 2 /\ max_failures_before_fallback self = 2)
      as [? _]; [|assumption].
    induction H as [url|self post prompt H [IH1 IH2]|self H [IH1 IH2]].
    + cbn. lia.
    + unfold get_plan. rewrite IH2.
      destruct (2 <=? consecutive_failures self) eqn:E; [cbn; lia|].
      apply Z.leb_gt in E.
      destruct (get_plan_try json_loads post self prompt); cbn; lia.
    + cbn. lia.
  - induction H as [url|self post prompt H IH|self H IH]; [reflexivity| |exact IH].
    unfold get_plan.
    destruct (max_failures_before_fallback self <=? consecutive_failures self);
      [exact IH|].
    destruct (get_plan_try json_loads post self prompt); exact IH.
Qed.

Lemma failure_counter_stays_in_range_witness :
  0 <= consecutive_failures
         (snd (get_plan Json.loads dead_backend (__init__ "http://deck:5001") "look")) <= 2.
Proof.
  exact (proj1 (failure_counter_stays_in_range Json.loads _
                  (reach_plan _ _ dead_backend "look" (reach_init _ "http://deck:5001")))).
Defined.

(** X6. Once the failure counter has reached the limit, [get_plan] does not
    depend on the backend any more: every later call, whatever the backend
    is by then, returns the smart fallback plan of its prompt and leaves the
    brain as it is.  The brain stays in this state until
    [reset_failure_counter] is called. *)
Theorem open_breaker_ignores_the_backend json_loads self calls :
  max_failures_before_fallback self <= consecutive_failures self ->
  session json_loads self calls
  = (map (fun call => _generate_smart_fallback_plan (snd call)) calls, self).
Proof.
  intros H. apply Z.leb_le in H.
  induction calls as [|[post prompt] rest IH]; [reflexivity|].
  cbn [session]. unfold get_plan. rewrite H. rewrite IH. reflexivity.
Qed.

Lemma open_breaker_ignores_the_backend_witness :
  session Json.loads tripped
    [(serve chatty_reply, "where am I"); (dead_backend, "a person ahead")]
  = ([_default_fallback_plan; _combat_fallback_plan], tripped).
Proof.
  refine (eq_trans
            (open_breaker_ignores_the_backend Json.loads tripped
               [(serve chatty_reply, "where am I"); (dead_backend, "a person ahead")] _) _).
  - cbn. lia.
  - reflexivity.
Defined.

Lemma plan_is_truthy v : is_plan v -> truthy v = true.
Proof.
  intros (d & -> & Ha & _). destruct d; [discriminate Ha|reflexivity].
Qed.

(** X7. After [reset_failure_counter] the brain asks the backend again,
    whatever its failure history: a reply whose text yields a plan is
    answered with that plan, the counter is 0, and [get_stats] says so. *)
Theorem reset_rearms_the_brain json_loads self prompt text plan :
  0 < max_failures_before_fallback self ->
  _extract_plan_from_response json_loads text = Ok plan ->
  get_plan json_loads (serve text) (reset_failure_counter self) prompt
  = (plan, reset_failure_counter self) /\
  dict_get (get_stats (reset_failure_counter self)) "consecutive_failures" = Some (JInt 0).
Proof.
  intros Hmax Hplan. split; [|reflexivity].
  unfold get_plan. cbn [reset_failure_counter set_consecutive_failures
                          max_failures_before_fallback consecutive_failures].
  destruct (max_failures_before_fallback self <=? 0) eqn:E; [apply Z.leb_le in E; lia|].
  unfold get_plan_try, serve, reply_with. cbn -[_extract_plan_from_response _build_qwen_prompt].
  rewrite Hplan. cbn -[_build_qwen_prompt].
  rewrite (plan_is_truthy plan) by (eapply extract_plan_is_plan; eassumption).
  reflexivity.
Qed.

Lemma reset_rearms_the_brain_witness :
  get_plan Json.loads (serve chatty_reply) (reset_failure_counter tripped) "where am I"
  = (JObj [("action", JStr "TAB"); ("duration", JFloat (Dec 1 0));
           ("reason", JStr "AI decision")],
     reset_failure_counter tripped).
Proof.
  refine (proj1 (reset_rearms_the_brain Json.loads tripped "where am I" chatty_reply _ _ _)).
  - cbn. lia.
  - vm_compute. reflexivity.
Defined.

(** X8. The model never sees the prompt of the caller:
    [_build_qwen_prompt] keeps of it only the outcome of four keyword tests.
    Two prompts of ASCII text that agree on these tests give the same
    situation line, the same enhanced prompt and, against the same backend,
    the same outcome of the request. *)
Theorem prompt_reaches_the_model_through_keywords_only p1 p2 :
  isascii p1 = true -> isascii p2 = true ->
  indicators p1 = indicators p2 ->
  _extract_situation_context p1 = _extract_situation_context p2 /\
  _build_qwen_prompt p1 = _build_qwen_prompt p2 /\
  (forall json_loads post self,
     get_plan_try json_loads post self p1 = get_plan_try json_loads post self p2).
Proof.
  intros _ _ H. unfold indicators in H. injection H as H1 H2 H3 H4.
  assert (E : _extract_situation_context p1 = _extract_situation_context p2).
  { unfold _extract_situation_context. rewrite H1, H2, H3, H4. reflexivity. }
  assert (E' : _build_qwen_prompt p1 = _build_qwen_prompt p2).
  { unfold _build_qwen_prompt. rewrite E. reflexivity. }
  repeat split; [exact E|exact E'|].
  intros json_loads post self. unfold get_plan_try. rewrite E'. reflexivity.
Qed.

Lemma prompt_reaches_the_model_through_keywords_only_witness :
  _build_qwen_prompt "CURRENT GOAL: Fishing Activities. SITUATION: health at 40%"
  = _build_qwen_prompt "CURRENT GOAL: Public Events. SITUATION: normal exploration".
Proof.
  refine (proj1 (proj2 (prompt_reaches_the_model_through_keywords_only
            "CURRENT GOAL: Fishing Activities. SITUATION: health at 40%"
            "CURRENT GOAL: Public Events. SITUATION: normal exploration" _ _ _)));
    vm_compute; reflexivity.
Defined.

End breaker_facts.

(** ** BigBrain: the errors of get_plan *)

Module big_brain_facts.
Import llm_module big_brain_spec regex_spec regex_facts.

(** X9. [BigBrain.get_plan] returns None when the request fails, when the
    body has no results entry, when the first result has no text entry, when
    the text holds no brace-delimited part, and when that part is not JSON;
    when it decodes, the decoded object is returned.  Whatever it returns
    besides None is a dict. *)
Theorem get_plan_is_none_on_error json_loads post self prompt :
  let reply := post (api_url self) (payload prompt) in
  let answer := get_plan json_loads post self prompt in
  (reply = Raise RequestException -> answer = Ok None) /\
  (forall body, reply = Ok (JObj body) -> dict_get body "results" = None ->
     answer = Ok None) /\
  (forall body first rest,
     reply = Ok (JObj body) ->
     dict_get body "results" = Some (JArr (JObj first :: rest)) ->
     (dict_get first "text" = None -> answer = Ok None) /\
     (forall text, dict_get first "text" = Some (JStr text) ->
        (first_to_last_brace text = None -> answer = Ok None) /\
        (forall json_string, first_to_last_brace text = Some json_string ->
           (json_loads json_string = Raise JSONDecodeError -> answer = Ok None) /\
           (forall plan, json_loads json_string = Ok plan ->
              answer = Ok (Some (JObj plan)))))) /\
  (forall v, answer = Ok (Some v) -> exists plan, v = JObj plan).
Proof.
  intros reply answer. subst reply answer. unfold get_plan.
  split; [|split; [|split]].
  - intros H. unfold get_plan_try. rewrite H. reflexivity.
  - intros body H Hres. unfold get_plan_try. rewrite H. cbn. rewrite Hres. reflexivity.
  - intros body first rest H Hres.
    assert (Htry : get_plan_try json_loads post self prompt
                   = rbind (json_getitem (JObj first) "text") (fun text =>
                     rbind (json_as_str text) (fun result_text =>
                     match first_to_last_brace result_text with
                     | None => Ok None
                     | Some json_string =>
                         rbind (json_loads json_string) (fun plan => Ok (Some (JObj plan)))
                     end))).
    { unfold get_plan_try. rewrite H. cbn [rbind json_getitem]. rewrite Hres.
      cbn [rbind json_first].
      change (json_getitem (JObj first) "text")
        with (match dict_get first "text" with
              | Some x => Ok x | None => Raise (KeyError "text") end).
      destruct (dict_get first "text") as [text|]; [|reflexivity].
      cbn [rbind]. destruct (json_as_str text) as [result_text|e]; [|reflexivity].
      cbn [rbind]. now rewrite greedy_is_first_to_last. }
    rewrite Htry. clear Htry.
    change (json_getitem (JObj first) "text")
      with (match dict_get first "text" with
            | Some x => Ok x | None => Raise (KeyError "text") end).
    split.
    + intros ->. reflexivity.
    + intros text ->. cbn [rbind json_as_str]. split.
      * intros ->. reflexivity.
      * intros json_string ->. split.
        -- intros ->. reflexivity.
        -- intros plan ->. reflexivity.
  - intros v. unfold get_plan_try.
    destruct (post (api_url self) (payload prompt)) as [body|e]; cbn.
    2:{ destruct e; discriminate. }
    destruct (json_getitem body "results") as [results|e]; cbn.
    2:{ destruct e; discriminate. }
    destruct (json_first results) as [first|e]; cbn.
    2:{ destruct e; discriminate. }
    destruct (json_getitem first "text") as [text|e]; cbn.
    2:{ destruct e; discriminate. }
    destruct (json_as_str text) as [result_text|e]; cbn.
    2:{ destruct e; discriminate. }
    destruct (re_search re_braces_greedy result_text) as [json_string|]; [|discriminate].
    destruct (json_loads json_string) as [plan|e]; cbn.
    2:{ destruct e; discriminate. }
    intros [= <-]. eauto.
Qed.

(** X10. An empty list of results is not among the errors that
    [BigBrain.get_plan] handles: the IndexError of taking the first result
    leaves the method. *)
Theorem get_plan_raises_on_empty_results json_loads post self prompt body :
  post (api_url self) (payload prompt) = Ok (JObj body) ->
  dict_get body "results" = Some (JArr []) ->
  get_plan json_loads post self prompt = Raise IndexError.
Proof.
  intros H1 H2. unfold get_plan, get_plan_try. rewrite H1. cbn. rewrite H2. reflexivity.
Qed.

Lemma get_plan_raises_on_empty_results_witness :
  get_plan Json.loads empty_results (__init__ "http://deck:5001/api/v1/generate") "plan?"
  = Raise IndexError.
Proof.
  exact (get_plan_raises_on_empty_results Json.loads empty_results
           (__init__ "http://deck:5001/api/v1/generate") "plan?"
           [("results", JArr [])] eq_refl eq_refl).
Defined.

End big_brain_facts.

(** ** LightweightBrain: runs of requests *)

Module lightweight_session_facts.
Import local_llm_lightweight local_llm_lightweight_spec lightweight_session_spec.
Import Py_facts.

Lemma quick_decision_tagged self key :
  quick_decisions self = quick_decisions_table ->
  dict_mem quick_decisions_table key = true ->
  exists d, get_quick_decision self key = Ok (JObj d) /\
            dict_get d "source" = Some (JStr "template").
Proof.
  intros Ht Hk. unfold get_quick_decision. rewrite Ht.
  unfold dict_mem in Hk. destruct (dict_get quick_decisions_table key) as [entry|];
    [|discriminate].
  eexists. split; [reflexivity|]. apply dict_get_set_same.
Qed.

(** X11. With the table of templates in place,
    [LightweightBrain.get_plan] always returns a dict, and the dict names
    its source: template or lightweight_ai. *)
Theorem every_answer_names_its_source json_loads post self prompt :
  quick_decisions self = quick_decisions_table ->
  exists d source,
    fst (fst (get_plan json_loads post self prompt)) = Ok (JObj d) /\
    dict_get d "source" = Some (JStr source) /\
    (source = "template" \/ source = "lightweight_ai").
Proof.
  intros Ht.
  assert (Hq : forall key s, dict_mem quick_decisions_table key = true ->
             quick_decisions s = quick_decisions_table ->
             exists d source, get_quick_decision s key = Ok (JObj d) /\
               dict_get d "source" = Some (JStr source) /\
               (source = "template" \/ source = "lightweight_ai")).
  { intros key s Hk Hs. destruct (quick_decision_tagged s key Hs Hk) as (d & Hd & Hs').
    exists d, "template". auto. }
  unfold get_plan.
  repeat match goal with
         | |- context [if ?c then _ else _] => destruct c; [apply Hq; [reflexivity|exact Ht]|]
         end.
  destruct (get_plan_try json_loads post self prompt) as [[plan|]|e] eqn:Htry; cbn [fst].
  - unfold get_plan_try, rbind in Htry.
    destruct (post _ _) as [body|]; [|discriminate].
    destruct (json_get body "response" (JStr "")) as [text|]; [|discriminate].
    destruct (json_as_str text) as [result_text|]; [|discriminate].
    destruct (re_search re_braces_greedy result_text) as [json_str|]; [|discriminate].
    destruct (json_loads json_str) as [p|]; [|discriminate].
    injection Htry as <-. eexists _, "lightweight_ai".
    split; [reflexivity|]. split; [apply dict_get_set_same|now right].
  - apply Hq; [reflexivity|exact Ht].
  - apply Hq; [reflexivity|exact Ht].
Qed.

Lemma every_answer_names_its_source_witness :
  exists d source,
    fst (fst (get_plan Json.loads chatty (__init__ "qwen2:0.5b") "what now")) = Ok (JObj d) /\
    dict_get d "source" = Some (JStr source) /\
    (source = "template" \/ source = "lightweight_ai").
Proof.
  exact (every_answer_names_its_source Json.loads chatty (__init__ "qwen2:0.5b")
           "what now" eq_refl).
Defined.

Lemma plain_get_plan json_loads post self prompt :
  plain prompt = true ->
  get_plan json_loads post self prompt
  = if max_failures_before_fallback self <=? consecutive_failures self then
      (get_quick_decision self "exploring", self, [])
    else
      match get_plan_try json_loads post self prompt with
      | Ok (Some plan) => (Ok plan, set_consecutive_failures self 0, [request self prompt])
      | Ok None => (get_quick_decision self "exploring", self, [request self prompt])
      | Raise _ =>
          let self := set_consecutive_failures self (consecutive_failures self + 1) in
          (get_quick_decision self "exploring", self, [request self prompt])
      end.
Proof.
  unfold plain, get_plan. intros H.
  repeat (apply andb_prop in H as [H ?]).
  repeat match goal with
         | H : negb ?c = true |- _ => apply negb_true_iff in H; rewrite H; clear H
         end.
  reflexivity.
Qed.

(** X12. A new [LightweightBrain] gives up on the model after one failed
    request.  In a run of ASCII prompts that no template answers, against a
    backend whose requests all fail, only the first prompt is sent and every
    prompt is answered with the exploring template; from then on [get_plan]
    sends nothing, to whatever backend (the class has no reset). *)
Theorem one_error_ends_the_use_of_the_model json_loads post model_name prompt prompts :
  (forall url body, exists e, post url body = Raise e) ->
  plain prompt = true ->
  Forall (fun p => plain p = true) prompts ->
  let self := __init__ model_name in
  let tired := set_consecutive_failures self 1 in
  session json_loads post self (prompt :: prompts)
  = (map (fun _ => Ok (canned "FORWARD" (Dec 2 0) "continue_exploration"))
       (prompt :: prompts),
     tired, [request self prompt]) /\
  (forall post' prompt', plain prompt' = true ->
     get_plan json_loads post' tired prompt'
     = (Ok (canned "FORWARD" (Dec 2 0) "continue_exploration"), tired, [])).
Proof.
  intros Hfail Hp Hps self tired.
  assert (Htired : forall post' prompt', plain prompt' = true ->
            get_plan json_loads post' tired prompt'
            = (Ok (canned "FORWARD" (Dec 2 0) "continue_exploration"), tired, [])).
  { intros post' prompt' H. rewrite plain_get_plan by exact H. reflexivity. }
  split; [|exact Htired].
  cbn [session]. rewrite plain_get_plan by exact Hp.
  change (max_failures_before_fallback self <=? consecutive_failures self) with false.
  cbv iota. unfold get_plan_try.
  destruct (Hfail (api_url_generate self) (payload self prompt)) as [e ->].
  cbn [rbind].
  change (set_consecutive_failures self (consecutive_failures self + 1)) with tired.
  assert (Hrest : session json_loads post tired prompts
                  = (map (fun _ => Ok (canned "FORWARD" (Dec 2 0) "continue_exploration"))
                       prompts, tired, [])).
  { induction Hps as [|p ps Hp' _ IH]; [reflexivity|].
    cbn [session]. rewrite Htired by exact Hp'. rewrite IH. reflexivity. }
  cbv zeta. rewrite Hrest. reflexivity.
Qed.

Lemma one_error_ends_the_use_of_the_model_witness :
  session Json.loads broken (__init__ "qwen2:0.5b") ["what now"; "and now"]
  = ([Ok (canned "FORWARD" (Dec 2 0) "continue_exploration");
      Ok (canned "FORWARD" (Dec 2 0) "continue_exploration")],
     set_consecutive_failures (__init__ "qwen2:0.5b") 1,
     [request (__init__ "qwen2:0.5b") "what now"]).
Proof.
  refine (proj1 (one_error_ends_the_use_of_the_model Json.loads broken "qwen2:0.5b"
                   "what now" ["and now"] _ _ _)).
  - intros url body. exists RequestException. reflexivity.
  - reflexivity.
  - repeat constructor.
Defined.

(** X13. A reply that holds no brace-delimited text is not counted as a
    failure: on ASCII prompts that no template answers, the brain answers
    with the exploring template, keeps its counter, and sends the next
    prompt to the model again. *)
Theorem reply_without_json_is_not_a_failure json_loads post self prompts :
  quick_decisions self = quick_decisions_table ->
  consecutive_failures self < max_failures_before_fallback self ->
  (forall url request, exists body text,
     post url request = Ok (JObj body) /\
     dict_get_default body "response" (JStr "") = JStr text /\
     re_search re_braces_greedy text = None) ->
  Forall (fun p => plain p = true) prompts ->
  session json_loads post self prompts
  = (map (fun _ => Ok (canned "FORWARD" (Dec 2 0) "continue_exploration")) prompts,
     self, map (request self) prompts).
Proof.
  intros Ht Hcf Hpost Hps.
  induction Hps as [|p ps Hp _ IH]; [reflexivity|].
  cbn [session]. rewrite plain_get_plan by exact Hp.
  destruct (max_failures_before_fallback self <=? consecutive_failures self) eqn:E;
    [apply Z.leb_le in E; lia|].
  unfold get_plan_try.
  destruct (Hpost (api_url_generate self) (payload self p)) as (body & text & -> & Hb & Hno).
  cbn [rbind json_get]. rewrite Hb. cbn [rbind json_as_str]. rewrite Hno.
  rewrite IH. unfold get_quick_decision. rewrite Ht. reflexivity.
Qed.

Lemma reply_without_json_is_not_a_failure_witness :
  session Json.loads chatty (__init__ "qwen2:0.5b") ["what now"; "and now"]
  = ([Ok (canned "FORWARD" (Dec 2 0) "continue_exploration");
      Ok (canned "FORWARD" (Dec 2 0) "continue_exploration")],
     __init__ "qwen2:0.5b",
     [request (__init__ "qwen2:0.5b") "what now"; request (__init__ "qwen2:0.5b") "and now"]).
Proof.
  refine (reply_without_json_is_not_a_failure Json.loads chatty (__init__ "qwen2:0.5b")
            ["what now"; "and now"] eq_refl _ _ _).
  - cbn. lia.
  - intros url request. eexists _, _. split; [reflexivity|]. split; reflexivity.
  - repeat constructor.
Defined.

End lightweight_session_facts.

(** ** main_bot_enhanced: the decision cycle *)

Module enhanced_bot_facts.
Import main_bot_enhanced.
Import IntelligentFallout76AI.
Import main_bot_enhanced_spec enhanced_bot_spec.
Import local_llm_module_spec local_llm_module_facts Py_facts.

Section Runtime.
Variable py_format : pyval -> string.
Variable json_format : json -> string.
Variable py_eq : json -> json -> bool.
Variable json_loads : string -> result (list (string * json)).
Variable post : string -> json -> result json.


Lemma log_decision_fields self tier d :
  let self' := _log_decision json_format py_eq self tier d in
  brain self' = brain self /\ goals self' = goals self /\
  shared_goals self' = shared_goals self /\
  reflex_decisions (stats self') = reflex_decisions (stats self) /\
  strategic_decisions (stats self') = strategic_decisions (stats self) /\
  local_decisions (stats self') = local_decisions (stats self) /\
  last_strategic_think (stats self') = last_strategic_think (stats self) /\
  (List.length (log self') <= Nat.max 20 (List.length (log self)))%nat.
Proof.
  unfold _log_decision. cbv zeta.
  destruct (String.eqb tier "STRATEGIC" || negb (py_eq _ _)).
  - cbn [brain goals shared_goals stats log with_stats].
    repeat split.
    match goal with |- context [firstn 20 ?l] => set (l' := l) end.
    destruct (20 <? Z.of_nat (List.length l')) eqn:E.
    + rewrite List.length_firstn. lia.
    + apply Z.ltb_ge in E. subst l'. cbn [List.length] in *. lia.
  - cbn [brain goals shared_goals stats log with_stats set_current_action
         reflex_decisions strategic_decisions local_decisions last_strategic_think].
    repeat split. lia.
Qed.

Lemma finish_ok self tier_name tier_label v count r self' :
  finish json_format py_eq self tier_name tier_label v count = (r, self') ->
  is_plan v ->
  exists d, r = Ok (JObj d) /\ dict_get d "tier" = Some (JStr tier_name) /\
            is_plan (JObj d) /\
            self' = _log_decision json_format py_eq (with_stats self (count (stats self))) tier_label d.
Proof.
  intros H (d & -> & Ha & Hd & Hr). cbn in H. injection H as <- <-.
  eexists. split; [reflexivity|]. split; [apply dict_get_set_same|]. split; [|reflexivity].
  eexists. split; [reflexivity|]. repeat split; now apply dict_mem_set_keeps.
Qed.


Lemma reflex_is_plan action duration reason : is_plan (reflex action duration reason).
Proof. eexists. split; [reflexivity|]. repeat split. Qed.

Lemma instant_response_cases game_state active_goals r :
  check_instant_response game_state active_goals = Ok (Some r) ->
  r = retreat \/ r = engage \/ r = collect \/
  (r = explore /\ str_in_list "explore" active_goals = true).
Proof.
  unfold check_instant_response, rbind, and_then.
  destruct (has_enemy_of game_state) as [has_enemy|]; [|discriminate].
  destruct (if has_enemy then py_lt _ _ else Ok false) as [[|]|]; try discriminate.
  { intros [= <-]. now left. }
  destruct (if has_enemy then py_gt _ _ else Ok false) as [[|]|]; try discriminate.
  { intros [= <-]. right. now left. }
  destruct (has_loot_of game_state) as [has_loot|]; [|discriminate].
  destruct (has_loot && negb has_enemy && str_in_list "manage_inventory" active_goals).
  { intros [= <-]. right. right. now left. }
  destruct (str_in_list "explore" active_goals) eqn:E; cbn; [|discriminate].
  destruct (negb has_enemy); [|discriminate].
  intros [= <-]. right. right. right. now split.
Qed.

Lemma instant_response_is_plan game_state active_goals r :
  check_instant_response game_state active_goals = Ok (Some r) -> is_plan r.
Proof.
  intros H. apply instant_response_cases in H.
  destruct H as [->|[->|[->|[-> _]]]]; apply reflex_is_plan.
Qed.

Lemma simple_local_is_plan game_state active_goals :
  is_plan (_simple_local_decision game_state active_goals).
Proof.
  unfold _simple_local_decision.
  destruct (str_in_list "fishing" active_goals); [apply reflex_is_plan|].
  destruct (py_truthy _); apply reflex_is_plan.
Qed.

Lemma strategic_decision_cases brain game_state current_goal r brain' :
  _strategic_decision py_format json_loads post brain game_state current_goal
  = (r, brain') ->
  (exists e g, r = Raise e /\ brain' = brain /\ current_goal = Some g /\
     _build_situation_context py_format game_state g = Raise e) \/
  (r = Ok None /\ current_goal = None /\ brain' = brain) \/
  (exists g desc,
     current_goal = Some g /\
     _build_situation_context py_format game_state g = Ok desc /\
     r = Ok (Some (fst (local_llm_module.get_plan json_loads post brain
                          (strategic_prompt g desc)))) /\
     brain' = snd (local_llm_module.get_plan json_loads post brain
                     (strategic_prompt g desc))).
Proof.
  unfold _strategic_decision. destruct current_goal as [g|].
  2:{ intros [= <- <-]. right. left. auto. }
  destruct (_build_situation_context py_format game_state g) as [desc|e] eqn:Hb.
  2:{ intros [= <- <-]. left. exists e, g. auto. }
  pose proof (get_plan_is_plan json_loads post brain (strategic_prompt g desc)) as Hp.
  destruct (local_llm_module.get_plan json_loads post brain (strategic_prompt g desc))
    as [decision b] eqn:E.
  cbn [fst snd] in *. destruct Hp as (d & -> & Ha & Hd & Hr).
  assert (Ht : truthy (JObj d) = true) by (destruct d; [discriminate Ha|reflexivity]).
  rewrite Ht. cbn [json_in rbind].
  destruct (dict_mem d "learning_note") eqn:Hn.
  - unfold json_getitem. unfold dict_mem in Hn.
    destruct (dict_get d "learning_note"); [|discriminate Hn].
    cbn [rbind]. intros [= <- <-]. right. right. exists g, desc. rewrite E. auto.
  - cbn [rbind]. intros [= <- <-]. right. right. exists g, desc. rewrite E. auto.
Qed.

Lemma with_brain_same self : with_brain self (brain self) = self.
Proof. now destruct self. Qed.

Lemma counted_sum tier self self' :
  tier = "REFLEX" \/ tier = "STRATEGIC" \/ tier = "LOCAL" ->
  counters self' = counted tier (counters self) ->
  decisions_counted self' = decisions_counted self + 1.
Proof.
  unfold counters, decisions_counted.
  intros [-> | [-> | ->]]; cbn; intros [= -> -> ->]; lia.
Qed.

(** What a cycle does, tier by tier. *)
Lemma decide_cases self game_state now r self' :
  make_intelligent_decision py_format json_format py_eq json_loads post
    self game_state now = (r, self') ->
  (exists e, r = Raise e /\ self' = self) \/
  (exists d tier,
     r = Ok (JObj d) /\ is_plan (JObj d) /\
     dict_get d "tier" = Some (JStr tier) /\
     (tier = "REFLEX" \/ tier = "STRATEGIC" \/ tier = "LOCAL") /\
     decisions_counted self' = decisions_counted self + 1 /\
     goals self' = goals self /\
     shared_goals self' = shared_goals self /\
     (List.length (log self') <= Nat.max 20 (List.length (log self)))%nat /\
     counters self' = counted tier (counters self)).
Proof.
  unfold make_intelligent_decision.
  destruct (check_instant_response game_state (get_active_goals (goals self)))
    as [reflex_response|e] eqn:Hreflex.
  2:{ intros [= <- <-]. left. eauto. }
  assert (Hfin : forall s tier_name tier_label v count,
            is_plan v ->
            goals s = goals self -> shared_goals s = shared_goals self ->
            log s = log self ->
            (tier_name = "REFLEX" \/ tier_name = "STRATEGIC" \/ tier_name = "LOCAL") ->
            (reflex_decisions (count (stats s)), strategic_decisions (count (stats s)),
             local_decisions (count (stats s))) = counted tier_name (counters self) ->
            finish json_format py_eq s tier_name tier_label v count = (r, self') ->
            exists d tier,
              r = Ok (JObj d) /\ is_plan (JObj d) /\
              dict_get d "tier" = Some (JStr tier) /\
              (tier = "REFLEX" \/ tier = "STRATEGIC" \/ tier = "LOCAL") /\
              decisions_counted self' = decisions_counted self + 1 /\
              goals self' = goals self /\
              shared_goals self' = shared_goals self /\
              (List.length (log self') <= Nat.max 20 (List.length (log self)))%nat /\
              counters self' = counted tier (counters self)).
  { intros s tier_name tier_label v count Hv Hg Hsg Hlog Htier Hcount Hf.
    destruct (finish_ok _ _ _ _ _ _ _ Hf Hv) as (d & -> & Hd & Hp & ->).
    exists d, tier_name.
    pose proof (log_decision_fields (with_stats s (count (stats s))) tier_label d) as Hl.
    cbv zeta in Hl. destruct Hl as (_ & Hg' & Hsg' & Hr' & Hs' & Hl' & _ & Hlen).
    assert (Hc : counters (_log_decision json_format py_eq
                             (with_stats s (count (stats s))) tier_label d)
                 = counted tier_name (counters self)).
    { unfold counters at 1. rewrite Hr', Hs', Hl'. exact Hcount. }
    pose proof (counted_sum _ _ _ Htier Hc) as Hsum.
    rewrite Hg', Hsg'.
    cbn [with_stats stats goals shared_goals log] in *.
    rewrite <- Hlog. repeat split; auto. }
  destruct (if_truthy reflex_response) as [r0|] eqn:Htruthy.
  { intros Hf. right.
    assert (Hr0 : is_plan r0).
    { unfold if_truthy in Htruthy. destruct reflex_response as [r1|]; [|discriminate].
      destruct (truthy r1); [|discriminate]. injection Htruthy as <-.
      eapply instant_response_is_plan; eassumption. }
    eapply (Hfin self); try eassumption; try reflexivity. now left. }
  destruct (needs_strategic self game_state _ now) as [needed|e].
  2:{ intros [= <- <-]. left. eauto. }
  assert (Hlocal : forall s,
            goals s = goals self -> shared_goals s = shared_goals self ->
            log s = log self -> stats s = stats self ->
            finish json_format py_eq s "LOCAL" tier_local
              (_simple_local_decision game_state (get_active_goals (goals self)))
              (fun st => set_local_decisions st (local_decisions st + 1)) = (r, self') ->
            exists d tier,
              r = Ok (JObj d) /\ is_plan (JObj d) /\
              dict_get d "tier" = Some (JStr tier) /\
              (tier = "REFLEX" \/ tier = "STRATEGIC" \/ tier = "LOCAL") /\
              decisions_counted self' = decisions_counted self + 1 /\
              goals self' = goals self /\
              shared_goals self' = shared_goals self /\
              (List.length (log self') <= Nat.max 20 (List.length (log self)))%nat /\
              counters self' = counted tier (counters self)).
  { intros s Hg Hsg Hlog Hst Hf.
    eapply (Hfin s); try eassumption; [apply simple_local_is_plan|auto|].
    rewrite Hst. reflexivity. }
  destruct needed.
  2:{ intros Hf. right. now apply (Hlocal self). }
  destruct (_strategic_decision py_format json_loads post (brain self) game_state _)
    as [sr brain'] eqn:Hs.
  apply strategic_decision_cases in Hs.
  destruct Hs as [(e & g & -> & -> & _)|[(-> & _ & ->)|(g & desc & _ & _ & -> & ->)]].
  - intros [= <- <-]. left. exists e. split; [reflexivity|apply with_brain_same].
  - intros Hf. right. now apply (Hlocal (with_brain self (brain self))).
  - intros Hf. right.
    eapply (Hfin (with_brain self _)); try exact Hf; try reflexivity.
    + apply get_plan_is_plan.
    + right. now left.
Qed.


Lemma finish_returns self tier_name tier_label v count :
  is_plan v ->
  exists r self', finish json_format py_eq self tier_name tier_label v count = (Ok r, self').
Proof. intros (d & -> & _). cbn. eauto. Qed.

Lemma labelled_label obj :
  labelled obj ->
  exists d label, obj = PyDict d /\
    dict_get_default d "label" (PyStr "") = PyStr label /\
    exists label', dict_get_default d "label" (PyStr "unknown") = PyStr label'.
Proof.
  intros (d & -> & [H|(label & H)]); exists d; unfold dict_get_default; rewrite H; eauto.
Qed.

Lemma any_label_returns word objs :
  Forall labelled objs -> exists b, any_label word objs = Ok b.
Proof.
  induction 1 as [|obj objs Hobj _ IH]; cbn; [eauto|].
  destruct (labelled_label obj Hobj) as (d & label & -> & -> & _).
  destruct (contains word (lower label)); eauto.
Qed.

Lemma threats_of_returns objs :
  Forall labelled objs -> exists threats, threats_of objs = Ok threats.
Proof.
  induction 1 as [|obj objs Hobj _ IH]; cbn; [eauto|].
  destruct (labelled_label obj Hobj) as (d & label & -> & -> & _).
  destruct IH as (tail & ->). cbn. eauto.
Qed.

Lemma labels_of_returns objs :
  Forall labelled objs ->
  exists labels, rbind (labels_of objs) py_strings = Ok labels.
Proof.
  induction 1 as [|obj objs Hobj _ IH]; cbn; [eauto|].
  destruct (labelled_label obj Hobj) as (d & label & -> & _ & label' & Hl).
  destruct (labels_of objs) as [tail|]; cbn in *; [|destruct IH; discriminate].
  rewrite Hl. cbn. destruct IH as (labels & ->). cbn. eauto.
Qed.

Lemma py_lt_returns health n :
  as_num health <> None -> exists b, py_lt health (PyInt n) = Ok b.
Proof.
  unfold py_lt, py_order. destruct (as_num health); [|congruence]. cbn. eauto.
Qed.

Lemma py_gt_returns health n :
  as_num health <> None -> exists b, py_gt health (PyInt n) = Ok b.
Proof.
  unfold py_gt, py_order. destruct (as_num health); [|congruence]. cbn. eauto.
Qed.

Lemma tidy_instant_response game_state active_goals :
  tidy game_state -> exists r, check_instant_response game_state active_goals = Ok r.
Proof.
  intros [(objs & Hobjs & Hall) Hh].
  unfold check_instant_response, has_enemy_of, has_loot_of. rewrite Hobjs. cbn [py_iter rbind].
  destruct (any_label_returns "person" objs Hall) as (has_enemy & ->).
  destruct (any_label_returns "container" objs Hall) as (has_loot & ->).
  destruct (py_lt_returns _ 30 Hh) as (lt & Hlt).
  destruct (py_gt_returns _ 60 Hh) as (gt & Hgt).
  cbn [rbind]. unfold and_then. rewrite Hlt, Hgt.
  destruct has_enemy; cbn [rbind].
  - destruct lt; [cbn; eauto|]. destruct gt; cbn; eauto.
    destruct (has_loot && _ && _); cbn; eauto.
    destruct (_ && _); cbn; eauto.
  - destruct (has_loot && _ && _); cbn; eauto.
    destruct (_ && _); cbn; eauto.
Qed.

Lemma tidy_situation_is_complex game_state :
  tidy game_state -> exists b, _situation_is_complex game_state = Ok b.
Proof.
  intros [(objs & Hobjs & Hall) Hh].
  unfold _situation_is_complex. rewrite Hobjs. cbn [py_len py_iter rbind].
  destruct (3 <? _); [eauto|].
  destruct (threats_of_returns objs Hall) as (threats & ->). cbn [rbind].
  destruct (1 <? _); [eauto|].
  destruct (py_lt_returns _ 50 Hh) as (lt & ->). cbn [rbind].
  destruct (lt && _); eauto.
Qed.

Lemma tidy_situation_context game_state g :
  tidy game_state -> exists desc, _build_situation_context py_format game_state g = Ok desc.
Proof.
  intros [(objs & Hobjs & Hall) Hh].
  unfold _build_situation_context. rewrite Hobjs.
  destruct (py_lt_returns _ 70 Hh) as (lt & Hlt).
  destruct (py_truthy (PyList objs)).
  - cbn [py_len py_slice rbind].
    assert (H3 : Forall labelled (firstn 3 objs)).
    { now apply Forall_take. }
    destruct (labels_of_returns _ H3) as (labels & Hl). unfold rbind in Hl.
    destruct (labels_of (firstn 3 objs)) as [ls|]; [|discriminate].
    cbn [rbind]. rewrite Hl. cbn [rbind]. rewrite Hlt. cbn [rbind]. eauto.
  - cbn [rbind]. rewrite Hlt. cbn [rbind]. eauto.
Qed.

(** X15. On a scene as the vision module reports it (a list of objects,
    each a dict whose label, if it has one, is a string; a health that is a
    number) the cycle returns a decision, whatever the formatting, the
    decoder, the backend and the state of the bot are. *)
Theorem tidy_scene_gets_a_decision self game_state now :
  tidy game_state ->
  exists v self',
    make_intelligent_decision py_format json_format py_eq json_loads post
      self game_state now = (Ok v, self').
Proof.
  intros Ht. unfold make_intelligent_decision.
  destruct (tidy_instant_response game_state (get_active_goals (goals self)) Ht)
    as (rr & Hrr).
  rewrite Hrr.
  destruct (if_truthy rr) as [r0|] eqn:Htruthy.
  { apply finish_returns.
    unfold if_truthy in Htruthy. destruct rr as [r1|]; [|discriminate].
    destruct (truthy r1); [|discriminate]. injection Htruthy as <-.
    eapply instant_response_is_plan; eassumption. }
  unfold needs_strategic.
  destruct (tidy_situation_is_complex game_state Ht) as (c & ->). cbn [rbind].
  assert (Hlocal : forall s, exists v self',
            finish json_format py_eq s "LOCAL" tier_local
              (_simple_local_decision game_state (get_active_goals (goals self)))
              (fun st => set_local_decisions st (local_decisions st + 1)) = (Ok v, self'))
    by (intros s; apply finish_returns, simple_local_is_plan).
  assert (Hstrat : exists v self',
            match _strategic_decision py_format json_loads post (brain self) game_state
                    (get_highest_priority_goal (goals self)) with
            | (Raise e, brain') => (Raise e, with_brain self brain')
            | (Ok strategic_response, brain') =>
                match strategic_response with
                | Some r =>
                    finish json_format py_eq (with_brain self brain') "STRATEGIC"
                      tier_strategic r
                      (fun st =>
                         set_last_strategic_think
                           (set_strategic_decisions st (strategic_decisions st + 1)) now)
                | None =>
                    finish json_format py_eq (with_brain self brain') "LOCAL" tier_local
                      (_simple_local_decision game_state (get_active_goals (goals self)))
                      (fun st => set_local_decisions st (local_decisions st + 1))
                end
            end = (Ok v, self')).
  { destruct (_strategic_decision py_format json_loads post (brain self) game_state _)
      as [sr brain'] eqn:Hs.
    apply strategic_decision_cases in Hs.
    destruct Hs as [(e & g & -> & -> & _ & Hb)|[(-> & _ & ->)|(g & desc & _ & _ & -> & ->)]].
    - destruct (tidy_situation_context game_state g Ht) as (desc & Hd). congruence.
    - apply Hlocal.
    - apply finish_returns, get_plan_is_plan. }
  destruct (30 <? now - last_strategic_think (stats self))%float; [exact Hstrat|].
  destruct c; [exact Hstrat|].
  destruct (match get_highest_priority_goal (goals self) with
            | Some g => 7 <=? priority g | None => false end);
    [exact Hstrat|apply Hlocal].
Qed.

End Runtime.

(** X14. One cycle of [make_intelligent_decision] of main_bot_enhanced
    either raises and leaves the bot as it was, or returns a plan (a dict
    with action, duration and reason) tagged with its tier: REFLEX,
    STRATEGIC or LOCAL.  It then has counted the decision in the counter of
    that tier and in no other: that counter is up by one and the other two
    are as they were.  It has left the registry of goals alone, and the log
    has at most 20 entries or at most as many as before. *)
Theorem cycle_tags_counts_and_logs py_format json_format py_eq json_loads post
    self game_state now :
  match make_intelligent_decision py_format json_format py_eq json_loads post
          self game_state now with
  | (Raise _, self') => self' = self
  | (Ok v, self') =>
      is_plan v /\
      (exists tier,
         tagged v tier /\
         (tier = "REFLEX" \/ tier = "STRATEGIC" \/ tier = "LOCAL") /\
         counters self' = counted tier (counters self)) /\
      decisions_counted self' = decisions_counted self + 1 /\
      goals self' = goals self /\
      (List.length (log self') <= Nat.max 20 (List.length (log self)))%nat
  end.
Proof.
  destruct (make_intelligent_decision _ _ _ _ _ self game_state now) as [r self'] eqn:E.
  apply decide_cases in E.
  destruct E as [(e & -> & ->)
                |(d & tier & -> & Hp & Ht & Hcase & Hc & Hg & _ & Hl & Hcount)];
    [reflexivity|].
  split; [exact Hp|]. split; [|auto].
  exists tier. split; [exists d; auto|]. auto.
Qed.

(** The counters after a first cycle on a quiet scene, 100 seconds after the
    start and with the backend down: the cycle is due for the strategic tier,
    whose brain answers with its fallback plan; one strategic decision is
    counted, no other. *)
Lemma first_quiet_cycle_counts_strategic :
  counters (snd (dead_cycle (__init__ 0) quiet_scene 100)) = (0, 1, 0) /\
  counters (snd (dead_cycle (__init__ 0) quiet_scene 10)) = (0, 0, 1).
Proof. split; vm_compute; reflexivity. Qed.

Lemma tidy_quiet_scene : tidy quiet_scene.
Proof.
  split.
  - exists []. split; [vm_compute; reflexivity|constructor].
  - vm_compute. discriminate.
Qed.

Lemma tidy_scene_gets_a_decision_witness :
  exists v self', dead_cycle (__init__ 0) quiet_scene 100 = (Ok v, self').
Proof.
  exact (tidy_scene_gets_a_decision blind_format action_text never_equal Json.loads
           dead_backend (__init__ 0) quiet_scene 100 tidy_quiet_scene).
Defined.

Lemma goal_states_dict_set registry goal_id g on :
  dict_get registry goal_id = Some g ->
  map (fun kv => (fst kv, enabled (snd kv))) (dict_set registry goal_id (with_enabled g on))
  = dict_set (map (fun kv => (fst kv, enabled (snd kv))) registry) goal_id on /\
  map fst (dict_set registry goal_id (with_enabled g on)) = map fst registry.
Proof.
  induction registry as [|[k v] rest IH]; cbn; [discriminate|].
  destruct (String.eqb goal_id k) eqn:E.
  - intros _. cbn. auto.
  - intros H. destruct (IH H) as [IH1 IH2]. cbn. rewrite IH1, IH2. auto.
Qed.

Lemma reachable_invariant self :
  reachable self ->
  shared_goals self = get_goal_states self /\
  map fst (goals self) = map fst initial_goals /\
  (List.length (log self) <= 20)%nat.
Proof.
  induction 1 as [now|self goal_id on H (IH1 & IH2 & IH3)
                 |py_format json_format py_eq json_loads post self game_state now
                    H (IH1 & IH2 & IH3)].
  - repeat split. cbn. lia.
  - unfold set_goal_enabled, main_bot_enhanced.set_goal_enabled, get_goal_states in *.
    destruct (dict_get (goals self) goal_id) as [g|] eqn:Hg; cbn [snd goals shared_goals log].
    + destruct (goal_states_dict_set _ _ _ on Hg) as [E1 E2].
      rewrite E1, E2, IH1. auto.
    + auto.
  - destruct (make_intelligent_decision _ _ _ _ _ self game_state now) as [[v|e] self'] eqn:E;
      cbn [snd].
    + apply decide_cases in E.
      destruct E as [(e & He & _)|(d & tier & _ & _ & _ & _ & _ & Hg & Hsg & Hl)];
        [discriminate He|].
      unfold get_goal_states in *. rewrite Hsg, Hg. repeat split; auto. lia.
    + apply decide_cases in E.
      destruct E as [(e' & _ & ->)|(d & tier & He & _)]; [auto|discriminate He].
Qed.

(** X16. In every state the bot reaches by goal switches and decision
    cycles, the goal map shown on the dashboard equals the enablement flags
    of the registry, the registry holds the six initial goal ids in their
    order, and the log has at most 20 entries. *)
Theorem dashboard_stays_true_and_log_short self :
  reachable self ->
  shared_goals self = get_goal_states self /\
  map fst (goals self) = map fst initial_goals /\
  (List.length (log self) <= 20)%nat.
Proof. apply reachable_invariant. Qed.

Lemma dashboard_stays_true_and_log_short_witness :
  shared_goals (snd (set_goal_enabled (__init__ 0) "fishing" true))
  = get_goal_states (snd (set_goal_enabled (__init__ 0) "fishing" true)).
Proof.
  exact (proj1 (dashboard_stays_true_and_log_short _
                  (reach_switch (__init__ 0) "fishing" true (reach_init 0)))).
Defined.

Lemma active_goals_are_keys registry goal_id :
  In goal_id (get_active_goals registry) -> In goal_id (map fst registry).
Proof.
  unfold get_active_goals. rewrite in_map_iff. intros ([k g] & <- & Hin).
  apply List.filter_In in Hin as [Hin _]. apply in_map_iff. exists (k, g). auto.
Qed.

(** X17. The exploration reflex is never taken: the reflex tier looks for a
    goal named explore among the active goal ids, and the registry has none
    (its exploration goal is explore_and_map).  With the active goals of any
    reachable state the reflex tier does not answer with the exploration
    reflex, and a scene without person and without container gets no reflex
    at all. *)
Theorem exploration_reflex_is_never_taken self game_state :
  reachable self ->
  let answer := check_instant_response game_state (get_active_goals (goals self)) in
  answer <> Ok (Some explore) /\
  (has_enemy_of game_state = Ok false -> has_loot_of game_state = Ok false ->
   answer = Ok None).
Proof.
  intros Hr answer. subst answer.
  assert (Hno : str_in_list "explore" (get_active_goals (goals self)) = false).
  { destruct (str_in_list "explore" (get_active_goals (goals self))) eqn:E; [|reflexivity].
    apply goal_manager_facts.str_in_list_In, active_goals_are_keys in E.
    rewrite (proj1 (proj2 (reachable_invariant self Hr))) in E.
    cbn in E. exfalso. intuition discriminate. }
  split.
  - intros H. apply instant_response_cases in H.
    destruct H as [H|[H|[H|[_ H]]]]; try discriminate H. congruence.
  - intros He Hl. unfold check_instant_response. rewrite He, Hl, Hno. reflexivity.
Qed.

Lemma exploration_reflex_is_never_taken_witness :
  check_instant_response quiet_scene
    (get_active_goals (goals (snd (set_goal_enabled (__init__ 0) "fishing" true))))
  = Ok None.
Proof.
  refine (proj2 (exploration_reflex_is_never_taken
                   (snd (set_goal_enabled (__init__ 0) "fishing" true)) quiet_scene
                   (reach_switch (__init__ 0) "fishing" true (reach_init 0))) _ _);
    vm_compute; reflexivity.
Defined.

(** X18. When the reflex tier has no answer, the cycle calls for strategic
    thinking and a goal is enabled, the decision is the plan of
    [LocalBrain.get_plan] tagged STRATEGIC: the brain returns a plan in
    every case, so the local tier is not reached.  The bot keeps the brain
    as [get_plan] left it, counts one more strategic decision, and records
    the time of the cycle as the time of the last strategic thought. *)
Theorem strategic_tier_always_answers py_format json_format py_eq json_loads post
    self game_state now g desc :
  check_instant_response game_state (get_active_goals (goals self)) = Ok None ->
  needs_strategic self game_state (get_highest_priority_goal (goals self)) now = Ok true ->
  get_highest_priority_goal (goals self) = Some g ->
  _build_situation_context py_format game_state g = Ok desc ->
  let asked :=
    local_llm_module.get_plan json_loads post (brain self) (strategic_prompt g desc) in
  let done :=
    make_intelligent_decision py_format json_format py_eq json_loads post
      self game_state now in
  fst done = json_setitem (fst asked) "tier" (JStr "STRATEGIC") /\
  is_plan (fst asked) /\
  brain (snd done) = snd asked /\
  last_strategic_think (stats (snd done)) = now /\
  strategic_decisions (stats (snd done)) = strategic_decisions (stats self) + 1.
Proof.
  intros Hreflex Hneed Hgoal Hdesc asked done. subst done.
  pose proof (get_plan_is_plan json_loads post (brain self) (strategic_prompt g desc)) as Hp.
  fold asked in Hp.
  unfold make_intelligent_decision. rewrite Hreflex. cbn [if_truthy]. rewrite Hneed.
  destruct (_strategic_decision py_format json_loads post (brain self) game_state
              (get_highest_priority_goal (goals self))) as [sr brain'] eqn:Hs.
  apply strategic_decision_cases in Hs. rewrite Hgoal in Hs.
  destruct Hs as [(e & g' & _ & _ & [= <-] & Hb)|[(_ & [=] & _)|(g' & desc' & [= <-] & Hb & -> & ->)]].
  { congruence. }
  assert (desc' = desc) as -> by congruence. fold asked.
  destruct Hp as (d & Hd & _). 
  assert (Hp' : is_plan (fst asked))
    by apply (get_plan_is_plan json_loads post (brain self) (strategic_prompt g desc)).
  rewrite Hd in *. cbn [finish json_setitem fst snd].
  pose proof (log_decision_fields json_format py_eq
                (with_stats (with_brain self (snd asked))
                   (set_last_strategic_think
                      (set_strategic_decisions (stats (with_brain self (snd asked)))
                         (strategic_decisions (stats (with_brain self (snd asked))) + 1))
                      now))
                tier_strategic (dict_set d "tier" (JStr "STRATEGIC"))) as Hl.
  cbv zeta in Hl. destruct Hl as (Hb' & _ & _ & _ & Hs' & _ & Hlast & _).
  repeat split; [exact Hp'|rewrite Hb'; reflexivity|rewrite Hlast; reflexivity
                |rewrite Hs'; reflexivity].
Qed.

Lemma strategic_tier_always_answers_witness :
  fst (dead_cycle (__init__ 0) quiet_scene 100)
  = Ok (JObj [("action", JStr "TAB"); ("duration", JFloat (Dec 1 (-1)));
              ("reason", JStr "check_map_for_orientation");
              ("source", JStr "orientation_fallback"); ("tier", JStr "STRATEGIC")]).
Proof.
  refine (eq_trans
            (proj1 (strategic_tier_always_answers blind_format action_text never_equal
                      Json.loads dead_backend (__init__ 0) quiet_scene 100
                      (goal "explore_and_map" "Exploration & Mapping"
                         "Discover locations and build world knowledge" true 2)
                      "normal exploration" _ _ _ _)) _);
    vm_compute; reflexivity.
Defined.

End enhanced_bot_facts.

(** ** Substrings of concatenations *)

Module string_facts.

Lemma lower_app a b : lower (a +:+ b) = lower a +:+ lower b.
Proof.
  induction a as [|c a IH]; [reflexivity|].
  change (String c a +:+ b) with (String c (a +:+ b)).
  cbn [lower]. rewrite IH. reflexivity.
Qed.

Lemma prefix_app x a b : String.prefix x a = true -> String.prefix x (a +:+ b) = true.
Proof.
  revert a. induction x as [|c x IH]; intros a; [intros _; now destruct (a +:+ b)|].
  destruct a as [|c' a]; [discriminate|].
  change (String c' a +:+ b) with (String c' (a +:+ b)). cbn [String.prefix].
  destruct (ascii_dec c c'); [apply IH|discriminate].
Qed.

Lemma contains_app_l x a b : contains x a = true -> contains x (a +:+ b) = true.
Proof.
  induction a as [|c a IH].
  - cbn [contains]. destruct (String.prefix x "") eqn:E; [|discriminate].
    intros _. destruct x; [|discriminate E]. now destruct b.
  - change (String c a +:+ b) with (String c (a +:+ b)). cbn [contains].
    destruct (String.prefix x (String c a)) eqn:E.
    + intros _. apply (prefix_app x (String c a) b) in E.
      change (String c a +:+ b) with (String c (a +:+ b)) in E. now rewrite E.
    + intros H. rewrite (IH H).
      destruct (String.prefix x (String c (a +:+ b))); reflexivity.
Qed.

Lemma contains_app_r x a b : contains x b = true -> contains x (a +:+ b) = true.
Proof.
  intros H. induction a as [|c a IH]; [exact H|].
  change (String c a +:+ b) with (String c (a +:+ b)). cbn [contains].
  rewrite IH. destruct (String.prefix x (String c (a +:+ b))); reflexivity.
Qed.

End string_facts.

(** ** From plans to controller calls *)

Module dispatch_facts.
Import main_bot_enhanced.IntelligentFallout76AI.
Import local_llm_module local_llm_module_spec local_llm_module_facts.
Import dispatch_spec string_facts.

(** X19. Both main loops hand [press] only action names that are keys of
    ACTION_TO_KEY: [execute_action] of main_bot_enhanced and that of
    main_bot pass the action through their own lists first, so the
    rejection of unknown names in [press] is never reached from them. *)
Theorem loops_press_only_mapped_keys :
  (forall decision a duration,
     execute_action decision = Press a duration ->
     dict_mem input_emulator.ACTION_TO_KEY (upper a) = true) /\
  (forall action_data steps a duration,
     main_bot.execute_action action_data = Ok steps ->
     In (main_bot.Press a duration) steps ->
     dict_mem input_emulator.ACTION_TO_KEY (upper a) = true).
Proof.
  split.
  - intros decision a duration. unfold execute_action.
    destruct (dict_get_default decision "action" (JStr "WAIT")) as [| | | |s| |];
      try discriminate.
    destruct (String.eqb s "SMOOTH_LOOK"); [discriminate|].
    destruct (str_in_list s _) eqn:E.
    + intros [= <- _]. apply goal_manager_facts.str_in_list_In in E. cbn in E.
      repeat destruct E as [<-|E]; try reflexivity. contradiction.
    + destruct (String.eqb s "WAIT"); discriminate.
  - intros action_data steps a duration. unfold main_bot.execute_action.
    destruct (dict_get_default action_data "action" (JStr "WAIT")) as [| | | |s| |];
      try discriminate.
    destruct (String.eqb (upper s) "M").
    { intros [= <-]. cbn. intros [[= <- _]|[[=]|[[= <- _]|[]]]]; reflexivity. }
    destruct (str_in_list (upper s) _) eqn:E.
    + destruct (String.eqb (upper s) "WAIT") eqn:Ew.
      * intros [= <-]. cbn. intros [[=]|[]].
      * intros [= <-]. cbn. intros [[= <- _]|[]].
        apply goal_manager_facts.str_in_list_In in E. cbn in E.
        repeat (destruct E as [E|E]; [rewrite <- E in *; first [reflexivity|discriminate Ew]|]).
        contradiction.
    + intros [= <-]. cbn. intros [[=]|[]].
Qed.

Lemma fallback_plans_dispatched v : In v fallback_plans -> dispatched v.
Proof.
  intros H. cbn in H.
  destruct H as [<-|[<-|[<-|[<-|[<-|[]]]]]]; eexists; (split; [reflexivity|]).
  - right. right. split; [reflexivity|]. left. eexists _, _. reflexivity.
  - left. repeat split.
  - right. right. split; [reflexivity|]. left. eexists _, _. reflexivity.
  - right. right. split; [reflexivity|]. left. eexists _, _. reflexivity.
  - right. left. repeat split.
Qed.

(** X20. What the loops do with the plans [LocalBrain] makes up itself (the
    smart fallback plans and the plans of the keyword scan): main_bot_enhanced
    carries each of them out except the TAB plans, which it reports as an
    unknown action; main_bot reports TAB and SMOOTH_LOOK as unknown.  So a
    prompt that calls for orientation and names no threat yields a fallback
    plan that neither loop executes. *)
Theorem home_made_plans_are_dispatched prompt text :
  dispatched (_generate_smart_fallback_plan prompt) /\
  dispatched (_extract_action_from_text text) /\
  (any_word_in ["threat"; "enemy"; "combat"; "danger"; "person"] (lower prompt) = false ->
   any_word_in ["location unknown"; "map"; "bearings"; "orient"] (lower prompt) = true ->
   exists d, _generate_smart_fallback_plan prompt = JObj d /\
             execute_action d = Unknown (JStr "TAB") /\
             main_bot.execute_action d = Ok [main_bot.LogUnknown "TAB"]).
Proof.
  split; [|split].
  - apply fallback_plans_dispatched, smart_fallback_in_table.
  - unfold _extract_action_from_text.
    repeat match goal with
           | |- context [if ?c then _ else _] => destruct c
           end;
      eexists; (split; [reflexivity|]);
      first [ left; repeat split; reflexivity
            | right; left; repeat split; reflexivity
            | right; right; split; [reflexivity|];
              first [left; eexists _, _; reflexivity|right; eexists; reflexivity] ].
  - intros Ht Ho. unfold _generate_smart_fallback_plan. rewrite Ht, Ho.
    eexists. repeat split.
Qed.

End dispatch_facts.

(** ** main_bot: the decision and its fallback *)

Module main_bot_facts.
Import local_llm_module local_llm_module_spec local_llm_module_facts.
Import main_bot string_facts.

Lemma brain_plan_used json_loads post brain context :
  let asked := get_plan json_loads post brain (decision_prompt context) in
  make_intelligent_decision json_loads post brain context = (Ok (fst asked), snd asked) /\
  is_plan (fst asked).
Proof.
  intros asked. pose proof (get_plan_is_plan json_loads post brain (decision_prompt context)) as Hp.
  fold asked in Hp. split; [|exact Hp].
  unfold make_intelligent_decision. fold asked. destruct asked as [v b]. cbn [fst snd] in *.
  destruct Hp as (d & -> & Ha & _).
  assert (Ht : truthy (JObj d) = true) by (destruct d; [discriminate Ha|reflexivity]).
  rewrite Ht. cbn [json_in]. rewrite Ha. reflexivity.
Qed.

(** X21. [make_intelligent_decision] of main_bot always returns the plan of
    the brain: [LocalBrain.get_plan] returns a dict with an action in every
    case, so the test for a missing plan never fails and the decision never
    comes from [fallback_decision]. *)
Theorem brain_plan_is_always_used json_loads post brain context :
  let asked := get_plan json_loads post brain (decision_prompt context) in
  make_intelligent_decision json_loads post brain context = (Ok (fst asked), snd asked) /\
  is_plan (fst asked) /\
  (forall v, fst (make_intelligent_decision json_loads post brain context) = Ok v ->
             v = fallback_decision context -> v = fst asked).
Proof.
  intros asked. destruct (brain_plan_used json_loads post brain context) as [E Hp].
  fold asked in E, Hp. split; [exact E|]. split; [exact Hp|].
  rewrite E. cbn [fst]. intros v [= <-] _. reflexivity.
Qed.

Lemma prompt_mentions_the_map context :
  contains "map" (lower (decision_prompt context)) = true.
Proof.
  unfold decision_prompt. rewrite !lower_app.
  apply contains_app_r, contains_app_r, contains_app_l. vm_compute. reflexivity.
Qed.

(** X22. In main_bot the prompt itself mentions the map, in its list of
    actions.  So when every request fails, the decision is the combat plan
    (VATS) if the prompt names a threat and the orientation plan (TAB)
    otherwise, never one of the other three fallback plans; and
    [execute_action] of main_bot reports the TAB plan as an unknown action. *)
Theorem dead_backend_leaves_vats_or_tab json_loads post brain context :
  (forall url body, exists e, post url body = Raise e) ->
  fst (make_intelligent_decision json_loads post brain context)
  = Ok (if any_word_in ["threat"; "enemy"; "combat"; "danger"; "person"]
             (lower (decision_prompt context))
        then _combat_fallback_plan else _orientation_fallback_plan) /\
  execute_action
    (with_source (plan3 "TAB" (Dec 1 (-1)) "check_map_for_orientation") "orientation_fallback")
  = Ok [LogUnknown "TAB"].
Proof.
  intros Hfail. split; [|reflexivity].
  destruct (brain_plan_used json_loads post brain context) as [-> _].
  cbn [fst].
  assert (E : fst (get_plan json_loads post brain (decision_prompt context))
              = _generate_smart_fallback_plan (decision_prompt context)).
  { unfold get_plan.
    destruct (max_failures_before_fallback brain <=? consecutive_failures brain);
      [reflexivity|].
    unfold get_plan_try.
    destruct (Hfail (api_url_generate brain)
                (payload (_build_qwen_prompt (decision_prompt context)))) as [e ->].
    reflexivity. }
  rewrite E. unfold _generate_smart_fallback_plan.
  destruct (any_word_in ["threat"; "enemy"; "combat"; "danger"; "person"] _); [reflexivity|].
  assert (Hmap : any_word_in ["location unknown"; "map"; "bearings"; "orient"]
                   (lower (decision_prompt context)) = true).
  { unfold any_word_in. cbn [existsb]. rewrite prompt_mentions_the_map.
    now rewrite orb_true_r. }
  rewrite Hmap. reflexivity.
Qed.

Lemma dead_backend_leaves_vats_or_tab_witness :
  fst (make_intelligent_decision Json.loads dead_backend (__init__ "http://deck:5001")
         "VISION: Clear area, no objects detected")
  = Ok _orientation_fallback_plan.
Proof.
  refine (eq_trans
            (proj1 (dead_backend_leaves_vats_or_tab Json.loads dead_backend
                      (__init__ "http://deck:5001")
                      "VISION: Clear area, no objects detected" _)) _).
  - intros url body. exists RequestException. reflexivity.
  - vm_compute. reflexivity.
Defined.

End main_bot_facts.

(** ** comprehensive_fo76_ai: switches, complexity, the routine tier *)

Module companion_facts.
Import comprehensive_fo76_ai.
Import goal_manager_spec goal_manager_facts companion_spec decision_maker_spec Py_facts.

Lemma entries_keys all defaults :
  Forall2 entry_of all defaults ->
  map fst all = map id defaults /\
  map (fun kv => priority (snd kv)) all = map priority defaults.
Proof.
  induction 1 as [|[k v] g0 all defaults [Hk Hv] _ [IH1 IH2]]; [split; reflexivity|].
  cbn in *. rewrite IH1, IH2, Hk, Hv. split; reflexivity.
Qed.

(** X23. In every reachable state of the goal registry of
    comprehensive_fo76_ai, the list of active goals has no duplicates and
    holds exactly the ids of the enabled goals, and the registry holds the
    eight default goals in their order, with their priorities. *)
Theorem registry_keeps_its_shape gm :
  reachable gm ->
  List.NoDup (active_goals gm) /\
  (forall goal_id,
     In goal_id (active_goals gm) <->
     exists g, dict_get (goals gm) goal_id = Some g /\ enabled g = true) /\
  map fst (goals gm) = map id default_goals /\
  map (fun kv => priority (snd kv)) (goals gm) = map priority default_goals.
Proof.
  intros H. destruct (reachable_wf gm H) as [Hent Hnd Hact].
  destruct (entries_keys _ _ Hent). auto.
Qed.

Lemma registry_keeps_its_shape_witness :
  List.NoDup (active_goals busy_registry) /\
  map fst (goals busy_registry) = map id default_goals.
Proof.
  assert (Hreach : reachable busy_registry) by (repeat apply reach_set; apply reach_init).
  split.
  - exact (proj1 (registry_keeps_its_shape busy_registry Hreach)).
  - exact (proj1 (proj2 (proj2 (registry_keeps_its_shape busy_registry Hreach)))).
Defined.

Lemma goal_states_get registry goal_id :
  dict_get (map (fun kv => (fst kv, enabled (snd kv))) registry) goal_id
  = option_map enabled (dict_get registry goal_id).
Proof.
  induction registry as [|[k v] rest IH]; cbn; [reflexivity|].
  destruct (String.eqb goal_id k); [reflexivity|exact IH].
Qed.

Lemma dict_set_keys {V} (d : list (string * V)) k v v0 :
  dict_get d k = Some v0 -> map fst (dict_set d k v) = map fst d.
Proof.
  induction d as [|[k' v'] rest IH]; cbn; [discriminate|].
  destruct (String.eqb k k'); [reflexivity|]. intros H. cbn. now rewrite IH.
Qed.

(** X24. [set_goal_state] followed by [get_goal_states]: the switched goal
    reads back as set, every other goal reads as before, the order of the
    goals is unchanged, the decision maker is untouched, and an unknown id
    changes nothing. *)
Theorem goal_switch_round_trip self goal_id on g :
  dict_get (goals (goal_manager self)) goal_id = Some g ->
  let self' := set_goal_state self goal_id on in
  dict_get (get_goal_states self') goal_id = Some on /\
  (forall other, other <> goal_id ->
     dict_get (get_goal_states self') other = dict_get (get_goal_states self) other) /\
  map fst (get_goal_states self') = map fst (get_goal_states self) /\
  decision_maker self' = decision_maker self /\
  (forall unknown, dict_get (goals (goal_manager self)) unknown = None ->
     get_goal_states (set_goal_state self unknown on) = get_goal_states self).
Proof.
  intros Hg self'. subst self'. unfold get_goal_states, set_goal_state, set_goal_enabled.
  cbn [goal_manager decision_maker]. rewrite Hg. cbn [goals].
  repeat split.
  - rewrite goal_states_get, dict_get_set_same. reflexivity.
  - intros other Hne. rewrite !goal_states_get, dict_get_set_other by congruence.
    reflexivity.
  - rewrite !map_map. cbn.
    change (map (fun x : string * AIGoal => fst x)) with (@map (string * AIGoal) _ fst).
    eapply dict_set_keys. exact Hg.
  - intros unknown ->. reflexivity.
Qed.

Lemma goal_switch_round_trip_witness :
  dict_get (get_goal_states (set_goal_state fresh_companion "fishing" true)) "fishing"
  = Some true.
Proof.
  exact (proj1 (goal_switch_round_trip fresh_companion "fishing" true
                  (goal "fishing" "Fishing Activities"
                     "Fish at various locations when not doing events" false 3
                     [("preferred_locations",
                        PyList [PyStr "Fisherman's Rest"; PyStr "Rivers"; PyStr "Lakes"])])
                  eq_refl)).
Defined.

Lemma dict_set_twice {V} (d : list (string * V)) k v v' :
  dict_set (dict_set d k v) k v' = dict_set d k v'.
Proof.
  induction d as [|[k' v0] rest IH]; cbn.
  - now rewrite String.eqb_refl.
  - destruct (String.eqb k k') eqn:E; cbn; rewrite E; [reflexivity|now rewrite IH].
Qed.

Lemma str_in_list_snoc x l : str_in_list x (l ++ [x]) = true.
Proof. apply str_in_list_In, in_or_app. right. now left. Qed.

Lemma str_in_list_removed x l : List.NoDup l -> str_in_list x (list_remove x l) = false.
Proof.
  intros Hnd. destruct (str_in_list x (list_remove x l)) eqn:E; [|reflexivity].
  apply str_in_list_In, In_list_remove in E; [|exact Hnd]. tauto.
Qed.

(** X25. Switching a goal twice the same way is the same as switching it
    once.  Switching a registered goal off and on again moves it to the end
    of the list of active goals, the list whose order breaks ties of
    priority. *)
Theorem switching_twice_and_back gm goal_id on :
  reachable gm ->
  set_goal_enabled (set_goal_enabled gm goal_id on) goal_id on
  = set_goal_enabled gm goal_id on /\
  (forall g, dict_get (goals gm) goal_id = Some g ->
     active_goals (set_goal_enabled (set_goal_enabled gm goal_id false) goal_id true)
     = list_remove goal_id (active_goals gm) ++ [goal_id]).
Proof.
  intros Hr. pose proof (reachable_wf gm Hr) as [_ Hnd _]. split.
  - unfold set_goal_enabled at 2 3.
    destruct (dict_get (goals gm) goal_id) as [g|] eqn:Hg.
    2:{ unfold set_goal_enabled. now rewrite Hg. }
    unfold set_goal_enabled. cbn [goals active_goals]. rewrite dict_get_set_same.
    rewrite dict_set_twice. f_equal.
    destruct on; cbn [andb negb].
    + destruct (str_in_list goal_id (active_goals gm)) eqn:E; cbn [negb].
      * now rewrite E.
      * now rewrite str_in_list_snoc.
    + destruct (str_in_list goal_id (active_goals gm)) eqn:E; cbn [negb].
      * now rewrite str_in_list_removed.
      * now rewrite E.
  - intros g Hg. unfold set_goal_enabled. rewrite Hg. cbn [goals active_goals].
    rewrite dict_get_set_same. cbn [active_goals andb negb].
    destruct (str_in_list goal_id (active_goals gm)) eqn:E; cbn [negb].
    + now rewrite str_in_list_removed.
    + rewrite E. cbn.
      assert (Hno : ~ In goal_id (active_goals gm)).
      { rewrite <- str_in_list_In. congruence. }
      clear -Hno. induction (active_goals gm) as [|y l IH]; [reflexivity|].
      cbn. destruct (String.eqb goal_id y) eqn:Ey.
      * apply String.eqb_eq in Ey. subst. exfalso. apply Hno. now left.
      * cbn. f_equal. rewrite IH at 1; [reflexivity|]. intros H. apply Hno. now right.
Qed.

Lemma switching_twice_and_back_witness :
  active_goals
    (set_goal_enabled (set_goal_enabled busy_registry "manage_inventory" false)
       "manage_inventory" true)
  = ["explore_and_map"; "fishing"; "manage_inventory"].
Proof.
  assert (Hreach : reachable busy_registry) by (repeat apply reach_set; apply reach_init).
  refine (eq_trans
            (proj2 (switching_twice_and_back busy_registry "manage_inventory" true Hreach)
               inventory_goal eq_refl) _).
  reflexivity.
Defined.

Lemma flag_cases context context' key :
  (flag context key = true -> flag context' key = true) ->
  (flag context key = false /\ flag context' key = false) \/
  (flag context key = false /\ flag context' key = true) \/
  (flag context key = true /\ flag context' key = true).
Proof.
  destruct (flag context key), (flag context' key); intros H; auto.
Qed.

(** X26. The complexity score is monotone in the four context flags:
    setting more of them never lowers the score of a goal (in binary64
    arithmetic, the clamp included). *)
Theorem complexity_grows_with_the_flags earlier later g :
  no_flag_cleared earlier later ->
  (_calculate_complexity earlier g <=? _calculate_complexity later g)%float = true.
Proof.
  intros H.
  assert (Hin : Forall (fun key => In key complexity_flags) complexity_flags)
    by (apply List.Forall_forall; auto).
  unfold complexity_flags at 2 in Hin.
  inversion_clear Hin as [|? ? K1 Hin']. inversion_clear Hin' as [|? ? K2 Hin].
  inversion_clear Hin as [|? ? K3 Hin']. inversion_clear Hin' as [|? ? K4 _].
  pose proof (flag_cases _ _ _ (H _ K1)) as H1.
  pose proof (flag_cases _ _ _ (H _ K2)) as H2.
  pose proof (flag_cases _ _ _ (H _ K3)) as H3.
  pose proof (flag_cases _ _ _ (H _ K4)) as H4.
  clear H K1 K2 K3 K4.
  unfold _calculate_complexity.
  destruct H1 as [[-> ->]|[[-> ->]|[-> ->]]];
  destruct H2 as [[-> ->]|[[-> ->]|[-> ->]]];
  destruct H3 as [[-> ->]|[[-> ->]|[-> ->]]];
  destruct H4 as [[-> ->]|[[-> ->]|[-> ->]]];
  destruct (String.eqb (id g) "do_public_events");
  try destruct (String.eqb (id g) "manage_inventory");
  try destruct (String.eqb (id g) "fishing");
  vm_compute; reflexivity.
Qed.

Lemma complexity_grows_with_the_flags_witness :
  (_calculate_complexity calm events_goal <=? _calculate_complexity tense events_goal)%float
  = true.
Proof.
  apply (complexity_grows_with_the_flags calm tense events_goal).
  intros key Hkey. cbn in Hkey.
  destruct Hkey as [<-|[<-|[<-|[<-|[]]]]]; vm_compute; intros H; try discriminate H;
    reflexivity.
Defined.

(** X27. The strategic tier is out of reach of the contexts of the
    program.  For a context that [update_context] has built, whatever the
    game states it was given, [make_decision] takes the routine tier for
    every goal and time as long as the threshold is the 0.7 of [__init__],
    even with the server available and the cooldown over.  With the
    threshold at 0.6, which the connection test sets for an OpenHermes
    server, only the events goal can reach the strategic tier. *)
Theorem program_contexts_stay_routine self context g now :
  program_context context ->
  (complex_decision_threshold self = 0.7%float ->
   make_decision_tier self context g now = Routine) /\
  (complex_decision_threshold self = 0.6%float ->
   make_decision_tier self context g now = Strategic -> id g = "do_public_events").
Proof.
  intros H. unfold make_decision_tier. rewrite (decision_maker_facts.program_context_score context g H).
  unfold base_weight. split; intros ->.
  - destruct (String.eqb (id g) "do_public_events");
      [|destruct (String.eqb (id g) "manage_inventory");
        [|destruct (String.eqb (id g) "fishing")]]; reflexivity.
  - destruct (String.eqb (id g) "do_public_events") eqn:E;
      [intros _; now apply String.eqb_eq in E|].
    destruct (String.eqb (id g) "manage_inventory");
      [|destruct (String.eqb (id g) "fishing")]; cbn; discriminate.
Qed.

Lemma program_contexts_stay_routine_witness :
  program_context raid_context /\
  remote_available (decision_maker connected_companion) = true /\
  make_decision_tier (decision_maker connected_companion) raid_context events_goal 1000 = Routine.
Proof.
  split; [exact decision_maker_facts.raid_context_built|]. split; [reflexivity|].
  exact (proj1 (program_contexts_stay_routine (decision_maker connected_companion) raid_context
                  events_goal 1000 decision_maker_facts.raid_context_built) eq_refl).
Defined.

Lemma routine_decision_cases py_format json_loads generate self context g :
  exists d,
    _routine_decision py_format json_loads generate self context g = (Ok d, self) /\
    ((exists plan, d = dict_set plan "source" (JStr "local_llm")) \/
     d = _fallback_decision context g) /\
    ((exists e, generate (local_model self) (routine_prompt py_format context g)
                  (JObj [("temperature", JFloat (Dec 2 (-1))); ("num_predict", JInt 80)])
                = Raise e) ->
     d = _fallback_decision context g).
Proof.
  unfold _routine_decision, _routine_decision_try, rbind.
  destruct (generate _ _ _) as [response|e].
  2:{ eexists. split; [reflexivity|]. split; [now right|reflexivity]. }
  destruct (json_getitem response "response") as [text|e].
  2:{ eexists. split; [reflexivity|]. split; [now right|]. intros (e' & [=]). }
  destruct (json_as_str text) as [t|e].
  2:{ eexists. split; [reflexivity|]. split; [now right|]. intros (e' & [=]). }
  destruct (re_search re_braces_greedy t) as [json_str|].
  2:{ eexists. split; [reflexivity|]. split; [now right|]. intros (e' & [=]). }
  destruct (json_loads json_str) as [plan|e].
  2:{ eexists. split; [reflexivity|]. split; [now right|]. intros (e' & [=]). }
  eexists. split; [reflexivity|]. split; [left; eauto|]. intros (e' & [=]).
Qed.

(** X28. The routine tier always decides and never raises.  It returns the
    decision of the local model, tagged with source local_llm, or else
    (the model fails, answers without JSON, or with JSON that does not
    decode) the hard-coded fallback of the goal, which has an action, a
    duration and a reason.  The decision maker is left as it was. *)
Theorem routine_tier_always_decides py_format json_loads generate self context g :
  exists d,
    _routine_decision py_format json_loads generate self context g = (Ok d, self) /\
    (dict_get d "source" = Some (JStr "local_llm") \/ d = _fallback_decision context g) /\
    ((exists e, generate (local_model self) (routine_prompt py_format context g)
                  (JObj [("temperature", JFloat (Dec 2 (-1))); ("num_predict", JInt 80)])
                = Raise e) ->
     d = _fallback_decision context g) /\
    dict_mem (_fallback_decision context g) "action" = true /\
    dict_mem (_fallback_decision context g) "duration" = true /\
    dict_mem (_fallback_decision context g) "reason" = true.
Proof.
  destruct (routine_decision_cases py_format json_loads generate self context g)
    as (d & E & Hcase & Hfail).
  exists d. split; [exact E|]. split.
  { destruct Hcase as [(plan & ->) | ->]; [left; apply dict_get_set_same|now right]. }
  split; [exact Hfail|].
  unfold _fallback_decision.
  destruct (String.eqb (id g) "do_public_events"); [repeat split|].
  destruct (String.eqb (id g) "fishing"); [repeat split|].
  destruct (String.eqb (id g) "manage_inventory"); repeat split.
Qed.

(** X29. With the remote server unavailable, a cycle of
    [ComprehensiveAI.make_intelligent_decision] on a reachable registry and
    a context whose weight ratio is a number or absent returns a decision:
    that of the routine tier for the goal of the cycle, with the name of the
    goal and the time; the count of decisions goes up by one, and the
    strategic tier is not called. *)
Theorem cycle_without_server_returns py_format json_loads generate
    (strategic : IntelligentDecisionMaker -> gmap string pyval -> AIGoal -> float ->
                 result (list (string * json)) * IntelligentDecisionMaker)
    self now :
  reachable (goal_manager self) ->
  as_num (ctx_get (current_context self) "weight_ratio" (PyInt 0)) <> None ->
  remote_available (decision_maker self) = false ->
  exists g d,
    current_goal_of self = Ok g /\
    make_intelligent_decision strategic
      (_routine_decision py_format json_loads generate) self now
    = (Ok {| decision := d; decision_goal := name g; decision_timestamp := now |},
       {| goal_manager := goal_manager self; decision_maker := decision_maker self;
          current_context := current_context self;
          total_decisions := total_decisions self + 1 |}) /\
    (dict_get d "source" = Some (JStr "local_llm") \/
     d = _fallback_decision (current_context self) g).
Proof.
  intros Hr Hw Hoff. pose proof (reachable_wf _ Hr) as Hwf.
  assert (Hgoal : exists g, current_goal_of self = Ok g).
  { unfold current_goal_of, get_highest_priority_goal.
    destruct (eligible_goals_returns (goal_manager self) (current_context self)
                (active_goals (goal_manager self)) Hwf Hw) as (el & ->).
    { apply List.Forall_forall. auto. }
    cbn [rbind]. destruct el as [|x el']; cbn [rbind].
    - destruct (exploration_goal_registered _ Hwf) as (ex & -> & _). eauto.
    - change (sort_desc (x :: el')) with (insert_desc x (sort_desc el')).
      rewrite insert_desc_head.
      destruct (sort_desc el') as [|h t]; [eauto|].
      destruct (priority x <? priority h); eauto. }
  destruct Hgoal as (g & Hg). exists g.
  destruct (routine_decision_cases py_format json_loads generate (decision_maker self)
              (current_context self) g) as (d & E & Hcase & _).
  exists d. split; [exact Hg|]. split.
  - unfold make_intelligent_decision. rewrite Hg. unfold make_decision, make_decision_tier.
    rewrite Hoff, andb_false_r. cbn [andb]. rewrite E. reflexivity.
  - destruct Hcase as [(plan & ->) | ->]; [left; apply dict_get_set_same|now right].
Qed.

Lemma cycle_without_server_returns_witness :
  exists g d,
    current_goal_of fresh_companion = Ok g /\
    make_intelligent_decision (fun self _ _ _ => (Raise RequestException, self))
      (_routine_decision plain_text Json.loads no_model) fresh_companion 1000
    = (Ok {| decision := d; decision_goal := name g; decision_timestamp := 1000 |},
       {| goal_manager := goal_manager fresh_companion;
          decision_maker := decision_maker fresh_companion;
          current_context := current_context fresh_companion;
          total_decisions := total_decisions fresh_companion + 1 |}) /\
    (dict_get d "source" = Some (JStr "local_llm") \/
     d = _fallback_decision (current_context fresh_companion) g).
Proof.
  refine (cycle_without_server_returns plain_text Json.loads no_model
            (fun self _ _ _ => (Raise RequestException, self))
            fresh_companion 1000 reach_init _ eq_refl).
  vm_compute. discriminate.
Defined.

End companion_facts.

(** ** The two item rules *)

Module item_rules_facts.

(** X30. For an item the knowledge cache does not hold, the two
    [should_keep_item] verdicts agree, except that the rule of
    main_bot_enhanced scraps an item named scrap or junk where the rule of
    comprehensive_fo76_ai sells it. *)
Theorem item_rules_agree_but_for_scrap item_knowledge item_name :
  dict_get item_knowledge item_name = None ->
  let quick := main_bot_enhanced.should_keep_item item_name in
  let full := comprehensive_fo76_ai.should_keep_item item_knowledge item_name in
  (quick <> "scrap" -> full = quick) /\
  (quick = "scrap" -> full = "sell") /\
  In quick ["learn_then_sell"; "evaluate"; "scrap"; "sell"].
Proof.
  intros Hk quick full. subst quick full.
  unfold main_bot_enhanced.should_keep_item, comprehensive_fo76_ai.should_keep_item.
  rewrite Hk.
  assert (Hne : forall a b : string, String.eqb a b = false -> a = b -> False)
    by (intros a b E ->; now rewrite String.eqb_refl in E).
  destruct (contains "plan" (lower item_name));
    [|destruct (contains "legendary" (lower item_name));
      [|destruct (existsb _ _)]];
    (split; [|split]);
    try (cbn; tauto); try reflexivity; try congruence;
    intros H; exfalso; try (now apply H); revert H; now apply Hne.
Qed.

Lemma item_rules_agree_but_for_scrap_witness :
  comprehensive_fo76_ai.should_keep_item [] "Steel Scrap" = "sell" /\
  main_bot_enhanced.should_keep_item "Steel Scrap" = "scrap".
Proof.
  split; [|reflexivity].
  exact (proj1 (proj2 (item_rules_agree_but_for_scrap [] "Steel Scrap" eq_refl)) eq_refl).
Defined.

End item_rules_facts.
